(** * weather-visualcrossing: the addressing and accessor protocol of [lib/weather.js]

    A shallow embedding of the [Weather] class of [lib/weather.js] and of the
    helpers of [lib/utils.js] it calls, followed by the properties of the
    addressing protocol (day and datetime identifiers), of the replace and merge
    primitives and of the date-expression validator.

    Modelling conventions.
    - A JavaScript value is a [val]; objects and arrays live in a [heap] and are
      named by a location, so that two references to one object alias.
    - A number is an IEEE-754 value ([spec_float]); a string is a [string] of
      code units.
    - A method is a function of the heap returning an [outcome] and the heap it
      leaves behind: the heap is returned on an exception too, because whatever
      was written before a [throw] stays written.
    - The fragment that is modelled: arrays are used as sequences and carry no
      named property, plain objects are used as records and their property names
      are field names (never the decimal form of an array index, never a name
      inherited from a prototype).  Where an operation leaves this fragment (a
      string iterated as a sequence, a named property written on an array, a
      location that was never allocated, a function of [Object.prototype] read
      under a name a record only inherits) the model answers [Unmodelled]; no
      property below is proved through that answer. *)

From Stdlib Require Import ZArith String Ascii List Bool Lia.
From Stdlib Require Import Floats.SpecFloat.
From stdpp Require Import base option list gmap strings fin_maps.

Local Open Scope string_scope.
Local Open Scope list_scope.

(** ** JavaScript values and the heap *)

Definition loc := positive.

Inductive val :=
| VUndef
| VNull
| VBool (b : bool)
| VNum (x : spec_float)
| VStr (s : string)
| VRef (l : loc).

Inductive cell :=
| HObj (props : gmap string val)
| HArr (elems : list val).

Abbreviation heap := (gmap loc cell).

(** The exceptions the module can raise.  The three explicit [throw new
    TypeError(...)] of the addressing code are kept apart from the TypeError the
    engine raises by itself (a property read or written on [null] or
    [undefined], a call of something that is not a function, an iteration of
    something that is not iterable). *)
Inductive exn :=
| InvalidIdentifierType (method : string) (v : val)
| InvalidDataType (method : string) (v : val)
| NativeTypeError
| InvalidType (method : string) (v : val)
| InvalidFormat (method : string) (s : string).

Inductive outcome (A : Type) :=
| Ret (a : A)
| Throw (e : exn)
| Unmodelled.
Arguments Ret {A} a.
Arguments Throw {A} e.
Arguments Unmodelled {A}.

Definition M (A : Type) : Type := heap -> outcome A * heap.

Definition ret {A} (a : A) : M A := fun h => (Ret a, h).
Definition throw {A} (e : exn) : M A := fun h => (Throw e, h).
Definition unmodelled {A} : M A := fun h => (Unmodelled, h).

Definition bind {A B} (m : M A) (k : A -> M B) : M B :=
  fun h =>
    match m h with
    | (Ret a, h') => k a h'
    | (Throw e, h') => (Throw e, h')
    | (Unmodelled, h') => (Unmodelled, h')
    end.

(** [try { m } catch(error) { handler }] *)
Definition try_catch {A} (m : M A) (handler : exn -> M A) : M A :=
  fun h =>
    match m h with
    | (Throw e, h') => handler e h'
    | r => r
    end.

(** A read of the heap, which leaves it as it is. *)
Definition lift {A} (f : heap -> outcome A) : M A := fun h => (f h, h).

Notation "x <- m ;; k" := (bind m (fun x => k))
  (at level 100, m at next level, right associativity).
Notation "m ;;; k" := (bind m (fun _ => k))
  (at level 100, right associativity).

(** ** Primitive operations of the language *)

Definition typeof (v : val) : string :=
  match v with
  | VUndef => "undefined"
  | VNull => "object"
  | VBool _ => "boolean"
  | VNum _ => "number"
  | VStr _ => "string"
  | VRef _ => "object"
  end.

Definition num_zero : val := VNum (S754_zero false).

(** [v === 0] *)
Definition is_zero (v : val) : bool :=
  match v with
  | VNum (S754_zero _) => true
  | _ => false
  end.

(** ToBoolean *)
Definition truthy (v : val) : bool :=
  match v with
  | VUndef | VNull => false
  | VBool b => b
  | VNum (S754_zero _) | VNum S754_nan => false
  | VNum _ => true
  | VStr s => negb (String.eqb s "")
  | VRef _ => true
  end.

(** [v || null] *)
Definition or_null (v : val) : val := if truthy v then v else VNull.

(** [v === s] for a value [s] known to be a string *)
Definition strict_eq_str (v : val) (s : string) : bool :=
  match v with
  | VStr s' => String.eqb s' s
  | _ => false
  end.

(** [v.k] for a field name [k] *)
Definition read_prop (h : heap) (v : val) (k : string) : outcome val :=
  match v with
  | VUndef | VNull => Throw NativeTypeError
  | VBool _ | VNum _ | VStr _ => Ret VUndef
  | VRef l =>
      match h !! l with
      | Some (HObj props) => Ret (default VUndef (props !! k))
      | Some (HArr _) => Ret VUndef
      | None => Unmodelled
      end
  end.

Definition get_prop (v : val) (k : string) : M val :=
  lift (fun h => read_prop h v k).

(** [v?.k] *)
Definition opt_chain (v : val) (k : string) : M val :=
  match v with
  | VUndef | VNull => ret VUndef
  | _ => get_prop v k
  end.

(** [v.k = x] in strict mode (the module is an ES module) *)
Definition set_prop (v : val) (k : string) (x : val) : M unit :=
  match v with
  | VUndef | VNull | VBool _ | VNum _ | VStr _ => throw NativeTypeError
  | VRef l => fun h =>
      match h !! l with
      | Some (HObj props) => (Ret tt, <[l := HObj (<[k := x]> props)]> h)
      | _ => (Unmodelled, h)
      end
  end.

(** The position a number names in an array: [Some i] when the number is a
    non-negative integer, [None] otherwise (a negative, fractional, infinite or
    NaN key names no element).  An array has fewer than 2^32 - 1 elements, so
    an integer past that bound names no element either, as for any position
    past the end. *)
Definition array_index (x : spec_float) : option nat :=
  match x with
  | S754_zero _ => Some 0
  | S754_finite false m e =>
      if (0 <=? e)%Z then Some (Z.to_nat (Z.pos m * 2 ^ e))
      else if (Z.pos m mod 2 ^ (- e) =? 0)%Z
           then Some (Z.to_nat (Z.pos m / 2 ^ (- e)))
           else None
  | _ => None
  end.

(** The elements of [src] as [src.find(...)] and [for(... of src)] see them. *)
Definition iterate (h : heap) (src : val) : outcome (list val) :=
  match src with
  | VUndef | VNull | VBool _ | VNum _ => Throw NativeTypeError
  | VStr _ => Unmodelled
  | VRef l =>
      match h !! l with
      | Some (HArr xs) => Ret xs
      | Some (HObj _) => Throw NativeTypeError
      | None => Unmodelled
      end
  end.

(** [src.find] exists on arrays only. *)
Definition find_elems (h : heap) (src : val) : outcome (list val) :=
  match src with
  | VStr _ => Throw NativeTypeError
  | _ => iterate h src
  end.

(** [src[n]] for a number [n] *)
Definition read_index (h : heap) (src : val) (n : spec_float) : outcome val :=
  match src with
  | VUndef | VNull => Throw NativeTypeError
  | VBool _ | VNum _ => Ret VUndef
  | VStr _ => Unmodelled
  | VRef l =>
      match h !! l with
      | Some (HArr xs) =>
          match array_index n with
          | Some i => Ret (default VUndef (xs !! i))
          | None => Ret VUndef
          end
      | _ => Unmodelled
      end
  end.

Definition get_index (src : val) (n : spec_float) : M val :=
  lift (fun h => read_index h src n).

(** The first element [item] of [xs] with [item.datetime === s], as
    [xs.find(item => item.datetime === s)] and the [for ... of] loops with
    [break] look for it; [None] when no element matches.  The elements before
    it are read on the way, and reading [datetime] of a [null] or [undefined]
    element raises. *)
Fixpoint first_with_datetime (h : heap) (s : string) (xs : list val)
  : outcome (option val) :=
  match xs with
  | [] => Ret None
  | item :: rest =>
      match read_prop h item "datetime" with
      | Ret d => if strict_eq_str d s then Ret (Some item)
                 else first_with_datetime h s rest
      | Throw e => Throw e
      | Unmodelled => Unmodelled
      end
  end.

(** [src.find(item => item.datetime === s)] *)
Definition find_by_datetime (src : val) (s : string) : M val :=
  lift (fun h =>
    match find_elems h src with
    | Ret xs =>
        match first_with_datetime h s xs with
        | Ret o => Ret (default VUndef o)
        | Throw e => Throw e
        | Unmodelled => Unmodelled
        end
    | Throw e => Throw e
    | Unmodelled => Unmodelled
    end).

(** [for(const item of src){ if(item.datetime === s){ body(item); break; } }] *)
Definition for_first_with_datetime (src : val) (s : string) (body : val -> M unit)
  : M unit :=
  o <- lift (fun h =>
    match iterate h src with
    | Ret xs => first_with_datetime h s xs
    | Throw e => Throw e
    | Unmodelled => Unmodelled
    end) ;;
  match o with
  | Some item => body item
  | None => ret tt
  end.

(** The own properties of a record used as the source of [Object.assign] or
    of a spread. *)
Definition own_props (h : heap) (v : val) : outcome (gmap string val) :=
  match v with
  | VRef l =>
      match h !! l with
      | Some (HObj props) => Ret props
      | _ => Unmodelled
      end
  | _ => Unmodelled
  end.

(** [Object.assign(target, source)] on records: every property of the source
    is written on the target. *)
Definition object_assign (target source : val) : M unit :=
  ps <- lift (fun h => own_props h source) ;;
  match target with
  | VRef l => fun h =>
      match h !! l with
      | Some (HObj pt) => (Ret tt, <[l := HObj (ps ∪ pt)]> h)
      | _ => (Unmodelled, h)
      end
  | _ => unmodelled
  end.

(** A new object or array, at a location the heap does not use yet. *)
Definition alloc (c : cell) : M val :=
  fun h => let l := fresh (dom h) in (Ret (VRef l), <[l := c]> h).

(** [{ ...source }]: a fresh record with the properties of the source. *)
Definition spread (source : val) : M val :=
  ps <- lift (fun h => own_props h source) ;;
  alloc (HObj ps).

(** [src[n] = x] on an array, for a number [n] that names one of its positions
    or the position just past its end (the array grows by one).  A position
    further out would leave holes in the array, which the model has not. *)
Definition write_index (src : val) (n : spec_float) (x : val) : M unit :=
  match src with
  | VUndef | VNull | VBool _ | VNum _ | VStr _ => throw NativeTypeError
  | VRef l => fun h =>
      match h !! l, array_index n with
      | Some (HArr xs), Some i =>
          if decide (i < length xs) then (Ret tt, <[l := HArr (<[i := x]> xs)]> h)
          else if decide (i = length xs) then (Ret tt, <[l := HArr (xs ++ [x])]> h)
          else (Unmodelled, h)
      | _, _ => (Unmodelled, h)
      end
  end.

(** The position of the first element with [datetime === s], as the counting
    loop of [setDataOnDay] finds it. *)
Fixpoint index_with_datetime (h : heap) (s : string) (xs : list val) (i : nat)
  : outcome (option nat) :=
  match xs with
  | [] => Ret None
  | item :: rest =>
      match read_prop h item "datetime" with
      | Ret d => if strict_eq_str d s then Ret (Some i)
                 else index_with_datetime h s rest (S i)
      | Throw e => Throw e
      | Unmodelled => Unmodelled
      end
  end.

(** [for(let i = 0; i < src.length; i++){ if(src[i].datetime === s){ src[i] = x; break; } }] *)
Definition replace_first_with_datetime (src : val) (s : string) (x : val) : M unit :=
  fun h =>
    match src with
    | VUndef | VNull => (Throw NativeTypeError, h)
    | VBool _ | VNum _ => (Ret tt, h)
    | VStr _ => (Unmodelled, h)
    | VRef l =>
        match h !! l with
        | Some (HArr xs) =>
            match index_with_datetime h s xs 0 with
            | Ret (Some i) => (Ret tt, <[l := HArr (<[i := x]> xs)]> h)
            | Ret None => (Ret tt, h)
            | Throw e => (Throw e, h)
            | Unmodelled => (Unmodelled, h)
            end
        | Some (HObj _) => (Ret tt, h)
        | None => (Unmodelled, h)
        end
    end.

(** The string-keyed properties of [Object.prototype], which every record
    inherits. *)
Definition object_prototype_names : list string :=
  [ "constructor"; "hasOwnProperty"; "isPrototypeOf"; "propertyIsEnumerable";
    "toLocaleString"; "toString"; "valueOf"; "__proto__";
    "__defineGetter__"; "__defineSetter__"; "__lookupGetter__"; "__lookupSetter__" ].

Definition inherited (key : string) : bool :=
  bool_decide (key ∈ object_prototype_names).

(** [key in v]: true of an own property of a record and of a name the record
    inherits from [Object.prototype].  An array has its positions, [length] and
    the names of [Array.prototype], which are not modelled. *)
Definition has_prop (v : val) (key : string) : M bool :=
  lift (fun h =>
    match v with
    | VRef l =>
        match h !! l with
        | Some (HObj props) => Ret (bool_decide (is_Some (props !! key)) || inherited key)
        | Some (HArr _) => Unmodelled
        | None => Unmodelled
        end
    | _ => Throw NativeTypeError
    end).

(** [v[key]] for a computed key.  An own property of a record gives its value;
    a name the record only inherits gives a function of [Object.prototype]
    (the prototype itself for [__proto__]), which is no value of the model. *)
Definition read_key (h : heap) (v : val) (key : string) : outcome val :=
  match v with
  | VUndef | VNull => Throw NativeTypeError
  | VBool _ | VNum _ | VStr _ => Unmodelled
  | VRef l =>
      match h !! l with
      | Some (HObj props) =>
          match props !! key with
          | Some x => Ret x
          | None => if inherited key then Unmodelled else Ret VUndef
          end
      | Some (HArr _) => Unmodelled
      | None => Unmodelled
      end
  end.

Definition get_key (v : val) (key : string) : M val :=
  lift (fun h => read_key h v key).

(** [v[key] = x] for a computed key.  [__proto__] is an accessor of
    [Object.prototype]: an assignment to it sets the prototype of the object
    instead of a property, which is not modelled. *)
Definition set_key (v : val) (key : string) (x : val) : M unit :=
  if String.eqb key "__proto__" then unmodelled else set_prop v key x.

(** [keys.forEach(key => body(key))] for an array of strings *)
Fixpoint for_each (keys : list string) (body : string -> M unit) : M unit :=
  match keys with
  | [] => ret tt
  | key :: rest => body key ;;; for_each rest body
  end.

(** ** [lib/utils.js] *)

(** [extractSubobjectByKeys(originalDict, keysList)] *)
Definition extractSubobjectByKeys (originalDict : val) (keysList : list string) : M val :=
  subDict <- alloc (HObj ∅) ;;
  for_each keysList (fun key =>
    present <- has_prop originalDict key ;;
    if (present : bool) then
      v <- get_key originalDict key ;;
      set_key subDict key v
    else ret tt) ;;;
  ret subDict.

(** ** The static addressing primitives of [Weather] *)

(** [Weather.filterItemByDatetimeVal(src, datetimeVal)] *)
Definition filterItemByDatetimeVal (src datetimeVal : val) : M val :=
  match datetimeVal with
  | VStr s =>
      item <- find_by_datetime src s ;;
      ret (or_null item)
  | VNum n =>
      item <- get_index src n ;;
      ret (or_null item)
  | _ => throw (InvalidIdentifierType "filterItemByDatetimeVal" datetimeVal)
  end.

(** [typeof data !== 'object' || data === null] *)
Definition not_an_object (data : val) : bool :=
  negb (String.eqb (typeof data) "object")
  || match data with VNull => true | _ => false end.

(** [Weather.setItemByDatetimeVal(src, datetimeVal, data)] *)
Definition setItemByDatetimeVal (src datetimeVal data : val) : M unit :=
  if not_an_object data
  then throw (InvalidDataType "setItemByDatetimeVal" data)
  else
    match datetimeVal with
    | VStr s =>
        (* [Object.assign(item, data, { datetime: datetimeVal })]: the second
           source is a literal with the one property [datetime], so assigning
           it is writing that property on [item]. *)
        for_first_with_datetime src s (fun item =>
          object_assign item data ;;;
          set_prop item "datetime" datetimeVal)
    | VNum n =>
        item <- get_index src n ;;
        if truthy item then
          d <- get_prop item "datetime" ;;
          set_prop data "datetime" d ;;;
          copy <- spread data ;;
          write_index src n copy
        else ret tt
    | _ => throw (InvalidIdentifierType "setItemByDatetimeVal" datetimeVal)
    end.

(** [Weather.updateItemByDatetimeVal(src, datetimeVal, data)] *)
Definition updateItemByDatetimeVal (src datetimeVal data : val) : M unit :=
  if not_an_object data
  then throw (InvalidDataType "updateItemByDatetimeVal" data)
  else
    match datetimeVal with
    | VStr s =>
        for_first_with_datetime src s (fun item =>
          object_assign item data ;;;
          set_prop item "datetime" datetimeVal)
    | VNum n =>
        item <- get_index src n ;;
        if truthy item then
          d <- get_prop item "datetime" ;;
          set_prop data "datetime" d ;;;
          object_assign item data
        else ret tt
    | _ => throw (InvalidIdentifierType "updateItemByDatetimeVal" datetimeVal)
    end.

(** ** The field catalog

    The accessors of the class repeat four bodies, once per field.  The
    enumerations below list the fields that have an accessor pair of each
    granularity, with the property each pair reads and writes and, for the day
    accessors, which of the two bodies the source uses for that field. *)

(** How a day getter turns what it read into its result. *)
Inductive getter_kind :=
| ZeroOrNull   (* [return tmp === 0 ? 0 : (tmp || null);] *)
| OrNull.      (* [return ... || null;] *)

(** How a day setter looks a day up by its date. *)
Inductive setter_kind :=
| ByFind       (* [let day = days.find(...); if(day) day.f = value;] *)
| ByLoop.      (* [for(let day of days){ if(day.datetime === dayInfo){ ...; break; } }] *)

Definition capitalize (s : string) : string :=
  match s with
  | EmptyString => EmptyString
  | String c rest =>
      let n := nat_of_ascii c in
      String (if (97 <=? n)%nat && (n <=? 122)%nat then ascii_of_nat (n - 32) else c) rest
  end.

Module Day.

Inductive field :=
| temp | tempmax | tempmin | feelslike | feelslikemax | feelslikemin
| dew | humidity | precip | precipprob | precipcover | preciptype
| snow | snowdepth | windgust | windspeed | winddir | pressure
| cloudcover | visibility | solarradiation | solarenergy | uvindex
| severerisk | stations
| sunrise | sunriseEpoch | sunset | sunsetEpoch | moonphase
| conditions | description | icon.

Definition name (f : field) : string :=
  match f with
  | temp => "temp" | tempmax => "tempmax" | tempmin => "tempmin"
  | feelslike => "feelslike" | feelslikemax => "feelslikemax"
  | feelslikemin => "feelslikemin" | dew => "dew" | humidity => "humidity"
  | precip => "precip" | precipprob => "precipprob"
  | precipcover => "precipcover" | preciptype => "preciptype"
  | snow => "snow" | snowdepth => "snowdepth" | windgust => "windgust"
  | windspeed => "windspeed" | winddir => "winddir" | pressure => "pressure"
  | cloudcover => "cloudcover" | visibility => "visibility"
  | solarradiation => "solarradiation" | solarenergy => "solarenergy"
  | uvindex => "uvindex" | severerisk => "severerisk" | stations => "stations"
  | sunrise => "sunrise" | sunriseEpoch => "sunriseEpoch" | sunset => "sunset"
  | sunsetEpoch => "sunsetEpoch" | moonphase => "moonphase"
  | conditions => "conditions" | description => "description" | icon => "icon"
  end.

Definition getter (f : field) : getter_kind :=
  match f with
  | stations | sunrise | sunset | conditions | description | icon => OrNull
  | _ => ZeroOrNull
  end.

Definition setter (f : field) : setter_kind :=
  match f with
  | temp => ByFind
  | _ => ByLoop
  end.

Definition get_method (f : field) : string := "get" +:+ capitalize (name f) +:+ "OnDay".
Definition set_method (f : field) : string := "set" +:+ capitalize (name f) +:+ "OnDay".

End Day.

Module Hour.

Inductive field :=
| temp | feelslike | dew | humidity | precip | precipprob | preciptype
| snow | snowdepth | windgust | windspeed | winddir | pressure
| cloudcover | visibility | solarradiation | solarenergy | uvindex
| severerisk | stations | source | conditions | icon.

Definition name (f : field) : string :=
  match f with
  | temp => "temp" | feelslike => "feelslike" | dew => "dew"
  | humidity => "humidity" | precip => "precip" | precipprob => "precipprob"
  | preciptype => "preciptype" | snow => "snow" | snowdepth => "snowdepth"
  | windgust => "windgust" | windspeed => "windspeed" | winddir => "winddir"
  | pressure => "pressure" | cloudcover => "cloudcover"
  | visibility => "visibility" | solarradiation => "solarradiation"
  | solarenergy => "solarenergy" | uvindex => "uvindex"
  | severerisk => "severerisk" | stations => "stations" | source => "source"
  | conditions => "conditions" | icon => "icon"
  end.

End Hour.

(** ** The [Weather] instance and its accessors

    The private member [#weatherData] is all the accessors use of the instance.
    The optional [elements] parameter of the data accessors is an array of
    strings, as documented. *)

Record Weather := { weatherData : val }.

Definition normalise (k : getter_kind) (tmp : val) : val :=
  match k with
  | ZeroOrNull => if is_zero tmp then num_zero else or_null tmp
  | OrNull => or_null tmp
  end.

(** [hourlyData.map(hour => { const filtered = {}; elements.forEach(el => {
    filtered[el] = hour[el]; }); return filtered; })] *)
Fixpoint project_each (hours : list val) (elements : list string) : M (list val) :=
  match hours with
  | [] => ret []
  | hour :: rest =>
      filtered <- alloc (HObj ∅) ;;
      for_each elements (fun el =>
        v <- get_prop hour el ;;
        set_prop filtered el v) ;;;
      others <- project_each rest elements ;;
      ret (filtered :: others)
  end.

Definition map_project (hourlyData : val) (elements : list string) : M val :=
  hours <- lift (fun h => find_elems h hourlyData) ;;
  projected <- project_each hours elements ;;
  alloc (HArr projected).

Section Accessors.

Variable this : Weather.

(** [this.#weatherData.days] *)
Definition days : M val := get_prop (weatherData this) "days".

(** *** Day granularity *)

(** [get<Field>OnDay(dayInfo)] *)
Definition getOnDay (f : Day.field) (dayInfo : val) : M val :=
  try_catch
    (match dayInfo with
     | VStr s =>
         ds <- days ;;
         day <- find_by_datetime ds s ;;
         tmp <- opt_chain day (Day.name f) ;;
         ret (normalise (Day.getter f) tmp)
     | VNum n =>
         ds <- days ;;
         day <- get_index ds n ;;
         tmp <- opt_chain day (Day.name f) ;;
         ret (normalise (Day.getter f) tmp)
     | _ => throw (InvalidIdentifierType (Day.get_method f) dayInfo)
     end)
    (fun _ => ret VNull).

(** [set<Field>OnDay(dayInfo, value)] *)
Definition setOnDay (f : Day.field) (dayInfo value : val) : M unit :=
  try_catch
    (match dayInfo with
     | VStr s =>
         ds <- days ;;
         match Day.setter f with
         | ByFind =>
             day <- find_by_datetime ds s ;;
             if truthy day then set_prop day (Day.name f) value else ret tt
         | ByLoop =>
             for_first_with_datetime ds s (fun day =>
               set_prop day (Day.name f) value)
         end
     | VNum n =>
         ds <- days ;;
         day <- get_index ds n ;;
         if truthy day then set_prop day (Day.name f) value else ret tt
     | _ => throw (InvalidIdentifierType (Day.set_method f) dayInfo)
     end)
    (fun error => throw error).

Definition getTempOnDay := getOnDay Day.temp.
Definition setTempOnDay := setOnDay Day.temp.

(** [getDataOnDay(dayInfo, elements = [])] *)
Definition getDataOnDay (dayInfo : val) (elements : list string) : M val :=
  try_catch
    (dayData <-
       match dayInfo with
       | VStr s => ds <- days ;; find_by_datetime ds s
       | VNum n => ds <- days ;; get_index ds n
       | _ => throw (InvalidIdentifierType "getDataOnDay" dayInfo)
       end ;;
     if (0 <? length elements)%nat
     then extractSubobjectByKeys dayData elements
     else ret dayData)
    (fun _ => ret VNull).

(** [setDataOnDay(dayInfo, data)] *)
Definition setDataOnDay (dayInfo data : val) : M unit :=
  try_catch
    (match dayInfo with
     | VStr s => ds <- days ;; replace_first_with_datetime ds s data
     | VNum n => ds <- days ;; write_index ds n data
     | _ => throw (InvalidIdentifierType "setDataOnDay" dayInfo)
     end)
    (fun error => throw error).

(** [getHourlyDataOnDay(dayInfo, elements = [])] *)
Definition getHourlyDataOnDay (dayInfo : val) (elements : list string) : M val :=
  try_catch
    (hourlyData <-
       match dayInfo with
       | VStr s =>
           ds <- days ;;
           day <- find_by_datetime ds s ;;
           hs <- opt_chain day "hours" ;;
           if truthy hs then ret hs else alloc (HArr [])
       | VNum n =>
           ds <- days ;;
           day <- get_index ds n ;;
           hs <- opt_chain day "hours" ;;
           if truthy hs then ret hs else alloc (HArr [])
       | _ => throw (InvalidIdentifierType "getHourlyDataOnDay" dayInfo)
       end ;;
     if (0 <? length elements)%nat
     then map_project hourlyData elements
     else ret hourlyData)
    (fun error => throw error).

(** [setHourlyDataOnDay(dayInfo, data)] *)
Definition setHourlyDataOnDay (dayInfo data : val) : M unit :=
  try_catch
    (match dayInfo with
     | VStr s =>
         ds <- days ;;
         for_first_with_datetime ds s (fun day => set_prop day "hours" data)
     | VNum n =>
         ds <- days ;;
         day <- get_index ds n ;;
         set_prop day "hours" data
     | _ => throw (InvalidIdentifierType "setHourlyDataOnDay" dayInfo)
     end)
    (fun error => throw error).

(** *** Datetime granularity *)

(** [get<Field>AtDatetime(dayInfo, timeInfo)] *)
Definition getAtDatetime (f : Hour.field) (dayInfo timeInfo : val) : M val :=
  try_catch
    (ds <- days ;;
     dayItem <- filterItemByDatetimeVal ds dayInfo ;;
     if negb (truthy dayItem) then ret dayItem
     else
       hours <- get_prop dayItem "hours" ;;
       hourItem <- filterItemByDatetimeVal hours timeInfo ;;
       if truthy hourItem then get_prop hourItem (Hour.name f) else ret hourItem)
    (fun _ => ret VNull).

(** [set<Field>AtDatetime(dayInfo, timeInfo, value)] *)
Definition setAtDatetime (f : Hour.field) (dayInfo timeInfo value : val) : M unit :=
  try_catch
    (ds <- days ;;
     dayItem <- filterItemByDatetimeVal ds dayInfo ;;
     if truthy dayItem then
       hours <- get_prop dayItem "hours" ;;
       hourItem <- filterItemByDatetimeVal hours timeInfo ;;
       set_prop hourItem (Hour.name f) value
     else ret tt)
    (fun error => throw error).

Definition getTempAtDatetime := getAtDatetime Hour.temp.
Definition setTempAtDatetime := setAtDatetime Hour.temp.

(** [getDataAtDatetime(dayInfo, timeInfo, elements = [])] *)
Definition getDataAtDatetime (dayInfo timeInfo : val) (elements : list string) : M val :=
  try_catch
    (ds <- days ;;
     dayItem <- filterItemByDatetimeVal ds dayInfo ;;
     hours <- get_prop dayItem "hours" ;;
     data <- filterItemByDatetimeVal hours timeInfo ;;
     if (0 <? length elements)%nat
     then extractSubobjectByKeys data elements
     else ret data)
    (fun error => throw error).

(** [setDataAtDatetime(dayInfo, timeInfo, data)] *)
Definition setDataAtDatetime (dayInfo timeInfo data : val) : M unit :=
  try_catch
    (ds <- days ;;
     dayItem <- filterItemByDatetimeVal ds dayInfo ;;
     hours <- get_prop dayItem "hours" ;;
     setItemByDatetimeVal hours timeInfo data)
    (fun error => throw error).




(** *** Top-level fields *)

(** [return this.#weatherData.f === 0 ? 0 : (this.#weatherData.f || null);] *)
Definition get_zero_or_null (f : string) : M val :=
  x <- get_prop (weatherData this) f ;;
  if is_zero x then ret num_zero
  else
    x' <- get_prop (weatherData this) f ;;
    ret (or_null x').

Definition getLatitude : M val := get_zero_or_null "latitude".
Definition getLongitude : M val := get_zero_or_null "longitude".
Definition getTzoffset : M val := get_zero_or_null "tzoffset".

Definition setTzoffset (value : val) : M unit :=
  set_prop (weatherData this) "tzoffset" value.

(** [return this.#weatherData.queryCost || null;] *)
Definition getQueryCost : M val :=
  x <- get_prop (weatherData this) "queryCost" ;;
  ret (or_null x).

Definition setQueryCost (value : val) : M unit :=
  set_prop (weatherData this) "queryCost" value.

End Accessors.

(** ** Regular expressions

    The patterns of [validateParamDate] are anchored at both ends ([^...$],
    without the multiline flag), so [test] asks whether the whole string is in
    the language of the pattern.  [\d] is an ASCII digit. *)

Inductive regex :=
| Void
| Eps
| Chr (c : ascii)
| Digit
| Cat (r1 r2 : regex)
| Alt (r1 r2 : regex)
| Star (r : regex).

(** [r+] *)
Definition Plus (r : regex) : regex := Cat r (Star r).

Definition is_digit (c : ascii) : bool :=
  let n := nat_of_ascii c in (48 <=? n)%nat && (n <=? 57)%nat.

Fixpoint nullable (r : regex) : bool :=
  match r with
  | Void | Chr _ | Digit => false
  | Eps | Star _ => true
  | Cat r1 r2 => nullable r1 && nullable r2
  | Alt r1 r2 => nullable r1 || nullable r2
  end.

(** What is left of [r] to match once [c] has been read. *)
Fixpoint deriv (c : ascii) (r : regex) : regex :=
  match r with
  | Void | Eps => Void
  | Chr c' => if Ascii.eqb c c' then Eps else Void
  | Digit => if is_digit c then Eps else Void
  | Cat r1 r2 =>
      if nullable r1
      then Alt (Cat (deriv c r1) r2) (deriv c r2)
      else Cat (deriv c r1) r2
  | Alt r1 r2 => Alt (deriv c r1) (deriv c r2)
  | Star r1 => Cat (deriv c r1) (Star r1)
  end.

(** [/^r$/.test(s)] *)
Fixpoint test (r : regex) (s : string) : bool :=
  match s with
  | EmptyString => nullable r
  | String c rest => test (deriv c r) rest
  end.

(** A literal word of a pattern. *)
Fixpoint lit (w : string) : regex :=
  match w with
  | EmptyString => Eps
  | String c rest => Cat (Chr c) (lit rest)
  end.

(** [(w1|w2|...)] *)
Fixpoint one_of (ws : list string) : regex :=
  match ws with
  | [] => Void
  | w :: rest => Alt (lit w) (one_of rest)
  end.

(** [\d{n,n}] *)
Fixpoint digits_exactly (n : nat) : regex :=
  match n with
  | O => Eps
  | S n' => Cat Digit (digits_exactly n')
  end.

(** ** [Weather.validateParamDate] *)

Definition date_keywords : list string :=
  [ "today"; "tomorrow"; "yesterday"; "yeartodate"; "monthtodate";
    "lastyear"; "last24hours"; "nextweekend"; "lastweekend" ].

Definition weekdays : list string :=
  [ "saturday"; "sunday"; "monday"; "tuesday"; "wednesday"; "thursday"; "friday" ].

(** The patterns one after the other. *)
Fixpoint seq (rs : list regex) : regex :=
  match rs with
  | [] => Eps
  | r :: rest => Cat r (seq rest)
  end.

(** [/^next(\d+)days$/] and [/^last(\d+)days$/] *)
Definition re_next_days : regex := seq [lit "next"; Plus Digit; lit "days"].
Definition re_last_days : regex := seq [lit "last"; Plus Digit; lit "days"].

(** [/^next(saturday|sunday|monday|tuesday|wednesday|thursday|friday)$/] and
    the same with [last] *)
Definition re_next_weekday : regex := seq [lit "next"; one_of weekdays].
Definition re_last_weekday : regex := seq [lit "last"; one_of weekdays].

(** [/^\d{4,4}\-\d{2,2}\-\d{2,2}$/] *)
Definition re_date : regex :=
  seq [digits_exactly 4; Chr "-"; digits_exactly 2; Chr "-"; digits_exactly 2].

(** [/^\d\d\d\d\-\d\d\-\d\dT\d\d\:\d\d\:\d\d$/] *)
Definition re_datetime : regex :=
  seq [Digit; Digit; Digit; Digit; Chr "-"; Digit; Digit; Chr "-"; Digit; Digit;
       Chr "T"; Digit; Digit; Chr ":"; Digit; Digit; Chr ":"; Digit; Digit].

(** [items.includes(s)] for an array of strings and a string [s] *)
Definition includes (items : list string) (s : string) : bool :=
  existsb (String.eqb s) items.

(** [Weather.validateParamDate(param)]; the TypeError of the last branch
    reports [typeof param]. *)
Definition validateParamDate (param : val) : outcome val :=
  match param with
  | VStr s =>
      if includes date_keywords s
         || test re_next_days s
         || test re_last_days s
         || test re_next_weekday s
         || test re_last_weekday s
      then Ret param
      else if test re_date s then Ret param
      else if test re_datetime s then Ret param
      else Throw (InvalidFormat "validateParamDate" s)
  | VNum _ => Ret param
  | _ => Throw (InvalidType "validateParamDate" param)
  end.

(** *** The date expressions of the specification

    The forms (a) to (e) of [validateDateExpression], in the words of the
    specification: a keyword of the fixed vocabulary; [next<N>days] or
    [last<N>days] for a non-negative integer [N] written in decimal digits;
    [next<Weekday>] or [last<Weekday>]; a calendar date [YYYY-MM-DD]; a calendar
    datetime [YYYY-MM-DDTHH:MM:SS], each letter of the two last forms standing
    for one decimal digit. *)

Fixpoint all_digits (s : string) : bool :=
  match s with
  | EmptyString => true
  | String c rest => is_digit c && all_digits rest
  end.

(** [n] decimal digits *)
Definition digits_of_length (n : nat) (s : string) : Prop :=
  all_digits s = true /\ String.length s = n.

(** a non-negative integer in decimal digits *)
Definition decimal (s : string) : Prop :=
  all_digits s = true /\ s <> "".

Inductive DateExpression : string -> Prop :=
| DE_keyword s :
    In s date_keywords -> DateExpression s
| DE_next_days n :
    decimal n -> DateExpression ("next" +:+ n +:+ "days")
| DE_last_days n :
    decimal n -> DateExpression ("last" +:+ n +:+ "days")
| DE_next_weekday d :
    In d weekdays -> DateExpression ("next" +:+ d)
| DE_last_weekday d :
    In d weekdays -> DateExpression ("last" +:+ d)
| DE_date y m d :
    digits_of_length 4 y -> digits_of_length 2 m -> digits_of_length 2 d ->
    DateExpression (y +:+ "-" +:+ m +:+ "-" +:+ d)
| DE_datetime y m d hh mm ss :
    digits_of_length 4 y -> digits_of_length 2 m -> digits_of_length 2 d ->
    digits_of_length 2 hh -> digits_of_length 2 mm -> digits_of_length 2 ss ->
    DateExpression (y +:+ "-" +:+ m +:+ "-" +:+ d +:+ "T" +:+ hh +:+ ":" +:+ mm +:+ ":" +:+ ss).

(** The language of a pattern. *)
Inductive Lang : regex -> string -> Prop :=
| L_eps : Lang Eps ""
| L_chr c : Lang (Chr c) (String c "")
| L_digit c : is_digit c = true -> Lang Digit (String c "")
| L_cat r1 r2 s1 s2 : Lang r1 s1 -> Lang r2 s2 -> Lang (Cat r1 r2) (s1 +:+ s2)
| L_alt_l r1 r2 s : Lang r1 s -> Lang (Alt r1 r2) s
| L_alt_r r1 r2 s : Lang r2 s -> Lang (Alt r1 r2) s
| L_star_nil r : Lang (Star r) ""
| L_star_app r s1 s2 : Lang r s1 -> Lang (Star r) s2 -> Lang (Star r) (s1 +:+ s2).

(** ** The other helpers of [lib/utils.js] *)




(** [isValidObject(variable, allowedKeys)] *)
Definition isValidObject (variable : val) (allowedKeys : list string) (h : heap)
  : outcome bool :=
  match variable with
  | VRef l =>
      match h !! l with
      | Some (HObj props) =>
          Ret (forallb (fun entry => includes allowedKeys (fst entry)) (map_to_list props))
      | Some (HArr _) => Ret false
      | None => Unmodelled
      end
  | _ => Ret false
  end.

(** ** The other validators of [Weather]

    Their plain [Error] is [InvalidFormat] and their TypeError is
    [InvalidType], each with the name of the validator. *)

Definition unit_groups : list string := [ "us"; "uk"; "metric"; "base" ].

(** [Weather.validateParamUnitGroup(param)] *)
Definition validateParamUnitGroup (param : val) : outcome val :=
  match param with
  | VStr s =>
      if includes unit_groups s then Ret param
      else Throw (InvalidFormat "validateParamUnitGroup" s)
  | _ => Throw (InvalidType "validateParamUnitGroup" param)
  end.

Definition include_sections : list string :=
  [ "days"; "hours"; "minutes"; "alerts"; "current"; "events"; "obs"; "remote";
    "fcst"; "stats"; "statsfcst" ].

Definition element_names : list string :=
  [ "tempmax"; "tempmin"; "temp"; "feelslikemax"; "feelslikemin"; "feelslike";
    "dew"; "humidity"; "precip"; "precipprob"; "precipcover"; "preciptype";
    "snow"; "snowdepth"; "windgust"; "windspeed"; "winddir"; "pressure";
    "cloudcover"; "visibility"; "solarradiation"; "solarenergy"; "uvindex";
    "sunrise"; "sunriseEpoch"; "sunset"; "sunsetEpoch"; "moonphase";
    "conditions"; "description"; "icon"; "icon"; "stations"; "source" ].

(** The loop of [validateParamInclude] and [validateParamElements]:
    [for(let p of param){ if(typeof p === 'string'){ if(!vocabulary.includes(p))
    throw new Error(...); } else throw new TypeError(...); }].  It returns the
    strings it has let through, which are all the arguments. *)
Fixpoint check_each (method : string) (vocabulary : list string) (param : list val)
  : outcome (list string) :=
  match param with
  | [] => Ret []
  | p :: rest =>
      match p with
      | VStr s =>
          if includes vocabulary s then
            match check_each method vocabulary rest with
            | Ret checked => Ret (s :: checked)
            | Throw e => Throw e
            | Unmodelled => Unmodelled
            end
          else Throw (InvalidFormat method s)
      | _ => Throw (InvalidType method p)
      end
  end.

(** [param.join(',')] once every argument is known to be a string *)
Definition join_commas (checked : list string) : val := VStr (String.concat "," checked).

(** [Weather.validateParamInclude(...param)] *)
Definition validateParamInclude (param : list val) : outcome val :=
  match check_each "validateParamInclude" include_sections param with
  | Ret checked => Ret (join_commas checked)
  | Throw e => Throw e
  | Unmodelled => Unmodelled
  end.

(** [Weather.validateParamElements(...param)] *)
Definition validateParamElements (param : list val) : outcome val :=
  match check_each "validateParamElements" element_names param with
  | Ret checked => Ret (join_commas checked)
  | Throw e => Throw e
  | Unmodelled => Unmodelled
  end.

(** ** The whole document and the daily series *)

(** [clearWeatherData()]: the instance holds a new empty record. *)
Definition clearWeatherData (this : Weather) : M Weather :=
  empty <- alloc (HObj ∅) ;;
  ret {| weatherData := empty |}.

(** [setWeatherData(data)] *)
Definition setWeatherData (this : Weather) (data : val) : Weather :=
  {| weatherData := data |}.

(** [getWeatherData(elements = [])] *)
Definition getWeatherData (this : Weather) (elements : list string) : M val :=
  try_catch
    (if (0 <? length elements)%nat
     then extractSubobjectByKeys (weatherData this) elements
     else ret (weatherData this))
    (fun _ => ret VNull).

(** [setWeatherDailyData(dailyData)] *)
Definition setWeatherDailyData (this : Weather) (dailyData : val) : M unit :=
  set_prop (weatherData this) "days" dailyData.

(** [days.map(day => extractSubobjectByKeys(day, elements))] *)
Fixpoint extract_each (items : list val) (elements : list string) : M (list val) :=
  match items with
  | [] => ret []
  | item :: rest =>
      sub <- extractSubobjectByKeys item elements ;;
      others <- extract_each rest elements ;;
      ret (sub :: others)
  end.

(** [getWeatherDailyData(elements = [])] *)
Definition getWeatherDailyData (this : Weather) (elements : list string) : M val :=
  try_catch
    (if (0 <? length elements)%nat
     then
       ds <- days this ;;
       items <- lift (fun h => find_elems h ds) ;;
       subs <- extract_each items elements ;;
       alloc (HArr subs)
     else days this)
    (fun _ => ret VNull).

(** One step of [flatMap]: an array gives its elements, any other value
    itself. *)
Definition flatten_one (h : heap) (v : val) : outcome (list val) :=
  match v with
  | VRef l =>
      match h !! l with
      | Some (HArr xs) => Ret xs
      | Some (HObj _) => Ret [v]
      | None => Unmodelled
      end
  | _ => Ret [v]
  end.

(** [days.flatMap(day => day.hours)] *)
Fixpoint hours_of_each (items : list val) : M (list val) :=
  match items with
  | [] => ret []
  | day :: rest =>
      hs <- get_prop day "hours" ;;
      flat <- lift (fun h => flatten_one h hs) ;;
      others <- hours_of_each rest ;;
      ret (flat ++ others)
  end.

(** [getWeatherHourlyData(elements = [])] *)
Definition getWeatherHourlyData (this : Weather) (elements : list string) : M val :=
  try_catch
    (ds <- days this ;;
     items <- lift (fun h => find_elems h ds) ;;
     flat <- hours_of_each items ;;
     hourlyData <- alloc (HArr flat) ;;
     if (0 <? length elements)%nat
     then
       subs <- extract_each flat elements ;;
       alloc (HArr subs)
     else ret hourlyData)
    (fun _ => ret VNull).

(** ** The text fields and the stations of the document *)

Module Text.

Inductive field := resolvedAddress | address | timezone.

Definition name (f : field) : string :=
  match f with
  | resolvedAddress => "resolvedAddress"
  | address => "address"
  | timezone => "timezone"
  end.

End Text.

(** [getResolvedAddress()], [getAddress()], [getTimezone()]:
    [return this.#weatherData.f || null;] *)
Definition getText (this : Weather) (f : Text.field) : M val :=
  x <- get_prop (weatherData this) (Text.name f) ;;
  ret (or_null x).

(** [setResolvedAddress(value)], [setAddress(value)], [setTimezone(value)] *)
Definition setText (this : Weather) (f : Text.field) (value : val) : M unit :=
  set_prop (weatherData this) (Text.name f) value.

Definition getResolvedAddress (this : Weather) : M val := getText this Text.resolvedAddress.
Definition getAddress (this : Weather) : M val := getText this Text.address.
Definition getTimezone (this : Weather) : M val := getText this Text.timezone.

(** [getStations()]: [return this.#weatherData.stations || [];] *)
Definition getStations (this : Weather) : M val :=
  x <- get_prop (weatherData this) "stations" ;;
  if truthy x then ret x else alloc (HArr []).

(** [setStations(value)] *)
Definition setStations (this : Weather) (value : val) : M unit :=
  set_prop (weatherData this) "stations" value.

(** ** A sample document

    The document of the scenario of the specification: one day
    [{datetime: "2025-03-07", temp: 15, hours: [{datetime: "00:00:00", temp: 14}]}],
    with a query cost of zero. *)

Definition int (z : Z) : val :=
  match z with
  | Z0 => VNum (S754_zero false)
  | Zpos p => VNum (S754_finite false p 0)
  | Zneg p => VNum (S754_finite true p 0)
  end.

Module Sample.

Definition l_doc : loc := 1%positive.
Definition l_days : loc := 2%positive.
Definition l_day : loc := 3%positive.
Definition l_hours : loc := 4%positive.
Definition l_hour : loc := 5%positive.
Definition l_data : loc := 6%positive.

Definition doc_props : gmap string val :=
  {[ "days" := VRef l_days; "queryCost" := int 0; "tzoffset" := int 0;
     "latitude" := int 0; "longitude" := int 0 ]}.
Definition day_props : gmap string val :=
  {[ "datetime" := VStr "2025-03-07"; "temp" := int 15; "hours" := VRef l_hours ]}.
Definition hour_props : gmap string val :=
  {[ "datetime" := VStr "00:00:00"; "temp" := int 14 ]}.
(** a caller's record [{datetime: "1999-12-31", humidity: 80}] *)
Definition data_props : gmap string val :=
  {[ "datetime" := VStr "1999-12-31"; "humidity" := int 80 ]}.

Definition store : heap :=
  {[ l_doc := HObj doc_props; l_days := HArr [VRef l_day];
     l_day := HObj day_props; l_hours := HArr [VRef l_hour];
     l_hour := HObj hour_props; l_data := HObj data_props ]}.

Definition weather : Weather := {| weatherData := VRef l_doc |}.

End Sample.

(** An identifier of valid type is a string or a number. *)
Definition valid_identifier (v : val) : bool :=
  match v with
  | VStr _ | VNum _ => true
  | _ => false
  end.

(** An element that [first_with_datetime] reads on its way and that does not
    carry the date [s]. *)
Definition passed_over (h : heap) (s : string) (x : val) : Prop :=
  exists d, read_prop h x "datetime" = Ret d /\ strict_eq_str d s = false.

(** The error the loop of the list validators raises for an argument it does
    not let through. *)
Definition rejection (method : string) (bad : val) : exn :=
  match bad with
  | VStr s => InvalidFormat method s
  | _ => InvalidType method bad
  end.

(** Key lists that ask for field names only: no name of [Object.prototype]. *)
Definition field_names (keys : list string) : Prop :=
  Forall (fun key => key ∉ object_prototype_names) keys.

(** What [extractSubobjectByKeys] makes of the record [x] of the heap [h]: a
    record [sub], new in [h'], that holds the requested fields [x] has. *)
Definition projection_of (h h' : heap) (elements : list string) (x sub : val) : Prop :=
  exists l p l_sub p_sub,
    x = VRef l /\ h !! l = Some (HObj p)
    /\ sub = VRef l_sub /\ h !! l_sub = None /\ h' !! l_sub = Some (HObj p_sub)
    /\ forall k, p_sub !! k = if decide (k ∈ elements) then p !! k else None.

(** A value that is a record of the heap. *)
Definition is_record (h : heap) (x : val) : Prop :=
  exists l p, x = VRef l /\ h !! l = Some (HObj p).

(** What a day gives to the hourly series: the elements of its [hours] array,
    or one [undefined] when it has no [hours] field. *)
Definition hours_entry (h : heap) (day : val) (hs : list val) : Prop :=
  exists l p,
    day = VRef l /\ h !! l = Some (HObj p)
    /\ ((exists l_hours, p !! "hours" = Some (VRef l_hours) /\ h !! l_hours = Some (HArr hs))
        \/ (p !! "hours" = None /\ hs = [VUndef])).

(** * Properties *)

(** ** The monad *)

Lemma try_catch_rethrow {A} (m : M A) (h : heap) :
  try_catch m (fun error => throw error) h = m h.
Proof.
  unfold try_catch, throw. destruct (m h) as [[a | e |] h']; reflexivity.
Qed.

(** ** Identifier types *)

(** The accessors test [typeof v === 'string'] and [typeof v === 'number'];
    the embedding matches on [VStr] and [VNum], which is the same test. *)
Lemma typeof_string (v : val) : typeof v = "string" <-> exists s, v = VStr s.
Proof.
  destruct v; cbn; split; intros H; try discriminate; eauto; destruct H; discriminate.
Qed.

Lemma typeof_number (v : val) : typeof v = "number" <-> exists n, v = VNum n.
Proof.
  destruct v; cbn; split; intros H; try discriminate; eauto; destruct H; discriminate.
Qed.

Lemma valid_identifier_typeof (v : val) :
  valid_identifier v = String.eqb (typeof v) "string" || String.eqb (typeof v) "number".
Proof. destruct v; reflexivity. Qed.

Lemma not_an_object_spec (data : val) :
  not_an_object data = false <-> exists l, data = VRef l.
Proof.
  destruct data; cbn; split; intros H; try discriminate; eauto;
    destruct H; discriminate.
Qed.

(** ** The data argument of the replace and merge primitives *)

(** C10. [setItemByDatetimeVal] and [updateItemByDatetimeVal] raise a TypeError
    for every data argument that is not a non-null object; the check comes
    first, whatever the identifier (of valid type or not) and the sequence, and
    the heap, hence the sequence, is left as it was. *)
Theorem data_checked_first (src datetimeVal data : val) (h : heap) :
  (forall l, data <> VRef l) ->
  setItemByDatetimeVal src datetimeVal data h
    = (Throw (InvalidDataType "setItemByDatetimeVal" data), h)
  /\ updateItemByDatetimeVal src datetimeVal data h
    = (Throw (InvalidDataType "updateItemByDatetimeVal" data), h).
Proof.
  intros Hdata.
  assert (Hno : not_an_object data = true).
  { destruct (not_an_object data) eqn:E; [reflexivity |].
    apply not_an_object_spec in E. destruct E as [l ->]. now destruct (Hdata l). }
  unfold setItemByDatetimeVal, updateItemByDatetimeVal.
  rewrite Hno. split; reflexivity.
Qed.

Lemma data_checked_first_witness :
  setItemByDatetimeVal (VRef Sample.l_days) (VBool true) VNull Sample.store
    = (Throw (InvalidDataType "setItemByDatetimeVal" VNull), Sample.store)
  /\ updateItemByDatetimeVal (VRef Sample.l_days) (VBool true) VNull Sample.store
    = (Throw (InvalidDataType "updateItemByDatetimeVal" VNull), Sample.store).
Proof.
  apply (data_checked_first (VRef Sample.l_days) (VBool true) VNull Sample.store).
  intros l H. discriminate H.
Defined.

(** ** Zero and absence in the top-level getters *)

Section TopLevel.

Variable this : Weather.
Variable h : heap.
Variable l_doc : loc.
Variable props : gmap string val.
Hypothesis Hthis : weatherData this = VRef l_doc.
Hypothesis Hdoc : h !! l_doc = Some (HObj props).

Lemma get_zero_or_null_zero (f : string) :
  props !! f = Some num_zero ->
  get_zero_or_null this f h = (Ret num_zero, h).
Proof.
  intros Hf. unfold get_zero_or_null, bind, get_prop, lift, read_prop.
  rewrite Hthis, Hdoc, Hf. reflexivity.
Qed.

Lemma getQueryCost_falsy (x : val) :
  props !! "queryCost" = Some x -> truthy x = false ->
  getQueryCost this h = (Ret VNull, h).
Proof.
  intros Hf Hx. unfold getQueryCost, bind, get_prop, lift, read_prop, or_null, ret.
  rewrite Hthis, Hdoc, Hf. cbn. rewrite Hx. reflexivity.
Qed.

End TopLevel.

(** C8, as the code has it.  A latitude, longitude or timezone offset of 0 is
    returned as 0; a query cost of 0 is returned as [null], like an absent one. *)
Theorem zero_in_top_level_getters (this : Weather) (h : heap) (l_doc : loc)
    (props : gmap string val) :
  weatherData this = VRef l_doc ->
  h !! l_doc = Some (HObj props) ->
  (props !! "latitude" = Some num_zero -> getLatitude this h = (Ret num_zero, h))
  /\ (props !! "longitude" = Some num_zero -> getLongitude this h = (Ret num_zero, h))
  /\ (props !! "tzoffset" = Some num_zero -> getTzoffset this h = (Ret num_zero, h))
  /\ (props !! "queryCost" = Some num_zero -> getQueryCost this h = (Ret VNull, h))
  /\ (props !! "queryCost" = None -> getQueryCost this h = (Ret VNull, h)).
Proof.
  intros Hthis Hdoc. repeat split; intros Hf.
  - now apply (get_zero_or_null_zero this h l_doc props).
  - now apply (get_zero_or_null_zero this h l_doc props).
  - now apply (get_zero_or_null_zero this h l_doc props).
  - now apply (getQueryCost_falsy this h l_doc props Hthis Hdoc num_zero).
  - unfold getQueryCost, bind, get_prop, lift, read_prop, or_null, ret.
    rewrite Hthis, Hdoc, Hf. reflexivity.
Qed.

Lemma zero_in_top_level_getters_witness :
  getLatitude Sample.weather Sample.store = (Ret num_zero, Sample.store)
  /\ getQueryCost Sample.weather Sample.store = (Ret VNull, Sample.store).
Proof.
  destruct (zero_in_top_level_getters Sample.weather Sample.store
              Sample.l_doc Sample.doc_props eq_refl eq_refl)
    as (Hlat & _ & _ & Hcost & _).
  split; [apply Hlat | apply Hcost]; vm_compute; reflexivity.
Defined.

(** C8, as stated, fails: the stored query cost is 0 and [getQueryCost] answers
    [null], not 0. *)
Lemma getQueryCost_zero_is_null :
  default VUndef (Sample.doc_props !! "queryCost") = num_zero
  /\ fst (getQueryCost Sample.weather Sample.store) = Ret VNull
  /\ fst (getQueryCost Sample.weather Sample.store) <> Ret num_zero.
Proof. vm_compute. repeat split; discriminate. Qed.

(** ** One step of each primitive *)

Lemma bind_Ret {A B} (m : M A) (k : A -> M B) (h h' : heap) (a : A) :
  m h = (Ret a, h') -> bind m k h = k a h'.
Proof. intros Hm. unfold bind. rewrite Hm. reflexivity. Qed.

Lemma bind_Throw {A B} (m : M A) (k : A -> M B) (h h' : heap) (e : exn) :
  m h = (Throw e, h') -> bind m k h = (Throw e, h').
Proof. intros Hm. unfold bind. rewrite Hm. reflexivity. Qed.

Lemma not_an_object_ref (l : loc) : not_an_object (VRef l) = false.
Proof. reflexivity. Qed.

Lemma get_prop_obj (h : heap) (l : loc) (p : gmap string val) (k : string) :
  h !! l = Some (HObj p) ->
  get_prop (VRef l) k h = (Ret (default VUndef (p !! k)), h).
Proof. intros Hl. unfold get_prop, lift, read_prop. rewrite Hl. reflexivity. Qed.

Lemma set_prop_obj (h : heap) (l : loc) (p : gmap string val) (k : string) (x : val) :
  h !! l = Some (HObj p) ->
  set_prop (VRef l) k x h = (Ret tt, <[l := HObj (<[k := x]> p)]> h).
Proof. intros Hl. unfold set_prop. rewrite Hl. reflexivity. Qed.

Lemma get_index_array (h : heap) (l : loc) (xs : list val) (n : spec_float) (i : nat) :
  h !! l = Some (HArr xs) -> array_index n = Some i ->
  get_index (VRef l) n h = (Ret (default VUndef (xs !! i)), h).
Proof.
  intros Hl Hn. unfold get_index, lift, read_index. rewrite Hl, Hn. reflexivity.
Qed.

Lemma object_assign_obj (h : heap) (lt ls : loc) (pt ps : gmap string val) :
  h !! lt = Some (HObj pt) -> h !! ls = Some (HObj ps) ->
  object_assign (VRef lt) (VRef ls) h = (Ret tt, <[lt := HObj (ps ∪ pt)]> h).
Proof.
  intros Ht Hs. unfold object_assign, bind, lift, own_props.
  rewrite Hs, Ht. reflexivity.
Qed.

Lemma spread_obj (h : heap) (l : loc) (p : gmap string val) :
  h !! l = Some (HObj p) ->
  spread (VRef l) h = (Ret (VRef (fresh (dom h))), <[fresh (dom h) := HObj p]> h).
Proof.
  intros Hl. unfold spread, bind, lift, own_props, alloc. rewrite Hl. reflexivity.
Qed.

Lemma write_index_in_range (h : heap) (l : loc) (xs : list val) (n : spec_float)
    (i : nat) (x : val) :
  h !! l = Some (HArr xs) -> array_index n = Some i -> i < length xs ->
  write_index (VRef l) n x h = (Ret tt, <[l := HArr (<[i := x]> xs)]> h).
Proof.
  intros Hl Hn Hi. unfold write_index. rewrite Hl, Hn.
  destruct (decide (i < length xs)); [reflexivity | contradiction].
Qed.

Lemma fresh_loc_unused (h : heap) : h !! fresh (dom h) = None.
Proof. apply not_elem_of_dom. apply is_fresh. Qed.

Lemma fresh_loc_other (h : heap) (l : loc) (c : cell) :
  h !! l = Some c -> l <> fresh (dom h).
Proof. intros Hl E. rewrite E, fresh_loc_unused in Hl. discriminate. Qed.

(** ** The numeric identifier: the data argument is written *)

Section NumericIdentifier.

Variable h : heap.
Variables l_src l_item l_data : loc.
Variable xs : list val.
Variables p_item p_data : gmap string val.
Variable n : spec_float.
Variable i : nat.
Hypothesis Hsrc : h !! l_src = Some (HArr xs).
Hypothesis Hn : array_index n = Some i.
Hypothesis Hi : xs !! i = Some (VRef l_item).
Hypothesis Hitem : h !! l_item = Some (HObj p_item).
Hypothesis Hdata : h !! l_data = Some (HObj p_data).

Let d : val := default VUndef (p_item !! "datetime").
Let p_data' : gmap string val := <["datetime" := d]> p_data.
Let h1 : heap := <[l_data := HObj p_data']> h.

Lemma src_not_data : l_src <> l_data.
Proof. intros E. rewrite E, Hdata in Hsrc. discriminate. Qed.

Lemma h1_src : h1 !! l_src = Some (HArr xs).
Proof. unfold h1. rewrite lookup_insert_ne; [exact Hsrc | apply not_eq_sym, src_not_data]. Qed.

Lemma h1_data : h1 !! l_data = Some (HObj p_data').
Proof. unfold h1. apply lookup_insert_eq. Qed.

(** What both primitives do first: resolve the position, read the date of
    the record found there and write it on the data argument. *)
Lemma numeric_prefix {A} (k : val -> M A) (otherwise : M A) :
  (item <- get_index (VRef l_src) n ;;
   if truthy item then
     d <- get_prop item "datetime" ;;
     set_prop (VRef l_data) "datetime" d ;;; k item
   else otherwise) h = k (VRef l_item) h1.
Proof.
  erewrite bind_Ret by (eapply get_index_array; eassumption).
  rewrite Hi. cbn [from_option id truthy].
  erewrite bind_Ret by (eapply get_prop_obj; eassumption).
  erewrite bind_Ret by (eapply set_prop_obj; eassumption).
  reflexivity.
Qed.

Lemma setItem_numeric :
  let l_new := fresh (dom h1) in
  setItemByDatetimeVal (VRef l_src) (VNum n) (VRef l_data) h
  = (Ret tt,
     <[l_src := HArr (<[i := VRef l_new]> xs)]>
       (<[l_new := HObj p_data']> h1)).
Proof.
  intros l_new. unfold setItemByDatetimeVal. rewrite not_an_object_ref.
  rewrite numeric_prefix.
  erewrite bind_Ret by (eapply spread_obj, h1_data).
  fold l_new.
  apply write_index_in_range; [| exact Hn | eapply lookup_lt_Some, Hi].
  rewrite lookup_insert_ne; [apply h1_src |].
  apply not_eq_sym. eapply fresh_loc_other, h1_src.
Qed.

Lemma updateItem_numeric :
  updateItemByDatetimeVal (VRef l_src) (VNum n) (VRef l_data) h
  = (Ret tt,
     <[l_item := HObj (p_data' ∪ (if decide (l_item = l_data) then p_data' else p_item))]> h1).
Proof.
  unfold updateItemByDatetimeVal. rewrite not_an_object_ref.
  rewrite numeric_prefix.
  apply object_assign_obj; [| apply h1_data].
  unfold h1. rewrite lookup_insert. 
  destruct (decide (l_data = l_item)) as [E | E].
  - subst l_item. rewrite decide_True by reflexivity. reflexivity.
  - rewrite decide_False by (apply not_eq_sym, E). exact Hitem.
Qed.

End NumericIdentifier.

(** ** The string identifier: the first record of that date is merged into *)

Lemma first_with_datetime_Some (h : heap) (s : string) (xs : list val) (item : val) :
  first_with_datetime h s xs = Ret (Some item) ->
  item ∈ xs /\
  exists l p, item = VRef l /\ h !! l = Some (HObj p)
              /\ p !! "datetime" = Some (VStr s).
Proof.
  induction xs as [| x rest IH]; cbn [first_with_datetime]; [discriminate |].
  destruct (read_prop h x "datetime") as [d | e |] eqn:Hread; try discriminate.
  destruct (strict_eq_str d s) eqn:Heq.
  - intros [= <-]. split; [apply list_elem_of_here |].
    destruct d; try discriminate Heq. cbn in Heq.
    apply String.eqb_eq in Heq. subst s0.
    destruct x as [| | b | y | t | l]; cbn in Hread; try discriminate.
    destruct (h !! l) as [[p | ys] |] eqn:Hl; try discriminate.
    exists l, p. repeat split; [exact Hl |].
    destruct (p !! "datetime") as [v |]; cbn in Hread; congruence.
  - intros H. destruct (IH H) as [Hin Hrec]. split; [now apply list_elem_of_further | exact Hrec].
Qed.

Section StringIdentifier.

Variable h : heap.
Variables l_src l_item l_data : loc.
Variable xs : list val.
Variables p_item p_data : gmap string val.
Variable s : string.
Hypothesis Hsrc : h !! l_src = Some (HArr xs).
Hypothesis Hfirst : first_with_datetime h s xs = Ret (Some (VRef l_item)).
Hypothesis Hitem : h !! l_item = Some (HObj p_item).
Hypothesis Hdata : h !! l_data = Some (HObj p_data).

Lemma for_first_found (body : val -> M unit) :
  for_first_with_datetime (VRef l_src) s body h = body (VRef l_item) h.
Proof.
  unfold for_first_with_datetime, bind, lift, iterate.
  rewrite Hsrc, Hfirst. reflexivity.
Qed.

Lemma merge_then_date :
  (object_assign (VRef l_item) (VRef l_data) ;;;
   set_prop (VRef l_item) "datetime" (VStr s)) h
  = (Ret tt, <[l_item := HObj (<["datetime" := VStr s]> (p_data ∪ p_item))]> h).
Proof.
  erewrite bind_Ret by (eapply object_assign_obj; eassumption).
  erewrite set_prop_obj by apply lookup_insert_eq.
  rewrite insert_insert_eq. reflexivity.
Qed.

Lemma setItem_string :
  setItemByDatetimeVal (VRef l_src) (VStr s) (VRef l_data) h
  = (Ret tt, <[l_item := HObj (<["datetime" := VStr s]> (p_data ∪ p_item))]> h).
Proof.
  unfold setItemByDatetimeVal. rewrite not_an_object_ref, for_first_found.
  apply merge_then_date.
Qed.

Lemma updateItem_string :
  updateItemByDatetimeVal (VRef l_src) (VStr s) (VRef l_data) h
  = (Ret tt, <[l_item := HObj (<["datetime" := VStr s]> (p_data ∪ p_item))]> h).
Proof.
  unfold updateItemByDatetimeVal. rewrite not_an_object_ref, for_first_found.
  apply merge_then_date.
Qed.

End StringIdentifier.

(** ** What it means for an identifier to resolve

    [filterItemByDatetimeVal] is the resolver of the protocol: an identifier
    resolves to a record when it returns that record, and to nothing when it
    returns [null]. *)

Lemma or_null_ref (x : val) (l : loc) : or_null x = VRef l -> x = VRef l.
Proof. unfold or_null. destruct (truthy x); [tauto | discriminate]. Qed.

Lemma or_null_null (x : val) : or_null x = VNull -> truthy x = false.
Proof. unfold or_null. destruct (truthy x) eqn:E; [intros -> ; discriminate E | reflexivity]. Qed.

Lemma resolves_string (h : heap) (src : val) (s : string) (l : loc) :
  fst (filterItemByDatetimeVal src (VStr s) h) = Ret (VRef l) ->
  exists l_src xs, src = VRef l_src /\ h !! l_src = Some (HArr xs)
                   /\ first_with_datetime h s xs = Ret (Some (VRef l)).
Proof.
  unfold filterItemByDatetimeVal, bind, find_by_datetime, lift, ret.
  destruct src as [| | b | y | t | l_src]; cbn; try discriminate.
  destruct (h !! l_src) as [[p | xs] |] eqn:Hsrc; cbn; try discriminate.
  destruct (first_with_datetime h s xs) as [[item |] | e |] eqn:Hfirst;
    cbn; try discriminate.
  intros [= Hitem]. apply or_null_ref in Hitem. subst item. eauto.
Qed.

Lemma resolves_number (h : heap) (src : val) (n : spec_float) (l : loc) :
  fst (filterItemByDatetimeVal src (VNum n) h) = Ret (VRef l) ->
  exists l_src xs i, src = VRef l_src /\ h !! l_src = Some (HArr xs)
                     /\ array_index n = Some i /\ xs !! i = Some (VRef l).
Proof.
  unfold filterItemByDatetimeVal, bind, get_index, lift, ret.
  destruct src as [| | b | y | t | l_src]; cbn; try discriminate.
  destruct (h !! l_src) as [[p | xs] |] eqn:Hsrc; cbn; try discriminate.
  destruct (array_index n) as [i |] eqn:Hn; cbn; try discriminate.
  destruct (xs !! i) as [x |] eqn:Hi; cbn; try discriminate.
  intros [= Hitem]. apply or_null_ref in Hitem. subst x. eauto 10.
Qed.

Lemma absent_string (h : heap) (src : val) (s : string) :
  fst (filterItemByDatetimeVal src (VStr s) h) = Ret VNull ->
  exists l_src xs, src = VRef l_src /\ h !! l_src = Some (HArr xs)
                   /\ first_with_datetime h s xs = Ret None.
Proof.
  unfold filterItemByDatetimeVal, bind, find_by_datetime, lift, ret.
  destruct src as [| | b | y | t | l_src]; cbn; try discriminate.
  destruct (h !! l_src) as [[p | xs] |] eqn:Hsrc; cbn; try discriminate.
  destruct (first_with_datetime h s xs) as [[item |] | e |] eqn:Hfirst;
    cbn; try discriminate; [| eauto].
  intros [= Hitem]. apply or_null_null in Hitem.
  apply first_with_datetime_Some in Hfirst.
  destruct Hfirst as (_ & l & p & -> & _). discriminate.
Qed.

Lemma absent_number (h : heap) (src : val) (n : spec_float) :
  fst (filterItemByDatetimeVal src (VNum n) h) = Ret VNull ->
  exists x, get_index src n h = (Ret x, h) /\ truthy x = false.
Proof.
  unfold filterItemByDatetimeVal, bind, get_index, lift, ret.
  destruct (read_index h src n) as [x | e |]; cbn; try discriminate.
  intros [= Hx]. apply or_null_null in Hx. eauto.
Qed.

(** ** The replace primitive *)

(** With a number for identifier, the record at that position is replaced by a
    fresh copy of the data, dated like the record it replaces: no other field
    of the old record is in the new one. *)
Lemma replace_by_number
    (h : heap) (src : val) (n : spec_float) (l_item l_data : loc)
    (p_item p_data : gmap string val) :
  fst (filterItemByDatetimeVal src (VNum n) h) = Ret (VRef l_item) ->
  h !! l_item = Some (HObj p_item) ->
  h !! l_data = Some (HObj p_data) ->
  exists h' l_new,
    setItemByDatetimeVal src (VNum n) (VRef l_data) h = (Ret tt, h')
    /\ fst (filterItemByDatetimeVal src (VNum n) h') = Ret (VRef l_new)
    /\ h !! l_new = None
    /\ h' !! l_new
       = Some (HObj (<["datetime" := default VUndef (p_item !! "datetime")]> p_data)).
Proof.
  intros Hres Hitem Hdata.
  destruct (resolves_number _ _ _ _ Hres) as (l_src & xs & i & -> & Hsrc & Hn & Hi).
  pose proof (setItem_numeric h l_src l_item l_data xs p_item p_data n i
                Hsrc Hn Hi Hitem Hdata) as Hset. cbv zeta in Hset.
  set (h1 := <[l_data := HObj _]> h) in Hset.
  assert (Hnew : h !! fresh (dom h1) = None).
  { pose proof (fresh_loc_unused h1) as Hf. unfold h1 in Hf.
    rewrite lookup_insert_None in Hf. tauto. }
  eexists _, _. split; [exact Hset |]. split; [| split; [exact Hnew |]].
  - unfold filterItemByDatetimeVal.
    erewrite bind_Ret.
    2:{ eapply get_index_array; [apply lookup_insert_eq | exact Hn]. }
    rewrite list_lookup_insert_eq by (eapply lookup_lt_Some, Hi). reflexivity.
  - rewrite lookup_insert_ne by (intros E; rewrite <- E, Hsrc in Hnew; discriminate).
    apply lookup_insert_eq.
Qed.

(** With a string for identifier, [setItemByDatetimeVal] does what
    [updateItemByDatetimeVal] does: it merges. *)
Lemma replace_by_string_merges (h : heap) (src : val) (s : string) (l_data : loc) :
  setItemByDatetimeVal src (VStr s) (VRef l_data) h
  = updateItemByDatetimeVal src (VStr s) (VRef l_data) h.
Proof. reflexivity. Qed.

(** C5, on the sample: the day "2025-03-07" is replaced by the caller's record
    [{datetime: "1999-12-31", humidity: 80}].  The date is kept and the new
    field is there, but the [temp] and [hours] of the old record are still
    there too. *)
Example replace_by_string_keeps_old_fields :
  exists h' p',
    setItemByDatetimeVal (VRef Sample.l_days) (VStr "2025-03-07")
      (VRef Sample.l_data) Sample.store = (Ret tt, h')
    /\ h' !! Sample.l_day = Some (HObj p')
    /\ p' !! "datetime" = Some (VStr "2025-03-07")
    /\ p' !! "humidity" = Some (int 80)
    /\ p' !! "temp" = Some (int 15)
    /\ p' !! "hours" = Some (VRef Sample.l_hours)
    /\ Sample.data_props !! "temp" = None
    /\ Sample.data_props !! "hours" = None.
Proof.
  eexists _, _. split.
  - apply (setItem_string Sample.store Sample.l_days Sample.l_day Sample.l_data
             [VRef Sample.l_day] Sample.day_props Sample.data_props);
      vm_compute; reflexivity.
  - split; [apply lookup_insert_eq |]. vm_compute. repeat split.
Qed.

(** ** The data argument is written *)

(** C9. With a number that resolves to a record, both primitives write the
    date of that record on the data argument itself, and do so before they
    copy or merge it: the caller's object leaves the call with that date, and
    so does the record of the sequence. *)
Theorem data_argument_is_overwritten
    (h : heap) (src : val) (n : spec_float) (l_item l_data : loc)
    (p_item p_data : gmap string val) :
  fst (filterItemByDatetimeVal src (VNum n) h) = Ret (VRef l_item) ->
  h !! l_item = Some (HObj p_item) ->
  h !! l_data = Some (HObj p_data) ->
  let d := default VUndef (p_item !! "datetime") in
  (exists h' l_new,
      setItemByDatetimeVal src (VNum n) (VRef l_data) h = (Ret tt, h')
      /\ h' !! l_data = Some (HObj (<["datetime" := d]> p_data))
      /\ fst (filterItemByDatetimeVal src (VNum n) h') = Ret (VRef l_new)
      /\ h' !! l_new = Some (HObj (<["datetime" := d]> p_data)))
  /\ (exists h' p',
      updateItemByDatetimeVal src (VNum n) (VRef l_data) h = (Ret tt, h')
      /\ h' !! l_data = Some (HObj (<["datetime" := d]> p_data))
      /\ h' !! l_item = Some (HObj p')
      /\ p' !! "datetime" = Some d).
Proof.
  intros Hres Hitem Hdata d. split.
  - destruct (replace_by_number h src n l_item l_data p_item p_data Hres Hitem Hdata)
      as (h' & l_new & Hset & Hres' & Hnew & Hcopy).
    exists h', l_new. repeat split; try assumption.
    destruct (resolves_number _ _ _ _ Hres) as (l_src & xs & i & -> & Hsrc & Hn & Hi).
    pose proof (setItem_numeric h l_src l_item l_data xs p_item p_data n i
                  Hsrc Hn Hi Hitem Hdata) as Hset'. cbv zeta in Hset'.
    rewrite Hset' in Hset. injection Hset as <-.
    rewrite lookup_insert_ne by (intros E; rewrite E, Hdata in Hsrc; discriminate).
    rewrite lookup_insert_ne.
    + apply lookup_insert_eq.
    + intros E. pose proof (fresh_loc_unused (<[l_data := HObj (<["datetime" := d]> p_data)]> h)) as Hf.
      fold d in E. rewrite E, lookup_insert_eq in Hf. discriminate.
  - destruct (resolves_number _ _ _ _ Hres) as (l_src & xs & i & -> & Hsrc & Hn & Hi).
    pose proof (updateItem_numeric h l_src l_item l_data xs p_item p_data n i
                  Hsrc Hn Hi Hitem Hdata) as Hupd.
    fold d in Hupd. destruct (decide (l_item = l_data)) as [-> | Hdiff].
    + rewrite map_union_idemp in Hupd.
      eexists _, _. split; [exact Hupd |].
      split; [| split]; apply lookup_insert_eq.
    + eexists _, _. split; [exact Hupd |]. split; [| split].
      * rewrite lookup_insert_ne by exact Hdiff. apply lookup_insert_eq.
      * apply lookup_insert_eq.
      * erewrite lookup_union_Some_l; [reflexivity | apply lookup_insert_eq].
Qed.

Lemma data_argument_is_overwritten_witness :
  exists h' p',
    updateItemByDatetimeVal (VRef Sample.l_days) (int 0) (VRef Sample.l_data)
      Sample.store = (Ret tt, h')
    /\ h' !! Sample.l_data
       = Some (HObj (<["datetime" := VStr "2025-03-07"]> Sample.data_props))
    /\ h' !! Sample.l_day = Some (HObj p')
    /\ p' !! "datetime" = Some (VStr "2025-03-07").
Proof.
  destruct (data_argument_is_overwritten Sample.store (VRef Sample.l_days)
              (S754_zero false) Sample.l_day Sample.l_data
              Sample.day_props Sample.data_props) as [_ Hupd].
  - vm_compute. reflexivity.
  - vm_compute. reflexivity.
  - vm_compute. reflexivity.
  - exact Hupd.
Defined.

(** ** Writing one field of one record: what the rest of the heap keeps *)

Section FieldWrite.

Variable h : heap.
Variable l : loc.
Variable p : gmap string val.
Variable k0 : string.
Variable v : val.
Hypothesis Hl : h !! l = Some (HObj p).

Let h' : heap := <[l := HObj (<[k0 := v]> p)]> h.

Lemma read_prop_written : read_prop h' (VRef l) k0 = Ret v.
Proof.
  unfold read_prop, h'. rewrite lookup_insert_eq, lookup_insert_eq. reflexivity.
Qed.

Lemma read_prop_other (x : val) (k : string) :
  k <> k0 -> read_prop h' x k = read_prop h x k.
Proof.
  intros Hk. destruct x as [| | b | y | t | l']; try reflexivity.
  unfold read_prop, h'. destruct (decide (l' = l)) as [-> | Hne].
  - rewrite lookup_insert_eq, Hl, lookup_insert_ne by congruence. reflexivity.
  - rewrite lookup_insert_ne by congruence. reflexivity.
Qed.

Lemma iterate_written (src : val) : iterate h' src = iterate h src.
Proof.
  destruct src as [| | b | y | t | l']; try reflexivity.
  unfold iterate, h'. destruct (decide (l' = l)) as [-> | Hne].
  - rewrite lookup_insert_eq, Hl. reflexivity.
  - rewrite lookup_insert_ne by congruence. reflexivity.
Qed.

Lemma find_elems_written (src : val) : find_elems h' src = find_elems h src.
Proof. destruct src; try reflexivity; apply iterate_written. Qed.

Lemma read_index_written (src : val) (n : spec_float) :
  read_index h' src n = read_index h src n.
Proof.
  destruct src as [| | b | y | t | l']; try reflexivity.
  unfold read_index, h'. destruct (decide (l' = l)) as [-> | Hne].
  - rewrite lookup_insert_eq, Hl. reflexivity.
  - rewrite lookup_insert_ne by congruence. reflexivity.
Qed.

Lemma first_with_datetime_written (s : string) (xs : list val) :
  k0 <> "datetime" ->
  first_with_datetime h' s xs = first_with_datetime h s xs.
Proof.
  intros Hk. induction xs as [| x rest IH]; [reflexivity |].
  cbn [first_with_datetime]. rewrite read_prop_other by congruence.
  rewrite IH. reflexivity.
Qed.

Lemma find_by_datetime_written (src : val) (s : string) :
  k0 <> "datetime" ->
  find_by_datetime src s h' = (fst (find_by_datetime src s h), h').
Proof.
  intros Hk. unfold find_by_datetime, lift. cbn [fst].
  rewrite find_elems_written.
  destruct (find_elems h src) as [xs | e |]; try reflexivity.
  rewrite first_with_datetime_written by exact Hk. reflexivity.
Qed.

Lemma get_index_written (src : val) (n : spec_float) :
  get_index src n h' = (fst (get_index src n h), h').
Proof. unfold get_index, lift. cbn [fst]. rewrite read_index_written. reflexivity. Qed.

End FieldWrite.

Lemma day_field_not_datetime (f : Day.field) : Day.name f <> "datetime".
Proof. destruct f; discriminate. Qed.

Lemma day_field_not_days (f : Day.field) : Day.name f <> "days".
Proof. destruct f; discriminate. Qed.

(** ** Day granularity: a resolved day *)

Section ResolvedDay.

Variable this : Weather.
Variable h : heap.
Variables l_doc l_day : loc.
Variables p_doc p_day : gmap string val.
Variable dayInfo : val.
Hypothesis Hthis : weatherData this = VRef l_doc.
Hypothesis Hdoc : h !! l_doc = Some (HObj p_doc).
Hypothesis Hres :
  fst (filterItemByDatetimeVal (default VUndef (p_doc !! "days")) dayInfo h)
  = Ret (VRef l_day).
Hypothesis Hday : h !! l_day = Some (HObj p_day).

Lemma days_read : days this h = (Ret (default VUndef (p_doc !! "days")), h).
Proof. unfold days. rewrite Hthis. now apply get_prop_obj. Qed.

Lemma setOnDay_resolved (f : Day.field) (v : val) :
  setOnDay this f dayInfo v h
  = (Ret tt, <[l_day := HObj (<[Day.name f := v]> p_day)]> h).
Proof.
  unfold setOnDay. rewrite try_catch_rethrow.
  destruct dayInfo as [| | b | n | s | l]; try discriminate Hres.
  - destruct (resolves_number _ _ _ _ Hres) as (l_src & xs & i & Hds & Hsrc & Hn & Hi).
    erewrite bind_Ret by apply days_read. rewrite Hds.
    erewrite bind_Ret by (eapply get_index_array; eassumption).
    rewrite Hi. cbn [from_option id truthy]. now apply set_prop_obj.
  - destruct (resolves_string _ _ _ _ Hres) as (l_src & xs & Hds & Hsrc & Hfirst).
    erewrite bind_Ret by apply days_read. rewrite Hds.
    destruct (Day.setter f).
    + unfold find_by_datetime. erewrite bind_Ret.
      2:{ unfold lift, find_elems, iterate. rewrite Hsrc, Hfirst. reflexivity. }
      cbn [from_option id truthy]. now apply set_prop_obj.
    + erewrite for_first_found by eassumption. now apply set_prop_obj.
Qed.

Lemma getOnDay_after_set (f : Day.field) (v : val) :
  let h' := <[l_day := HObj (<[Day.name f := v]> p_day)]> h in
  getOnDay this f dayInfo h' = (Ret (normalise (Day.getter f) v), h').
Proof.
  intros h'. unfold getOnDay, try_catch.
  assert (Hdays' : days this h' = (Ret (default VUndef (p_doc !! "days")), h')).
  { unfold days, get_prop, lift. rewrite Hthis. unfold h'.
    rewrite (read_prop_other h l_day p_day (Day.name f) v Hday)
      by (apply not_eq_sym, day_field_not_days).
    unfold read_prop. rewrite Hdoc. reflexivity. }
  assert (Hread : opt_chain (VRef l_day) (Day.name f) h' = (Ret v, h')).
  { unfold opt_chain, get_prop, lift, h'.
    rewrite (read_prop_written h l_day p_day). reflexivity. }
  destruct dayInfo as [| | b | n | s | l]; try discriminate Hres.
  - destruct (resolves_number _ _ _ _ Hres) as (l_src & xs & i & Hds & Hsrc & Hn & Hi).
    erewrite bind_Ret by apply Hdays'. rewrite Hds.
    erewrite bind_Ret.
    2:{ unfold h'. rewrite (get_index_written h l_day p_day _ v Hday).
        erewrite get_index_array by eassumption. rewrite Hi. reflexivity. }
    cbn [from_option id]. erewrite bind_Ret by apply Hread. reflexivity.
  - destruct (resolves_string _ _ _ _ Hres) as (l_src & xs & Hds & Hsrc & Hfirst).
    erewrite bind_Ret by apply Hdays'. rewrite Hds.
    erewrite bind_Ret.
    2:{ unfold h'. rewrite (find_by_datetime_written h l_day p_day _ v Hday)
          by apply day_field_not_datetime.
        unfold find_by_datetime, lift, find_elems, iterate.
        rewrite Hsrc, Hfirst. reflexivity. }
    cbn [from_option id fst]. erewrite bind_Ret by apply Hread. reflexivity.
Qed.

End ResolvedDay.

Lemma normalise_kept (k : getter_kind) (v : val) :
  truthy v = true \/ v = VNull \/ (v = num_zero /\ k = ZeroOrNull) ->
  normalise k v = v.
Proof.
  intros [Ht | [-> | [-> ->]]]; [| destruct k; reflexivity | reflexivity].
  unfold normalise, or_null. rewrite Ht.
  destruct k; [| reflexivity].
  destruct v as [| | b | [sg | sg | | sg m e] | t | l]; try reflexivity; discriminate Ht.
Qed.

Lemma normalise_lost (k : getter_kind) (v : val) :
  truthy v = false -> is_zero v = false \/ k = OrNull ->
  normalise k v = VNull.
Proof.
  intros Hf [Hz | ->]; unfold normalise, or_null; rewrite Hf; [| reflexivity].
  destruct k; [rewrite Hz |]; reflexivity.
Qed.

(** C4, as the code has it.  For a day identifier that resolves to a day record
    and a field of the catalog, the setter writes the value and the getter then
    answers [value === 0 ? 0 : (value || null)] (or [value || null] for
    stations, sunrise, sunset, conditions, description and icon): the value
    itself when it is truthy or [null], 0 for 0 where the getter tests for it,
    and [null] for every other falsy value, the empty string among them. *)
Theorem set_then_get_on_day
    (this : Weather) (h : heap) (l_doc l_day : loc)
    (p_doc p_day : gmap string val) (dayInfo : val) (f : Day.field) (v : val) :
  weatherData this = VRef l_doc ->
  h !! l_doc = Some (HObj p_doc) ->
  fst (filterItemByDatetimeVal (default VUndef (p_doc !! "days")) dayInfo h)
    = Ret (VRef l_day) ->
  h !! l_day = Some (HObj p_day) ->
  exists h',
    setOnDay this f dayInfo v h = (Ret tt, h')
    /\ getOnDay this f dayInfo h' = (Ret (normalise (Day.getter f) v), h')
    /\ (truthy v = true \/ v = VNull \/ (v = num_zero /\ Day.getter f = ZeroOrNull) ->
        getOnDay this f dayInfo h' = (Ret v, h'))
    /\ (truthy v = false -> is_zero v = false \/ Day.getter f = OrNull ->
        getOnDay this f dayInfo h' = (Ret VNull, h')).
Proof.
  intros Hthis Hdoc Hres Hday.
  exists (<[l_day := HObj (<[Day.name f := v]> p_day)]> h).
  pose proof (getOnDay_after_set this h l_doc l_day p_doc p_day dayInfo
                Hthis Hdoc Hres Hday f v) as Hget. cbv zeta in Hget.
  split; [| split; [exact Hget | split]].
  - eapply setOnDay_resolved; eassumption.
  - intros Hkept. rewrite Hget, normalise_kept by exact Hkept. reflexivity.
  - intros Hfalsy Hzero. rewrite Hget, normalise_lost by assumption. reflexivity.
Qed.

Lemma set_then_get_on_day_witness :
  exists h',
    setTempOnDay Sample.weather (VStr "2025-03-07") num_zero Sample.store = (Ret tt, h')
    /\ getTempOnDay Sample.weather (VStr "2025-03-07") h' = (Ret num_zero, h').
Proof.
  destruct (set_then_get_on_day Sample.weather Sample.store Sample.l_doc Sample.l_day
              Sample.doc_props Sample.day_props (VStr "2025-03-07") Day.temp num_zero)
    as (h' & Hset & _ & Hkept & _).
  - reflexivity.
  - vm_compute. reflexivity.
  - vm_compute. reflexivity.
  - vm_compute. reflexivity.
  - exists h'. split; [exact Hset |]. apply Hkept. right. right. split; reflexivity.
Defined.

(** C4, as stated, fails: the empty string written by [setTempOnDay] on day 0
    comes back as [null]; and so does a 0 written by [setConditionsOnDay]. *)
Lemma empty_string_does_not_round_trip :
  (let h' := snd (setTempOnDay Sample.weather (int 0) (VStr "") Sample.store) in
   fst (setTempOnDay Sample.weather (int 0) (VStr "") Sample.store) = Ret tt
   /\ fst (getTempOnDay Sample.weather (int 0) h') = Ret VNull
   /\ fst (getTempOnDay Sample.weather (int 0) h') <> Ret (VStr ""))
  /\
  (let h' := snd (setOnDay Sample.weather Day.conditions (int 0) num_zero Sample.store) in
   fst (getOnDay Sample.weather Day.conditions (int 0) h') = Ret VNull
   /\ fst (getOnDay Sample.weather Day.conditions (int 0) h') <> Ret num_zero).
Proof. vm_compute. repeat split; discriminate. Qed.

(** ** Datetime granularity *)



Lemma filter_leaves_heap (src v : val) (h : heap) :
  snd (filterItemByDatetimeVal src v h) = h.
Proof.
  unfold filterItemByDatetimeVal, bind, find_by_datetime, get_index, lift, ret, throw.
  destruct v; try reflexivity.
  - destruct (read_index h src x); reflexivity.
  - destruct (find_elems h src) as [xs | |]; try reflexivity.
    destruct (first_with_datetime h s xs); reflexivity.
Qed.

Lemma filter_run (src v : val) (h : heap) (r : outcome val) :
  fst (filterItemByDatetimeVal src v h) = r ->
  filterItemByDatetimeVal src v h = (r, h).
Proof.
  intros <-. rewrite <- (filter_leaves_heap src v h) at 3.
  destruct (filterItemByDatetimeVal src v h); reflexivity.
Qed.

Section DatetimeAccess.

Variable this : Weather.
Variable h : heap.
Variable l_doc : loc.
Variable p_doc : gmap string val.
Hypothesis Hthis : weatherData this = VRef l_doc.
Hypothesis Hdoc : h !! l_doc = Some (HObj p_doc).

Let ds : val := default VUndef (p_doc !! "days").

Lemma days_of_document : days this h = (Ret ds, h).
Proof. unfold days. rewrite Hthis. now apply get_prop_obj. Qed.

(** Every datetime accessor starts by resolving the day. *)
Lemma day_step {A} (k : val -> M A) (dayInfo : val) :
  (d <- days this ;; dayItem <- filterItemByDatetimeVal d dayInfo ;; k dayItem) h
  = match fst (filterItemByDatetimeVal ds dayInfo h) with
    | Ret dayItem => k dayItem h
    | Throw e => (Throw e, h)
    | Unmodelled => (Unmodelled, h)
    end.
Proof.
  erewrite bind_Ret by apply days_of_document.
  unfold bind at 1.
  rewrite (filter_run ds dayInfo h _ eq_refl).
  destruct (fst (filterItemByDatetimeVal ds dayInfo h)); reflexivity.
Qed.

(** *** The day identifier is of invalid type *)

Section InvalidDay.
Variables dayInfo timeInfo : val.
Hypothesis Hinvalid : valid_identifier dayInfo = false.










End InvalidDay.

(** *** The day identifier resolves to nothing *)

Section AbsentDay.
Variables dayInfo timeInfo : val.
Hypothesis Habsent : fst (filterItemByDatetimeVal ds dayInfo h) = Ret VNull.


Lemma getAtDatetime_absent_day f :
  getAtDatetime this f dayInfo timeInfo h = (Ret VNull, h).
Proof.
  unfold getAtDatetime, try_catch. rewrite day_step, Habsent. reflexivity.
Qed.

Lemma getDataAtDatetime_absent_day els :
  getDataAtDatetime this dayInfo timeInfo els h = (Throw NativeTypeError, h).
Proof.
  unfold getDataAtDatetime. rewrite try_catch_rethrow, day_step, Habsent. reflexivity.
Qed.

Lemma setDataAtDatetime_absent_day x :
  setDataAtDatetime this dayInfo timeInfo x h = (Throw NativeTypeError, h).
Proof.
  unfold setDataAtDatetime. rewrite try_catch_rethrow, day_step, Habsent. reflexivity.
Qed.

End AbsentDay.

(** *** The day identifier resolves to a record *)

Section ResolvedDayRecord.
Variables dayInfo timeInfo : val.
Variable l_day : loc.
Variable p_day : gmap string val.
Hypothesis Hres : fst (filterItemByDatetimeVal ds dayInfo h) = Ret (VRef l_day).
Hypothesis Hday : h !! l_day = Some (HObj p_day).

Let hours : val := default VUndef (p_day !! "hours").





Lemma setAtDatetime_absent_time f x :
  fst (filterItemByDatetimeVal hours timeInfo h) = Ret VNull ->
  setAtDatetime this f dayInfo timeInfo x h = (Throw NativeTypeError, h).
Proof.
  intros Habsent. unfold setAtDatetime.
  rewrite try_catch_rethrow, day_step, Hres. cbn [truthy].
  erewrite bind_Ret by (eapply get_prop_obj, Hday).
  erewrite bind_Ret by (apply filter_run, Habsent).
  reflexivity.
Qed.

End ResolvedDayRecord.

End DatetimeAccess.

(** ** Identifiers of invalid type *)




(** ** Setters of datetime granularity *)




(** The two cases the statement above leaves out.  A field setter given a
    time that resolves to nothing writes on [null], and [setDataAtDatetime]
    given a day that resolves to nothing reads [hours] of [null]: each raises
    the TypeError of the engine. *)
Example setTempAtDatetime_absent_hour :
  setTempAtDatetime Sample.weather (VStr "2025-03-07") (VStr "24:00:00") (int 1)
    Sample.store = (Throw NativeTypeError, Sample.store).
Proof. vm_compute. reflexivity. Qed.

Example setDataAtDatetime_absent_day_raises :
  setDataAtDatetime Sample.weather (VStr "1970-01-01") (VStr "00:00:00")
    (VRef Sample.l_data) Sample.store = (Throw NativeTypeError, Sample.store).
Proof. vm_compute. reflexivity. Qed.

(** ** Readers of datetime granularity *)

(** When the day identifier resolves to nothing, a field getter returns [null]
    whatever the time identifier is: the hours are not looked at. *)
Lemma field_getter_absent_day
    (this : Weather) (h : heap) (l_doc : loc) (p_doc : gmap string val)
    (dayInfo timeInfo : val) (f : Hour.field) :
  weatherData this = VRef l_doc ->
  h !! l_doc = Some (HObj p_doc) ->
  fst (filterItemByDatetimeVal (default VUndef (p_doc !! "days")) dayInfo h) = Ret VNull ->
  getAtDatetime this f dayInfo timeInfo h = (Ret VNull, h).
Proof. intros. eapply getAtDatetime_absent_day; eassumption. Qed.

(** C3, on the sample: no day is dated "1970-01-01".  [getTempAtDatetime]
    returns [null]; [getDataAtDatetime] reads [hours] of the [null] the
    resolver returned and raises the TypeError of the engine. *)
Example getDataAtDatetime_absent_day_raises :
  fst (filterItemByDatetimeVal (VRef Sample.l_days) (VStr "1970-01-01") Sample.store)
    = Ret VNull
  /\ getTempAtDatetime Sample.weather (VStr "1970-01-01") (VStr "00:00:00") Sample.store
     = (Ret VNull, Sample.store)
  /\ getDataAtDatetime Sample.weather (VStr "1970-01-01") (VStr "00:00:00") []
       Sample.store = (Throw NativeTypeError, Sample.store).
Proof. vm_compute. repeat split. Qed.


(** ** Strings *)

Lemma append_cons (c : ascii) (s t : string) : String c s +:+ t = String c (s +:+ t).
Proof. reflexivity. Qed.

Lemma append_empty_r (s : string) : s +:+ "" = s.
Proof. induction s as [| c s IH]; [reflexivity |]. rewrite append_cons, IH. reflexivity. Qed.

Lemma append_eq_empty (s t : string) : s +:+ t = "" -> s = "" /\ t = "".
Proof. destruct s; [intros H; split; [reflexivity | exact H] | discriminate]. Qed.

Lemma append_eq_cons (s t u : string) (c : ascii) :
  s +:+ t = String c u ->
  (s = "" /\ t = String c u) \/ (exists s', s = String c s' /\ u = s' +:+ t).
Proof.
  destruct s as [| c' s'].
  - intros H. left. split; [reflexivity | exact H].
  - rewrite append_cons. intros [= -> <-]. right. eauto.
Qed.

(** ** The matcher computes membership in the language *)

Lemma Lang_empty_nullable (r : regex) (s : string) :
  Lang r s -> s = "" -> nullable r = true.
Proof.
  induction 1 as [| c | c Hc | r1 r2 s1 s2 H1 IH1 H2 IH2 | r1 r2 s H IH | r1 r2 s H IH
                 | r | r s1 s2 H1 IH1 H2 IH2];
    intros Hs; try discriminate Hs; try reflexivity; cbn [nullable].
  - apply append_eq_empty in Hs. destruct Hs. rewrite IH1, IH2 by assumption. reflexivity.
  - rewrite IH by assumption. reflexivity.
  - rewrite IH by assumption. apply orb_true_r.
Qed.

Lemma nullable_Lang_empty (r : regex) : nullable r = true -> Lang r "".
Proof.
  induction r as [| | c | | r1 IH1 r2 IH2 | r1 IH1 r2 IH2 | r IH];
    cbn [nullable]; intros Hn; try discriminate Hn.
  - constructor.
  - apply andb_true_iff in Hn. destruct Hn.
    change "" with ("" +:+ ""). constructor; auto.
  - apply orb_true_iff in Hn. destruct Hn; [apply L_alt_l | apply L_alt_r]; auto.
  - constructor.
Qed.

Lemma deriv_sound (c : ascii) (r : regex) (s : string) :
  Lang (deriv c r) s -> Lang r (String c s).
Proof.
  revert s. induction r as [| | c' | | r1 IH1 r2 IH2 | r1 IH1 r2 IH2 | r IH];
    intros s; cbn [deriv]; intros H.
  - inversion H.
  - inversion H.
  - destruct (Ascii.eqb_spec c c') as [-> |]; inversion H; subst. constructor.
  - destruct (is_digit c) eqn:Hc; inversion H; subst. now constructor.
  - assert (Hcat : forall t, Lang (Cat (deriv c r1) r2) t -> Lang (Cat r1 r2) (String c t)).
    { intros t Ht. inversion Ht; subst. rewrite <- append_cons. constructor; auto. }
    destruct (nullable r1) eqn:Hn; [| now apply Hcat].
    inversion H; subst; [now apply Hcat |].
    change (String c s) with ("" +:+ String c s).
    constructor; [now apply nullable_Lang_empty | auto].
  - inversion H; subst; [apply L_alt_l | apply L_alt_r]; auto.
  - inversion H; subst. rewrite <- append_cons. constructor; auto.
Qed.

Lemma deriv_complete (r : regex) (t : string) :
  Lang r t -> forall c s, t = String c s -> Lang (deriv c r) s.
Proof.
  induction 1 as [| c0 | c0 Hc | r1 r2 s1 s2 H1 IH1 H2 IH2 | r1 r2 s0 H IH | r1 r2 s0 H IH
                 | r | r s1 s2 H1 IH1 H2 IH2];
    intros c s Ht; cbn [deriv].
  - discriminate Ht.
  - injection Ht as -> <-. rewrite Ascii.eqb_refl. constructor.
  - injection Ht as -> <-. rewrite Hc. constructor.
  - apply append_eq_cons in Ht. destruct Ht as [[-> Hs2] | (s' & -> & ->)].
    + rewrite (Lang_empty_nullable r1 "" H1 eq_refl). apply L_alt_r. now apply IH2.
    + destruct (nullable r1); [apply L_alt_l |]; constructor; auto.
  - apply L_alt_l. now apply IH.
  - apply L_alt_r. now apply IH.
  - discriminate Ht.
  - apply append_eq_cons in Ht. destruct Ht as [[-> Hs2] | (s' & -> & ->)].
    + now apply IH2.
    + constructor; auto.
Qed.

Lemma test_Lang (r : regex) (s : string) : test r s = true <-> Lang r s.
Proof.
  revert r. induction s as [| c s IH]; intros r; cbn [test].
  - split; [apply nullable_Lang_empty | intros H; now apply (Lang_empty_nullable r "")].
  - rewrite IH. split; [apply deriv_sound | intros H; now apply (deriv_complete r _ H)].
Qed.

(** ** The languages of the patterns *)

Lemma Lang_Eps (s : string) : Lang Eps s <-> s = "".
Proof. split; [intros H; now inversion H | intros ->; constructor]. Qed.

Lemma Lang_Cat (r1 r2 : regex) (s : string) :
  Lang (Cat r1 r2) s <-> exists s1 s2, s = s1 +:+ s2 /\ Lang r1 s1 /\ Lang r2 s2.
Proof.
  split.
  - intros H. inversion H; subst. eauto.
  - intros (s1 & s2 & -> & H1 & H2). now constructor.
Qed.

Lemma Lang_Chr_then (c : ascii) (r : regex) (s : string) :
  Lang (Cat (Chr c) r) s <-> exists s', s = String c s' /\ Lang r s'.
Proof.
  rewrite Lang_Cat. split.
  - intros (s1 & s2 & -> & H1 & H2). inversion H1; subst. eauto.
  - intros (s' & -> & H). exists (String c ""), s'. repeat split; [constructor | exact H].
Qed.

Lemma Lang_Digit_then (r : regex) (s : string) :
  Lang (Cat Digit r) s <-> exists c s', s = String c s' /\ is_digit c = true /\ Lang r s'.
Proof.
  rewrite Lang_Cat. split.
  - intros (s1 & s2 & -> & H1 & H2). inversion H1; subst. eauto.
  - intros (c & s' & -> & Hc & H). exists (String c ""), s'.
    repeat split; [now constructor | exact H].
Qed.

Lemma Lang_lit (w s : string) : Lang (lit w) s <-> s = w.
Proof.
  revert s. induction w as [| c w IH]; intros s; cbn [lit].
  - apply Lang_Eps.
  - rewrite Lang_Chr_then. split.
    + intros (s' & -> & H). apply IH in H. now subst.
    + intros ->. exists w. split; [reflexivity | now apply IH].
Qed.

Lemma Lang_lit_then (w : string) (r : regex) (s : string) :
  Lang (Cat (lit w) r) s <-> exists s', s = w +:+ s' /\ Lang r s'.
Proof.
  rewrite Lang_Cat. split.
  - intros (s1 & s2 & -> & H1 & H2). apply Lang_lit in H1. subst. eauto.
  - intros (s' & -> & H). exists w, s'. repeat split; [now apply Lang_lit | exact H].
Qed.

Lemma Lang_one_of (ws : list string) (s : string) : Lang (one_of ws) s <-> In s ws.
Proof.
  induction ws as [| w ws IH]; cbn [one_of In].
  - split; [intros H; inversion H | tauto].
  - split.
    + intros H. inversion H; subst; [left; symmetry; now apply Lang_lit | right; now apply IH].
    + intros [<- | Hin]; [apply L_alt_l; now apply Lang_lit | apply L_alt_r; now apply IH].
Qed.

Lemma Lang_digits_exactly (n : nat) (s : string) :
  Lang (digits_exactly n) s <-> digits_of_length n s.
Proof.
  unfold digits_of_length. revert s. induction n as [| n IH]; intros s; cbn [digits_exactly].
  - rewrite Lang_Eps. split; [intros ->; split; reflexivity |].
    intros [_ Hlen]. destruct s; [reflexivity | discriminate].
  - rewrite Lang_Digit_then. split.
    + intros (c & s' & -> & Hc & H). apply IH in H. destruct H as [Hd Hlen].
      cbn [all_digits String.length]. rewrite Hc, Hd, Hlen. split; reflexivity.
    + intros [Hd Hlen]. destruct s as [| c s']; [discriminate |].
      cbn [all_digits String.length] in Hd, Hlen. apply andb_true_iff in Hd.
      destruct Hd as [Hc Hd]. exists c, s'. repeat split; [exact Hc |].
      apply IH. split; [exact Hd | congruence].
Qed.

Lemma Lang_digits_then (n : nat) (r : regex) (s : string) :
  Lang (Cat (digits_exactly n) r) s
  <-> exists ds s', s = ds +:+ s' /\ digits_of_length n ds /\ Lang r s'.
Proof.
  rewrite Lang_Cat. split.
  - intros (s1 & s2 & -> & H1 & H2). apply Lang_digits_exactly in H1. eauto.
  - intros (ds & s' & -> & Hd & H). exists ds, s'.
    repeat split; [now apply Lang_digits_exactly | exact H].
Qed.

Lemma Lang_star_digit_sound (r : regex) (s : string) :
  Lang r s -> r = Star Digit -> all_digits s = true.
Proof.
  induction 1 as [| c | c Hc | r1 r2 s1 s2 H1 IH1 H2 IH2 | r1 r2 s H IH | r1 r2 s H IH
                 | r | r s1 s2 H1 IH1 H2 IH2];
    intros Hr; try discriminate Hr; [reflexivity |].
  injection Hr as ->. inversion H1 as [| | c Hc Hr1 Hs1 | | | | |]; subst.
  change (String c "" +:+ s2) with (String c s2). cbn [all_digits].
  rewrite Hc, IH2 by reflexivity. reflexivity.
Qed.

Lemma Lang_star_digit (s : string) : Lang (Star Digit) s <-> all_digits s = true.
Proof.
  split; [intros H; now apply (Lang_star_digit_sound _ _ H) |].
  induction s as [| c s IH]; cbn [all_digits]; intros H; [constructor |].
  apply andb_true_iff in H. destruct H as [Hc Hs].
  change (String c s) with (String c "" +:+ s). constructor; [now constructor | auto].
Qed.

Lemma Lang_plus_digit_then (r : regex) (s : string) :
  Lang (Cat (Plus Digit) r) s <-> exists n s', s = n +:+ s' /\ decimal n /\ Lang r s'.
Proof.
  unfold decimal. rewrite Lang_Cat. split.
  - intros (s1 & s2 & -> & H1 & H2). exists s1, s2. repeat split; [| | exact H2].
    + unfold Plus in H1. apply Lang_Digit_then in H1.
      destruct H1 as (c & s' & -> & Hc & Hs'). apply Lang_star_digit in Hs'.
      cbn [all_digits]. rewrite Hc, Hs'. reflexivity.
    + unfold Plus in H1. apply Lang_Digit_then in H1.
      destruct H1 as (c & s' & -> & _). discriminate.
  - intros (n & s' & -> & [Hd Hne] & H). exists n, s'. repeat split; [| exact H].
    destruct n as [| c n']; [contradiction |].
    cbn [all_digits] in Hd. apply andb_true_iff in Hd. destruct Hd as [Hc Hd].
    unfold Plus. apply Lang_Digit_then. exists c, n'.
    repeat split; [exact Hc | now apply Lang_star_digit].
Qed.

Lemma includes_In (items : list string) (s : string) :
  includes items s = true <-> In s items.
Proof.
  unfold includes. rewrite existsb_exists. split.
  - intros (x & Hin & Heq). apply String.eqb_eq in Heq. now subst.
  - intros Hin. exists s. split; [exact Hin | apply String.eqb_refl].
Qed.

Lemma days_form (w s : string) :
  Lang (seq [lit w; Plus Digit; lit "days"]) s
  <-> exists n, decimal n /\ s = w +:+ n +:+ "days".
Proof.
  cbn [seq]. rewrite Lang_lit_then. split.
  - intros (s1 & -> & H). apply Lang_plus_digit_then in H.
    destruct H as (n & s2 & -> & Hn & H). apply Lang_lit_then in H.
    destruct H as (s3 & -> & H). apply Lang_Eps in H. subst s3.
    exists n. split; [exact Hn | reflexivity].
  - intros (n & Hn & ->). eexists. split; [reflexivity |].
    apply Lang_plus_digit_then. exists n, "days". repeat split; try apply Hn.
    apply Lang_lit_then. exists "". split; [reflexivity | constructor].
Qed.

Lemma weekday_form (w s : string) :
  Lang (seq [lit w; one_of weekdays]) s <-> exists d, In d weekdays /\ s = w +:+ d.
Proof.
  cbn [seq]. rewrite Lang_lit_then. split.
  - intros (s1 & -> & H). apply Lang_Cat in H.
    destruct H as (d & s2 & -> & Hd & H). apply Lang_Eps in H. subst s2.
    apply Lang_one_of in Hd. rewrite append_empty_r. eauto.
  - intros (d & Hd & ->). eexists. split; [reflexivity |].
    apply Lang_Cat. exists d, "". rewrite append_empty_r.
    repeat split; [now apply Lang_one_of | constructor].
Qed.

Lemma date_form (s : string) :
  Lang re_date s
  <-> exists y m d, digits_of_length 4 y /\ digits_of_length 2 m /\ digits_of_length 2 d
                    /\ s = y +:+ "-" +:+ m +:+ "-" +:+ d.
Proof.
  unfold re_date. cbn [seq]. split.
  - intros H. apply Lang_digits_then in H. destruct H as (y & s1 & -> & Hy & H).
    apply Lang_Chr_then in H. destruct H as (s2 & -> & H).
    apply Lang_digits_then in H. destruct H as (m & s3 & -> & Hm & H).
    apply Lang_Chr_then in H. destruct H as (s4 & -> & H).
    apply Lang_digits_then in H. destruct H as (d & s5 & -> & Hd & H).
    apply Lang_Eps in H. subst s5. rewrite append_empty_r.
    exists y, m, d. repeat split; try apply Hy; try apply Hm; try apply Hd.
  - intros (y & m & d & Hy & Hm & Hd & ->).
    apply Lang_digits_then. exists y, ("-" +:+ m +:+ "-" +:+ d). repeat split; try apply Hy.
    apply Lang_Chr_then. exists (m +:+ "-" +:+ d). split; [reflexivity |].
    apply Lang_digits_then. exists m, ("-" +:+ d). repeat split; try apply Hm.
    apply Lang_Chr_then. exists d. split; [reflexivity |].
    apply Lang_digits_then. exists d, "". rewrite append_empty_r.
    repeat split; try apply Hd. constructor.
Qed.

Lemma digits_of_length_S (n : nat) (s : string) :
  digits_of_length (S n) s
  <-> exists c s', s = String c s' /\ is_digit c = true /\ digits_of_length n s'.
Proof.
  unfold digits_of_length. split.
  - intros [Hd Hlen]. destruct s as [| c s']; [discriminate |].
    cbn [all_digits String.length] in Hd, Hlen. apply andb_true_iff in Hd.
    destruct Hd as [Hc Hd]. exists c, s'. repeat split; congruence.
  - intros (c & s' & -> & Hc & Hd & Hlen). cbn [all_digits String.length].
    rewrite Hc, Hd, Hlen. split; reflexivity.
Qed.

Lemma digits_of_length_0 (s : string) : digits_of_length 0 s <-> s = "".
Proof.
  unfold digits_of_length. split.
  - intros [_ Hlen]. destruct s; [reflexivity | discriminate].
  - intros ->. split; reflexivity.
Qed.

(** The characters of a string of [n] digits, one by one. *)
Ltac explode_digits H :=
  repeat (apply digits_of_length_S in H;
          let c := fresh "c" in let Hc := fresh "Hc" in
          destruct H as (c & ? & -> & Hc & H));
  apply digits_of_length_0 in H; subst.

Ltac digits_now :=
  repeat (apply digits_of_length_S; eexists _, _;
          split; [reflexivity | split; [eassumption |]]);
  apply digits_of_length_0; reflexivity.

Lemma datetime_form (s : string) :
  Lang re_datetime s
  <-> exists y m d hh mm ss,
        digits_of_length 4 y /\ digits_of_length 2 m /\ digits_of_length 2 d
        /\ digits_of_length 2 hh /\ digits_of_length 2 mm /\ digits_of_length 2 ss
        /\ s = y +:+ "-" +:+ m +:+ "-" +:+ d +:+ "T" +:+ hh +:+ ":" +:+ mm +:+ ":" +:+ ss.
Proof.
  unfold re_datetime. cbn [seq]. split.
  - intros H.
    repeat first
      [ apply Lang_Digit_then in H;
        let c := fresh "c" in let Hc := fresh "Hc" in
        destruct H as (c & ? & -> & Hc & H)
      | apply Lang_Chr_then in H; destruct H as (? & -> & H) ].
    apply Lang_Eps in H. subst.
    match goal with
    | |- exists y m d hh mm ss, _ /\ _ /\ _ /\ _ /\ _ /\ _ /\
           String ?y1 (String ?y2 (String ?y3 (String ?y4 (String _
           (String ?m1 (String ?m2 (String _
           (String ?d1 (String ?d2 (String _
           (String ?h1 (String ?h2 (String _
           (String ?n1 (String ?n2 (String _
           (String ?s1 (String ?s2 _)))))))))))))))))) = _ =>
        exists (String y1 (String y2 (String y3 (String y4 "")))),
               (String m1 (String m2 "")), (String d1 (String d2 "")),
               (String h1 (String h2 "")), (String n1 (String n2 "")),
               (String s1 (String s2 ""))
    end.
    repeat split; cbn [all_digits];
      repeat match goal with Hc : is_digit _ = true |- _ => rewrite Hc; clear Hc end;
      reflexivity.
  - intros (y & m & d & hh & mm & ss & Hy & Hm & Hd & Hhh & Hmm & Hss & ->).
    explode_digits Hy. explode_digits Hm. explode_digits Hd.
    explode_digits Hhh. explode_digits Hmm. explode_digits Hss.
    repeat first
      [ apply Lang_Digit_then; eexists _, _;
        split; [reflexivity | split; [eassumption |]]
      | apply Lang_Chr_then; eexists; split; [reflexivity |] ].
    constructor.
Qed.

(** The strings [validateParamDate] lets through are the date expressions. *)
Lemma accepted_iff_DateExpression (s : string) :
  (includes date_keywords s
   || test re_next_days s || test re_last_days s
   || test re_next_weekday s || test re_last_weekday s
   || test re_date s || test re_datetime s) = true
  <-> DateExpression s.
Proof.
  rewrite !orb_true_iff, includes_In, !test_Lang.
  unfold re_next_days, re_last_days, re_next_weekday, re_last_weekday.
  rewrite !days_form, !weekday_form, date_form, datetime_form.
  split.
  - intros [[[[[[H | H] | H] | H] | H] | H] | H].
    + now constructor.
    + destruct H as (n & Hn & ->). now constructor.
    + destruct H as (n & Hn & ->). now constructor.
    + destruct H as (d & Hd & ->). now apply DE_next_weekday.
    + destruct H as (d & Hd & ->). now apply DE_last_weekday.
    + destruct H as (y & m & d & Hy & Hm & Hd & ->). now constructor.
    + destruct H as (y & m & d & hh & mm & ss & Hy & Hm & Hd & Hhh & Hmm & Hss & ->).
      now constructor.
  - intros H. destruct H.
    + tauto.
    + left. left. left. left. left. right. eauto.
    + left. left. left. left. right. eauto.
    + left. left. left. right. eauto.
    + left. left. right. eauto.
    + left. right. eauto 10.
    + right. eauto 20.
Qed.

(** ** The date validator *)

(** C7. [validateParamDate] returns its argument for every number and for
    every string that is a date expression (a keyword of the vocabulary,
    [next<N>days] or [last<N>days], [next<Weekday>] or [last<Weekday>], a date
    [YYYY-MM-DD], a datetime [YYYY-MM-DDTHH:MM:SS]); it fails with InvalidFormat
    for every other string and with InvalidType for every value that is neither
    a string nor a number. *)
Theorem validateParamDate_spec (param : val) :
  (forall n, param = VNum n -> validateParamDate param = Ret param)
  /\ (forall s, param = VStr s -> DateExpression s -> validateParamDate param = Ret param)
  /\ (forall s, param = VStr s -> ~ DateExpression s ->
      validateParamDate param = Throw (InvalidFormat "validateParamDate" s))
  /\ (valid_identifier param = false ->
      validateParamDate param = Throw (InvalidType "validateParamDate" param)).
Proof.
  repeat apply conj.
  - intros n ->. reflexivity.
  - intros s -> Hs. apply accepted_iff_DateExpression in Hs.
    cbn [validateParamDate].
    destruct (includes date_keywords s || test re_next_days s || test re_last_days s
              || test re_next_weekday s || test re_last_weekday s); [reflexivity |].
    destruct (test re_date s); [reflexivity |].
    destruct (test re_datetime s); [reflexivity | discriminate Hs].
  - intros s -> Hs. cbn [validateParamDate].
    destruct (includes date_keywords s || test re_next_days s || test re_last_days s
              || test re_next_weekday s || test re_last_weekday s) eqn:H1;
      [exfalso; apply Hs, accepted_iff_DateExpression; rewrite H1; reflexivity |].
    destruct (test re_date s) eqn:H2;
      [exfalso; apply Hs, accepted_iff_DateExpression; rewrite H1, H2; reflexivity |].
    destruct (test re_datetime s) eqn:H3;
      [exfalso; apply Hs, accepted_iff_DateExpression; rewrite H1, H2, H3; reflexivity |].
    reflexivity.
  - intros Hinvalid. destruct param; try discriminate Hinvalid; reflexivity.
Qed.

Lemma validateParamDate_spec_witness :
  validateParamDate (VStr "next365days") = Ret (VStr "next365days")
  /\ validateParamDate (VStr "2025-03-07T04:30:00") = Ret (VStr "2025-03-07T04:30:00")
  /\ validateParamDate (VStr "TODAY") = Throw (InvalidFormat "validateParamDate" "TODAY")
  /\ validateParamDate (VBool false) = Throw (InvalidType "validateParamDate" (VBool false)).
Proof.
  split; [| split; [| split]].
  - apply (proj1 (proj2 (validateParamDate_spec (VStr "next365days"))) _ eq_refl).
    apply (DE_next_days "365"). split; [reflexivity | discriminate].
  - apply (proj1 (proj2 (validateParamDate_spec (VStr "2025-03-07T04:30:00"))) _ eq_refl).
    apply (DE_datetime "2025" "03" "07" "04" "30" "00"); split; reflexivity.
  - apply (proj1 (proj2 (proj2 (validateParamDate_spec (VStr "TODAY")))) _ eq_refl).
    intros H. apply accepted_iff_DateExpression in H. vm_compute in H. discriminate H.
  - apply (proj2 (proj2 (proj2 (validateParamDate_spec (VBool false))))). reflexivity.
Defined.

(** The strings of the test suite of the repository. *)
Example validateParamDate_accepts :
  Forall (fun s => validateParamDate (VStr s) = Ret (VStr s))
    [ "today"; "tomorrow"; "yesterday"; "yeartodate"; "monthtodate"; "lastyear";
      "last24hours"; "nextweekend"; "lastweekend"; "next10days"; "last10days";
      "nextsunday"; "lastsaturday"; "2024-03-07"; "2024-03-07T04:30:00";
      "next0days"; "last1days"; "next365days" ].
Proof. repeat constructor. Qed.

Example validateParamDate_rejects :
  Forall (fun s => validateParamDate (VStr s) = Throw (InvalidFormat "validateParamDate" s))
    [ "TODAY"; "25-03-07"; "2025-03-07T04:00"; ""; "nextdays"; "next-1days";
      "nextFriday"; "today "; "2025-03-07T04:30:00Z" ].
Proof. repeat constructor. Qed.

(** * Further properties *)

(** ** The resolver *)

Lemma strict_eq_str_true (d : val) (s : string) :
  strict_eq_str d s = true <-> d = VStr s.
Proof.
  destruct d; cbn; split; intros H; try discriminate.
  - apply String.eqb_eq in H. now subst.
  - injection H as ->. apply String.eqb_refl.
Qed.

Lemma first_with_datetime_index (h : heap) (s : string) (xs : list val) (item : val) :
  first_with_datetime h s xs = Ret (Some item) ->
  exists i, xs !! i = Some item
            /\ read_prop h item "datetime" = Ret (VStr s)
            /\ forall j x, j < i -> xs !! j = Some x -> passed_over h s x.
Proof.
  induction xs as [| x rest IH]; cbn [first_with_datetime]; [discriminate |].
  destruct (read_prop h x "datetime") as [d | e |] eqn:Hread; try discriminate.
  destruct (strict_eq_str d s) eqn:Heq.
  - intros [= <-]. exists 0. apply strict_eq_str_true in Heq. subst d.
    split; [reflexivity |]. split; [exact Hread |]. intros j y Hj. lia.
  - intros H. destruct (IH H) as (i & Hi & Hd & Hbefore). exists (S i).
    split; [exact Hi |]. split; [exact Hd |].
    intros [| j] y Hj Hy.
    + injection Hy as <-. exists d. split; assumption.
    + apply (Hbefore j y); [lia | exact Hy].
Qed.

Lemma first_with_datetime_at (h : heap) (s : string) (xs : list val) (i : nat) (item : val) :
  xs !! i = Some item ->
  read_prop h item "datetime" = Ret (VStr s) ->
  (forall j x, j < i -> xs !! j = Some x -> passed_over h s x) ->
  first_with_datetime h s xs = Ret (Some item).
Proof.
  revert i. induction xs as [| x rest IH]; intros i Hi Hd Hbefore; [discriminate |].
  cbn [first_with_datetime]. destruct i as [| i].
  - injection Hi as ->. rewrite Hd. cbn. rewrite String.eqb_refl. reflexivity.
  - destruct (Hbefore 0 x) as (d & Hread & Hne); [lia | reflexivity |].
    rewrite Hread, Hne. apply (IH i); [exact Hi | exact Hd |].
    intros j y Hj Hy. apply (Hbefore (S j) y); [lia | exact Hy].
Qed.

Lemma first_with_datetime_none (h : heap) (s : string) (xs : list val) :
  first_with_datetime h s xs = Ret None ->
  forall x, x ∈ xs -> passed_over h s x.
Proof.
  induction xs as [| x rest IH]; cbn [first_with_datetime]; intros H y Hy.
  - inversion Hy.
  - destruct (read_prop h x "datetime") as [d | e |] eqn:Hread; try discriminate.
    destruct (strict_eq_str d s) eqn:Heq; [discriminate |].
    apply elem_of_cons in Hy. destruct Hy as [-> | Hy]; [exists d; tauto | auto].
Qed.

(** X1. Looked up by a date, a sequence gives its first record of that date:
    the record returned carries the date, and every element before it was read
    and does not. *)
Theorem resolver_returns_first_match
    (h : heap) (src : val) (s : string) (l : loc) :
  fst (filterItemByDatetimeVal src (VStr s) h) = Ret (VRef l) ->
  exists l_src xs i p,
    src = VRef l_src /\ h !! l_src = Some (HArr xs)
    /\ xs !! i = Some (VRef l)
    /\ h !! l = Some (HObj p) /\ p !! "datetime" = Some (VStr s)
    /\ forall j x, j < i -> xs !! j = Some x -> passed_over h s x.
Proof.
  intros Hres.
  destruct (resolves_string _ _ _ _ Hres) as (l_src & xs & -> & Hsrc & Hfirst).
  destruct (first_with_datetime_index _ _ _ _ Hfirst) as (i & Hi & _ & Hbefore).
  destruct (first_with_datetime_Some _ _ _ _ Hfirst) as (_ & l' & p & [= <-] & Hl & Hd).
  exists l_src, xs, i, p. repeat split; assumption.
Qed.

Lemma resolver_returns_first_match_witness :
  exists l_src xs i p,
    VRef Sample.l_days = VRef l_src /\ Sample.store !! l_src = Some (HArr xs)
    /\ xs !! i = Some (VRef Sample.l_day)
    /\ Sample.store !! Sample.l_day = Some (HObj p)
    /\ p !! "datetime" = Some (VStr "2025-03-07")
    /\ forall j x, j < i -> xs !! j = Some x -> passed_over Sample.store "2025-03-07" x.
Proof.
  apply (resolver_returns_first_match Sample.store (VRef Sample.l_days)
           "2025-03-07" Sample.l_day).
  vm_compute. reflexivity.
Defined.

(** X2. A number that names no element of the array resolves to [null], and
    nothing is written: a position past the end, and any number that is not a
    non-negative integer (a negative number, an infinity, NaN). *)
Theorem resolver_out_of_bounds
    (h : heap) (l_src : loc) (xs : list val) (n : spec_float) :
  h !! l_src = Some (HArr xs) ->
  (forall i, array_index n = Some i -> length xs <= i) ->
  filterItemByDatetimeVal (VRef l_src) (VNum n) h = (Ret VNull, h).
Proof.
  intros Hsrc Hout. unfold filterItemByDatetimeVal, bind, get_index, lift, read_index, ret.
  rewrite Hsrc. destruct (array_index n) as [i |] eqn:Hn; [| reflexivity].
  rewrite (lookup_ge_None_2 xs i) by (apply Hout; reflexivity). reflexivity.
Qed.

Lemma resolver_out_of_bounds_witness :
  filterItemByDatetimeVal (VRef Sample.l_days) (int 50) Sample.store
  = (Ret VNull, Sample.store).
Proof.
  apply (resolver_out_of_bounds Sample.store Sample.l_days [VRef Sample.l_day]).
  - reflexivity.
  - intros i. vm_compute. intros [= <-]. lia.
Defined.

(** The numbers that name no position at all. *)
Lemma array_index_none (n : spec_float) :
  match n with
  | S754_finite true _ _ | S754_infinity _ | S754_nan => array_index n = None
  | _ => True
  end.
Proof. destruct n as [sg | sg | | [|] m e]; exact I || reflexivity. Qed.

(** X3. The resolver only reads: whatever the sequence and the identifier, the
    heap it leaves is the heap it was given; and what it returns is a truthy
    element or [null], never [undefined]. *)
Theorem resolver_only_reads (src datetimeVal : val) (h : heap) :
  snd (filterItemByDatetimeVal src datetimeVal h) = h
  /\ forall x, fst (filterItemByDatetimeVal src datetimeVal h) = Ret x ->
               x = VNull \/ truthy x = true.
Proof.
  split; [apply filter_leaves_heap |].
  intros x. unfold filterItemByDatetimeVal, bind, find_by_datetime, get_index, lift, ret.
  assert (Hor : forall y, or_null y = VNull \/ truthy (or_null y) = true).
  { intros y. unfold or_null. destruct (truthy y) eqn:E; [right; exact E | left; reflexivity]. }
  destruct datetimeVal as [| | b | n | s | l]; cbn; try discriminate.
  - destruct (read_index h src n) as [y | e |]; cbn; try discriminate.
    intros [= <-]. apply Hor.
  - destruct (find_elems h src) as [xs | e |]; cbn; try discriminate.
    destruct (first_with_datetime h s xs) as [o | e |]; cbn; try discriminate.
    intros [= <-]. apply Hor.
Qed.

(** X4. In a sequence where no element before position [i] carries the date of
    the record at [i], that date and the number [i] resolve to the same record. *)
Theorem date_and_position_agree
    (h : heap) (l_src l : loc) (xs : list val) (p : gmap string val)
    (n : spec_float) (i : nat) (s : string) :
  h !! l_src = Some (HArr xs) ->
  array_index n = Some i ->
  xs !! i = Some (VRef l) ->
  h !! l = Some (HObj p) ->
  p !! "datetime" = Some (VStr s) ->
  (forall j x, j < i -> xs !! j = Some x -> passed_over h s x) ->
  filterItemByDatetimeVal (VRef l_src) (VStr s) h = (Ret (VRef l), h)
  /\ filterItemByDatetimeVal (VRef l_src) (VNum n) h = (Ret (VRef l), h).
Proof.
  intros Hsrc Hn Hi Hl Hd Hbefore. split.
  - unfold filterItemByDatetimeVal, bind, find_by_datetime, lift, find_elems, iterate, ret.
    rewrite Hsrc.
    rewrite (first_with_datetime_at h s xs i (VRef l) Hi); [reflexivity | | exact Hbefore].
    unfold read_prop. rewrite Hl, Hd. reflexivity.
  - unfold filterItemByDatetimeVal.
    erewrite bind_Ret by (eapply get_index_array; eassumption).
    rewrite Hi. reflexivity.
Qed.

Lemma date_and_position_agree_witness :
  filterItemByDatetimeVal (VRef Sample.l_days) (VStr "2025-03-07") Sample.store
    = (Ret (VRef Sample.l_day), Sample.store)
  /\ filterItemByDatetimeVal (VRef Sample.l_days) (int 0) Sample.store
    = (Ret (VRef Sample.l_day), Sample.store).
Proof.
  apply (date_and_position_agree Sample.store Sample.l_days Sample.l_day
           [VRef Sample.l_day] Sample.day_props (S754_zero false) 0 "2025-03-07");
    try reflexivity.
  intros j x Hj. lia.
Defined.

(** ** Replace and merge: which objects are written *)

Lemma read_prop_elsewhere (h : heap) (l : loc) (c : cell) (x : val) (k : string) :
  x <> VRef l -> read_prop (<[l := c]> h) x k = read_prop h x k.
Proof.
  intros Hx. destruct x as [| | b | y | t | l']; try reflexivity.
  unfold read_prop. rewrite lookup_insert_ne by congruence. reflexivity.
Qed.

(** X5. With a number for identifier, [setItemByDatetimeVal] puts a new object
    in the sequence: it is neither the caller's data nor the record that was
    there, the old record is not written (unless it is the data itself), and a
    later write on the caller's data does not reach the sequence. *)
Theorem replace_by_number_stores_a_copy
    (h : heap) (src : val) (n : spec_float) (l_item l_data : loc)
    (p_item p_data : gmap string val) :
  fst (filterItemByDatetimeVal src (VNum n) h) = Ret (VRef l_item) ->
  h !! l_item = Some (HObj p_item) ->
  h !! l_data = Some (HObj p_data) ->
  exists h' l_new,
    setItemByDatetimeVal src (VNum n) (VRef l_data) h = (Ret tt, h')
    /\ fst (filterItemByDatetimeVal src (VNum n) h') = Ret (VRef l_new)
    /\ l_new <> l_data /\ l_new <> l_item
    /\ (l_item <> l_data -> h' !! l_item = Some (HObj p_item))
    /\ forall k v, snd (set_prop (VRef l_data) k v h') !! l_new = h' !! l_new.
Proof.
  intros Hres Hitem Hdata.
  destruct (resolves_number _ _ _ _ Hres) as (l_src & xs & i & -> & Hsrc & Hn & Hi).
  pose proof (setItem_numeric h l_src l_item l_data xs p_item p_data n i
                Hsrc Hn Hi Hitem Hdata) as Hset. cbv zeta in Hset.
  set (p_data' := <["datetime" := default VUndef (p_item !! "datetime")]> p_data) in *.
  set (h1 := <[l_data := HObj p_data']> h) in *.
  set (l_new := fresh (dom h1)) in *.
  assert (Hnew : h1 !! l_new = None) by apply fresh_loc_unused.
  assert (Hnd : l_new <> l_data).
  { intros E. rewrite E in Hnew. unfold h1 in Hnew. rewrite lookup_insert_eq in Hnew.
    discriminate. }
  assert (Hni : l_new <> l_item).
  { intros E. rewrite E in Hnew. unfold h1 in Hnew.
    rewrite lookup_insert in Hnew. destruct (decide (l_data = l_item)); [discriminate |].
    rewrite Hitem in Hnew. discriminate. }
  assert (Hns : l_new <> l_src).
  { intros E. rewrite E in Hnew. unfold h1 in Hnew.
    rewrite lookup_insert in Hnew. destruct (decide (l_data = l_src)); [discriminate |].
    rewrite Hsrc in Hnew. discriminate. }
  assert (Hsd : l_src <> l_data) by (intros E; rewrite E, Hdata in Hsrc; discriminate).
  assert (Hsi : l_src <> l_item) by (intros E; rewrite E, Hitem in Hsrc; discriminate).
  eexists _, l_new. split; [exact Hset |]. repeat split; try assumption.
  - unfold filterItemByDatetimeVal.
    erewrite bind_Ret.
    2:{ eapply get_index_array; [apply lookup_insert_eq | exact Hn]. }
    rewrite list_lookup_insert_eq by (eapply lookup_lt_Some, Hi). reflexivity.
  - intros Hdiff. rewrite lookup_insert_ne by exact Hsi.
    rewrite lookup_insert_ne by exact Hni.
    unfold h1. rewrite lookup_insert_ne by congruence. exact Hitem.
  - intros k v.
    erewrite set_prop_obj.
    2:{ rewrite lookup_insert_ne by exact Hsd. rewrite lookup_insert_ne by exact Hnd.
        apply lookup_insert_eq. }
    cbn [snd]. rewrite lookup_insert_ne by congruence. reflexivity.
Qed.

Lemma replace_by_number_stores_a_copy_witness :
  exists h' l_new,
    setItemByDatetimeVal (VRef Sample.l_days) (int 0) (VRef Sample.l_data) Sample.store
      = (Ret tt, h')
    /\ fst (filterItemByDatetimeVal (VRef Sample.l_days) (int 0) h') = Ret (VRef l_new)
    /\ l_new <> Sample.l_data /\ l_new <> Sample.l_day
    /\ (Sample.l_day <> Sample.l_data -> h' !! Sample.l_day = Some (HObj Sample.day_props))
    /\ forall k v, snd (set_prop (VRef Sample.l_data) k v h') !! l_new = h' !! l_new.
Proof.
  apply (replace_by_number_stores_a_copy Sample.store (VRef Sample.l_days)
           (S754_zero false) Sample.l_day Sample.l_data
           Sample.day_props Sample.data_props); vm_compute; reflexivity.
Defined.

(** ** The merge primitive *)

(** After a merge into the first record of a date, that record is still the
    first of that date. *)
Lemma merged_record_still_first
    (h : heap) (s : string) (l_src l_item : loc) (xs : list val)
    (p_item p_data : gmap string val) :
  h !! l_item = Some (HObj p_item) ->
  h !! l_src = Some (HArr xs) ->
  first_with_datetime h s xs = Ret (Some (VRef l_item)) ->
  fst (filterItemByDatetimeVal (VRef l_src) (VStr s)
         (<[l_item := HObj (<["datetime" := VStr s]> (p_data ∪ p_item))]> h))
  = Ret (VRef l_item).
Proof.
  intros Hitem Hsrc Hfirst.
  destruct (first_with_datetime_index _ _ _ _ Hfirst) as (i & Hi & Hd & Hbefore).
  assert (Hsi : l_src <> l_item) by (intros E; rewrite E, Hitem in Hsrc; discriminate).
  unfold filterItemByDatetimeVal, bind, find_by_datetime, lift, find_elems, iterate, ret.
  rewrite lookup_insert_ne by congruence. rewrite Hsrc.
  rewrite (first_with_datetime_at _ s xs i (VRef l_item) Hi); [reflexivity | |].
  - unfold read_prop. rewrite lookup_insert_eq, lookup_insert_eq. reflexivity.
  - intros j x Hj Hx. destruct (Hbefore j x Hj Hx) as (d & Hread & Hne).
    exists d. split; [| exact Hne].
    rewrite read_prop_elsewhere; [exact Hread |].
    intros ->. rewrite Hd in Hread. injection Hread as <-.
    cbn in Hne. rewrite String.eqb_refl in Hne. discriminate.
Qed.

(** The merge writes the record in place: the identifier resolves afterwards
    to the record it resolved to before. *)
Lemma update_still_resolves
    (h : heap) (src datetimeVal : val) (l_item l_data : loc)
    (p_item p_data : gmap string val) :
  fst (filterItemByDatetimeVal src datetimeVal h) = Ret (VRef l_item) ->
  h !! l_item = Some (HObj p_item) ->
  h !! l_data = Some (HObj p_data) ->
  exists h',
    updateItemByDatetimeVal src datetimeVal (VRef l_data) h = (Ret tt, h')
    /\ fst (filterItemByDatetimeVal src datetimeVal h') = Ret (VRef l_item).
Proof.
  intros Hres Hitem Hdata.
  destruct datetimeVal as [| | b | n | s | l]; try discriminate Hres.
  - destruct (resolves_number _ _ _ _ Hres) as (l_src & xs & i & -> & Hsrc & Hn & Hi).
    eexists. split; [eapply updateItem_numeric; eassumption |].
    assert (Hsd : l_src <> l_data) by (intros E; rewrite E, Hdata in Hsrc; discriminate).
    assert (Hsi : l_src <> l_item) by (intros E; rewrite E, Hitem in Hsrc; discriminate).
    unfold filterItemByDatetimeVal.
    erewrite bind_Ret.
    2:{ eapply get_index_array; [| exact Hn].
        rewrite lookup_insert_ne by congruence.
        rewrite lookup_insert_ne by congruence. exact Hsrc. }
    rewrite Hi. reflexivity.
  - destruct (resolves_string _ _ _ _ Hres) as (l_src & xs & -> & Hsrc & Hfirst).
    eexists. split; [eapply updateItem_string; eassumption |].
    now apply (merged_record_still_first h s l_src l_item xs p_item p_data).
Qed.



(** X6. A merge keeps the address: after [updateItemByDatetimeVal], and after
    [setItemByDatetimeVal] with a date, the identifier still resolves to the
    same record object, which was written in place. *)
Theorem merge_keeps_the_address
    (h : heap) (src datetimeVal : val) (l_item l_data : loc)
    (p_item p_data : gmap string val) :
  fst (filterItemByDatetimeVal src datetimeVal h) = Ret (VRef l_item) ->
  h !! l_item = Some (HObj p_item) ->
  h !! l_data = Some (HObj p_data) ->
  (exists h',
      updateItemByDatetimeVal src datetimeVal (VRef l_data) h = (Ret tt, h')
      /\ fst (filterItemByDatetimeVal src datetimeVal h') = Ret (VRef l_item))
  /\ (forall s, datetimeVal = VStr s ->
      exists h',
        setItemByDatetimeVal src datetimeVal (VRef l_data) h = (Ret tt, h')
        /\ fst (filterItemByDatetimeVal src datetimeVal h') = Ret (VRef l_item)).
Proof.
  intros Hres Hitem Hdata. split.
  - eapply update_still_resolves; eassumption.
  - intros s ->.
    destruct (resolves_string _ _ _ _ Hres) as (l_src & xs & -> & Hsrc & Hfirst).
    eexists. split; [eapply setItem_string; eassumption |].
    now apply (merged_record_still_first h s l_src l_item xs p_item p_data).
Qed.

Lemma merge_keeps_the_address_witness :
  exists h',
    updateItemByDatetimeVal (VRef Sample.l_days) (VStr "2025-03-07")
      (VRef Sample.l_data) Sample.store = (Ret tt, h')
    /\ fst (filterItemByDatetimeVal (VRef Sample.l_days) (VStr "2025-03-07") h')
       = Ret (VRef Sample.l_day).
Proof.
  apply (merge_keeps_the_address Sample.store (VRef Sample.l_days) (VStr "2025-03-07")
           Sample.l_day Sample.l_data Sample.day_props Sample.data_props);
    vm_compute; reflexivity.
Defined.

(** ** [lib/utils.js] *)

Lemma inherited_field_name (key : string) :
  key ∉ object_prototype_names -> inherited key = false.
Proof. intros Hkey. unfold inherited. now apply bool_decide_false. Qed.

Lemma field_name_not_proto (key : string) :
  key ∉ object_prototype_names -> String.eqb key "__proto__" = false.
Proof.
  intros Hkey. apply String.eqb_neq. intros ->. apply Hkey.
  unfold object_prototype_names. do 7 apply list_elem_of_further. apply list_elem_of_here.
Qed.

(** [key in record] sees the names of [Object.prototype], whatever the record
    holds. *)
Lemma has_prop_inherited (h : heap) (l : loc) (p : gmap string val) (key : string) :
  h !! l = Some (HObj p) -> key ∈ object_prototype_names ->
  has_prop (VRef l) key h = (Ret true, h).
Proof.
  intros Hl Hkey. unfold has_prop, lift, inherited. rewrite Hl.
  rewrite (bool_decide_true (key ∈ object_prototype_names)) by exact Hkey.
  rewrite orb_true_r. reflexivity.
Qed.

Section Extract.

Variable lo l_new : loc.
Variable po : gmap string val.
Hypothesis Hdiff : lo <> l_new.

(** The loop of [extractSubobjectByKeys], from a heap where the sub-object
    being filled holds [acc]. *)
Lemma extract_loop (keys : list string) (acc : gmap string val) (hk : heap) :
  field_names keys ->
  hk !! l_new = Some (HObj acc) ->
  hk !! lo = Some (HObj po) ->
  exists acc',
    for_each keys (fun key =>
      present <- has_prop (VRef lo) key ;;
      if (present : bool) then
        v <- get_key (VRef lo) key ;;
        set_key (VRef l_new) key v
      else ret tt) hk
    = (Ret tt, <[l_new := HObj acc']> hk)
    /\ forall k, acc' !! k
                 = if decide (k ∈ keys)
                   then match po !! k with Some v => Some v | None => acc !! k end
                   else acc !! k.
Proof.
  intros Hkeys. revert acc hk.
  induction Hkeys as [| key rest Hkey _ IH]; intros acc hk Hnew Hlo.
  - exists acc. split.
    + cbn [for_each]. unfold ret. rewrite insert_id by exact Hnew. reflexivity.
    + intros k. rewrite decide_False by apply not_elem_of_nil. reflexivity.
  - cbn [for_each].
    assert (Hhas : has_prop (VRef lo) key hk = (Ret (bool_decide (is_Some (po !! key))), hk)).
    { unfold has_prop, lift. rewrite Hlo, (inherited_field_name key Hkey), orb_false_r.
      reflexivity. }
    destruct (po !! key) as [v |] eqn:Hkey_own.
    + destruct (IH (<[key := v]> acc) (<[l_new := HObj (<[key := v]> acc)]> hk))
        as (acc' & Hrun & Hacc').
      { apply lookup_insert_eq. }
      { rewrite lookup_insert_ne by congruence. exact Hlo. }
      exists acc'. split.
      * erewrite bind_Ret.
        2:{ erewrite bind_Ret by exact Hhas.
            rewrite bool_decide_true by eauto.
            erewrite bind_Ret
              by (unfold get_key, lift, read_key; rewrite Hlo, Hkey_own; reflexivity).
            unfold set_key. rewrite (field_name_not_proto key Hkey).
            eapply set_prop_obj, Hnew. }
        rewrite Hrun, insert_insert_eq. reflexivity.
      * intros k. rewrite Hacc'. destruct (decide (k = key)) as [-> | Hne].
        -- rewrite Hkey_own, (decide_True (P := key ∈ key :: rest))
             by apply list_elem_of_here.
           destruct (decide (key ∈ rest)); [reflexivity | apply lookup_insert_eq].
        -- rewrite lookup_insert_ne by congruence.
           destruct (decide (k ∈ rest)) as [Hin | Hnin].
           ++ rewrite decide_True by (now apply list_elem_of_further). reflexivity.
           ++ rewrite decide_False; [reflexivity |].
              intros Hin. apply elem_of_cons in Hin. tauto.
    + destruct (IH acc hk Hnew Hlo) as (acc' & Hrun & Hacc').
      exists acc'. split.
      * erewrite bind_Ret.
        2:{ erewrite bind_Ret by exact Hhas.
            rewrite bool_decide_false by (intros [? ?]; discriminate). reflexivity. }
        exact Hrun.
      * intros k. rewrite Hacc'. destruct (decide (k = key)) as [-> | Hne].
        -- rewrite Hkey_own, (decide_True (P := key ∈ key :: rest))
             by apply list_elem_of_here.
           destruct (decide (key ∈ rest)); reflexivity.
        -- destruct (decide (k ∈ rest)) as [Hin | Hnin].
           ++ rewrite decide_True by (now apply list_elem_of_further). reflexivity.
           ++ rewrite decide_False; [reflexivity |].
              intros Hin. apply elem_of_cons in Hin. tauto.
Qed.

End Extract.

Lemma extract_record (h : heap) (lo : loc) (po : gmap string val) (keys : list string) :
  field_names keys ->
  h !! lo = Some (HObj po) ->
  exists p_sub,
    extractSubobjectByKeys (VRef lo) keys h
    = (Ret (VRef (fresh (dom h))), <[fresh (dom h) := HObj p_sub]> h)
    /\ forall k, p_sub !! k = if decide (k ∈ keys) then po !! k else None.
Proof.
  intros Hkeys Hlo. set (l_new := fresh (dom h)).
  assert (Hdiff : lo <> l_new) by (eapply fresh_loc_other, Hlo).
  destruct (extract_loop lo l_new po Hdiff keys ∅ (<[l_new := HObj ∅]> h) Hkeys)
    as (p_sub & Hrun & Hsub).
  { apply lookup_insert_eq. }
  { rewrite lookup_insert_ne by congruence. exact Hlo. }
  exists p_sub. split.
  - unfold extractSubobjectByKeys.
    erewrite bind_Ret by reflexivity. fold l_new.
    erewrite bind_Ret by exact Hrun.
    unfold ret. rewrite insert_insert_eq. reflexivity.
  - intros k. rewrite Hsub, lookup_empty. destruct (decide (k ∈ keys)); [| reflexivity].
    destruct (po !! k); reflexivity.
Qed.

Lemma field_names_check (keys : list string) :
  forallb (fun key => negb (inherited key)) keys = true -> field_names keys.
Proof.
  induction keys as [| key rest IH]; cbn [forallb]; intros Hcheck; [constructor |].
  apply andb_true_iff in Hcheck as [Hkey Hrest]. constructor; [| now apply IH].
  apply negb_true_iff in Hkey. unfold inherited in Hkey.
  now apply bool_decide_eq_false in Hkey.
Qed.

(** X7. For requested keys that are field names (none is a name of
    [Object.prototype], which [in] finds on every record),
    [extractSubobjectByKeys] returns a new record that holds, of the
    requested keys, exactly those the original has, with the original's
    values; a requested key the original lacks is left out, not set to
    [undefined]; no object that existed is written. *)
Theorem extract_sub_object
    (h : heap) (lo : loc) (po : gmap string val) (keys : list string) :
  field_names keys ->
  h !! lo = Some (HObj po) ->
  exists h' l_new p_sub,
    extractSubobjectByKeys (VRef lo) keys h = (Ret (VRef l_new), h')
    /\ h !! l_new = None
    /\ h' !! l_new = Some (HObj p_sub)
    /\ (forall l c, h !! l = Some c -> h' !! l = Some c)
    /\ forall k, p_sub !! k = if decide (k ∈ keys) then po !! k else None.
Proof.
  intros Hkeys Hlo.
  destruct (extract_record h lo po keys Hkeys Hlo) as (p_sub & Hrun & Hsub).
  eexists _, _, p_sub. split; [exact Hrun |].
  split; [apply fresh_loc_unused |]. split; [apply lookup_insert_eq |].
  split; [| exact Hsub].
  intros l c Hl. rewrite lookup_insert_ne; [exact Hl |].
  apply not_eq_sym. eapply fresh_loc_other, Hl.
Qed.

Lemma extract_sub_object_witness :
  exists h' l_new p_sub,
    extractSubobjectByKeys (VRef Sample.l_day) ["temp"; "snow"] Sample.store
      = (Ret (VRef l_new), h')
    /\ Sample.store !! l_new = None
    /\ h' !! l_new = Some (HObj p_sub)
    /\ (forall l c, Sample.store !! l = Some c -> h' !! l = Some c)
    /\ forall k, p_sub !! k
                 = if decide (k ∈ ["temp"; "snow"]) then Sample.day_props !! k else None.
Proof.
  apply (extract_sub_object Sample.store Sample.l_day Sample.day_props ["temp"; "snow"]).
  - apply field_names_check. reflexivity.
  - reflexivity.
Defined.

Lemma includes_elem_of (items : list string) (s : string) :
  includes items s = true <-> s ∈ items.
Proof. rewrite includes_In. symmetry. apply list_elem_of_In. Qed.

(** X8. What [extractSubobjectByKeys] returns passes [isValidObject] against
    the keys it was extracted with, whatever the original record holds, for
    requested keys that are field names. *)
Theorem extracted_object_is_valid
    (h : heap) (lo : loc) (po : gmap string val) (keys : list string) :
  field_names keys ->
  h !! lo = Some (HObj po) ->
  exists h' sub,
    extractSubobjectByKeys (VRef lo) keys h = (Ret sub, h')
    /\ isValidObject sub keys h' = Ret true.
Proof.
  intros Hkeys Hlo.
  destruct (extract_record h lo po keys Hkeys Hlo) as (p_sub & Hrun & Hsub).
  eexists _, _. split; [exact Hrun |].
  unfold isValidObject. rewrite lookup_insert_eq. f_equal.
  apply forallb_forall. intros [k v] Hin. cbn [fst].
  apply list_elem_of_In, elem_of_map_to_list in Hin.
  apply includes_elem_of. specialize (Hsub k). rewrite Hin in Hsub.
  destruct (decide (k ∈ keys)); [assumption | discriminate].
Qed.

Lemma extracted_object_is_valid_witness :
  exists h' sub,
    extractSubobjectByKeys (VRef Sample.l_day) ["temp"; "snow"] Sample.store = (Ret sub, h')
    /\ isValidObject sub ["temp"; "snow"] h' = Ret true.
Proof.
  apply (extracted_object_is_valid Sample.store Sample.l_day Sample.day_props).
  - apply field_names_check. reflexivity.
  - reflexivity.
Defined.




(** ** Day granularity: an identifier that resolves to nothing *)

(** X10. For a day identifier of valid type that resolves to no day, every
    field getter of day granularity returns [null] and every field setter of
    day granularity returns without writing anything. *)
Theorem absent_day_get_and_set
    (this : Weather) (h : heap) (l_doc : loc) (p_doc : gmap string val)
    (dayInfo : val) :
  weatherData this = VRef l_doc ->
  h !! l_doc = Some (HObj p_doc) ->
  fst (filterItemByDatetimeVal (default VUndef (p_doc !! "days")) dayInfo h) = Ret VNull ->
  (forall f, getOnDay this f dayInfo h = (Ret VNull, h))
  /\ (forall f v, setOnDay this f dayInfo v h = (Ret tt, h)).
Proof.
  intros Hthis Hdoc Habs.
  pose proof (days_of_document this h l_doc p_doc Hthis Hdoc) as Hdays. cbv zeta in Hdays.
  assert (Hnorm : forall k, normalise k VUndef = VNull) by (intros []; reflexivity).
  destruct dayInfo as [| | b | n | s | l]; try discriminate Habs.
  - destruct (absent_number _ _ _ Habs) as (x & Hx & Hfalsy). split.
    + intros f. unfold getOnDay, try_catch.
      erewrite bind_Ret by exact Hdays. erewrite bind_Ret by exact Hx.
      assert (Hchain : opt_chain x (Day.name f) h = (Ret VUndef, h)).
      { destruct x as [| | b | y | t | l]; try reflexivity; discriminate Hfalsy. }
      erewrite bind_Ret by exact Hchain. unfold ret. rewrite Hnorm. reflexivity.
    + intros f v. unfold setOnDay. rewrite try_catch_rethrow.
      erewrite bind_Ret by exact Hdays. erewrite bind_Ret by exact Hx.
      rewrite Hfalsy. reflexivity.
  - destruct (absent_string _ _ _ Habs) as (l_src & xs & Hds & Hsrc & Hfirst).
    assert (Hfind : find_by_datetime (VRef l_src) s h = (Ret VUndef, h)).
    { unfold find_by_datetime, lift, find_elems, iterate. rewrite Hsrc, Hfirst. reflexivity. }
    split.
    + intros f. unfold getOnDay, try_catch.
      erewrite bind_Ret by exact Hdays. rewrite Hds.
      erewrite bind_Ret by exact Hfind.
      erewrite bind_Ret by reflexivity. unfold ret. rewrite Hnorm. reflexivity.
    + intros f v. unfold setOnDay. rewrite try_catch_rethrow.
      erewrite bind_Ret by exact Hdays. rewrite Hds.
      destruct (Day.setter f).
      * erewrite bind_Ret by exact Hfind. reflexivity.
      * unfold for_first_with_datetime, bind, lift, iterate. rewrite Hsrc, Hfirst.
        reflexivity.
Qed.

Lemma absent_day_get_and_set_witness :
  getTempOnDay Sample.weather (VStr "1970-01-01") Sample.store = (Ret VNull, Sample.store)
  /\ setTempOnDay Sample.weather (int 50) (int 1) Sample.store = (Ret tt, Sample.store).
Proof.
  split.
  - refine (proj1 (absent_day_get_and_set Sample.weather Sample.store Sample.l_doc
                     Sample.doc_props (VStr "1970-01-01") eq_refl eq_refl _) Day.temp).
    vm_compute. reflexivity.
  - refine (proj2 (absent_day_get_and_set Sample.weather Sample.store Sample.l_doc
                     Sample.doc_props (int 50) eq_refl eq_refl _) Day.temp (int 1)).
    vm_compute. reflexivity.
Defined.

(** ** Day granularity: one setter, the other getters *)

Lemma day_name_inj (f g : Day.field) : Day.name f = Day.name g -> f = g.
Proof. destruct f, g; intros H; try reflexivity; discriminate H. Qed.

(** A computation that only reads, and reads nothing the write of [k0] on
    the record [l] changes: it returns in the written heap what it returned
    before, and leaves both heaps as they are. *)
Section Framed.

Variable h : heap.
Variable l : loc.
Variable p : gmap string val.
Variable k0 : string.
Variable v : val.
Hypothesis Hl : h !! l = Some (HObj p).

Let h' : heap := <[l := HObj (<[k0 := v]> p)]> h.

Let framed {A} (m : M A) : Prop :=
  m h = (fst (m h), h) /\ m h' = (fst (m h), h').

Lemma framed_lift {A} (f : heap -> outcome A) :
  f h' = f h -> framed (lift f).
Proof. intros Hf. unfold framed, lift. cbn [fst]. rewrite Hf. split; reflexivity. Qed.

Lemma framed_ret {A} (a : A) : framed (ret a).
Proof. split; reflexivity. Qed.

Lemma framed_throw {A} (e : exn) : framed (throw e : M A).
Proof. split; reflexivity. Qed.

Lemma framed_bind {A B} (m : M A) (k : A -> M B) :
  framed m -> (forall a, framed (k a)) -> framed (bind m k).
Proof.
  intros [Hm Hm'] Hk. unfold framed, bind. rewrite Hm, Hm'.
  destruct (fst (m h)) as [a | e |]; try (split; reflexivity).
  apply Hk.
Qed.

Lemma framed_try_catch {A} (m : M A) (handler : exn -> M A) :
  framed m -> (forall e, framed (handler e)) -> framed (try_catch m handler).
Proof.
  intros [Hm Hm'] Hk. unfold framed, try_catch. rewrite Hm, Hm'.
  destruct (fst (m h)) as [a | e |]; try (split; reflexivity).
  apply Hk.
Qed.

Lemma framed_get_prop (x : val) (k : string) : k <> k0 -> framed (get_prop x k).
Proof. intros Hk. apply framed_lift. now apply read_prop_other. Qed.

Lemma framed_opt_chain (x : val) (k : string) : k <> k0 -> framed (opt_chain x k).
Proof.
  intros Hk. destruct x; try apply framed_ret; now apply framed_get_prop.
Qed.

Lemma framed_get_index (src : val) (n : spec_float) : framed (get_index src n).
Proof. apply framed_lift. now apply read_index_written. Qed.

Lemma framed_find_by_datetime (src : val) (s : string) :
  k0 <> "datetime" -> framed (find_by_datetime src s).
Proof.
  intros Hk. apply framed_lift. rewrite (find_elems_written h l p k0 v Hl).
  destruct (find_elems h src); try reflexivity.
  now rewrite (first_with_datetime_written h l p k0 v Hl).
Qed.

Lemma framed_filter (src datetimeVal : val) :
  k0 <> "datetime" -> framed (filterItemByDatetimeVal src datetimeVal).
Proof.
  intros Hk. unfold filterItemByDatetimeVal.
  destruct datetimeVal; try apply framed_throw.
  - apply framed_bind; [apply framed_get_index | intros; apply framed_ret].
  - apply framed_bind; [now apply framed_find_by_datetime | intros; apply framed_ret].
Qed.

Lemma framed_days (this : Weather) : k0 <> "days" -> framed (days this).
Proof. intros Hk. apply framed_get_prop. congruence. Qed.

Lemma getOnDay_written (this : Weather) (g : Day.field) (dayInfo : val) :
  k0 <> "days" -> k0 <> "datetime" -> k0 <> Day.name g ->
  getOnDay this g dayInfo h' = (fst (getOnDay this g dayInfo h), h').
Proof.
  intros Hdays Hdate Hg.
  enough (framed (getOnDay this g dayInfo)) as [_ H] by exact H.
  unfold getOnDay. apply framed_try_catch; [| intros; apply framed_ret].
  destruct dayInfo; try apply framed_throw.
  - apply framed_bind; [now apply framed_days | intros ds].
    apply framed_bind; [apply framed_get_index | intros day].
    apply framed_bind; [apply framed_opt_chain; congruence | intros; apply framed_ret].
  - apply framed_bind; [now apply framed_days | intros ds].
    apply framed_bind; [now apply framed_find_by_datetime | intros day].
    apply framed_bind; [apply framed_opt_chain; congruence | intros; apply framed_ret].
Qed.

Lemma filter_written (src datetimeVal : val) :
  k0 <> "datetime" ->
  filterItemByDatetimeVal src datetimeVal h'
  = (fst (filterItemByDatetimeVal src datetimeVal h), h').
Proof. intros Hk. now apply framed_filter. Qed.

End Framed.

(** X11. A field setter of day granularity changes what the getter of that
    field returns and nothing else a getter can see: after [set<F>OnDay] on a
    resolved day, every getter of every other field returns, for every day
    identifier, what it returned before. *)
Theorem set_on_day_leaves_other_fields
    (this : Weather) (h : heap) (l_doc l_day : loc)
    (p_doc p_day : gmap string val) (dayInfo : val) (f : Day.field) (v : val) :
  weatherData this = VRef l_doc ->
  h !! l_doc = Some (HObj p_doc) ->
  fst (filterItemByDatetimeVal (default VUndef (p_doc !! "days")) dayInfo h)
    = Ret (VRef l_day) ->
  h !! l_day = Some (HObj p_day) ->
  exists h',
    setOnDay this f dayInfo v h = (Ret tt, h')
    /\ forall g otherDay, g <> f ->
         getOnDay this g otherDay h' = (fst (getOnDay this g otherDay h), h').
Proof.
  intros Hthis Hdoc Hres Hday. eexists. split.
  - eapply setOnDay_resolved; eassumption.
  - intros g otherDay Hg. apply (getOnDay_written h l_day p_day); [exact Hday | | |].
    + apply day_field_not_days.
    + apply day_field_not_datetime.
    + intros E. apply Hg. symmetry. now apply day_name_inj.
Qed.

Lemma set_on_day_leaves_other_fields_witness :
  exists h',
    setOnDay Sample.weather Day.humidity (int 0) (int 55) Sample.store = (Ret tt, h')
    /\ forall g otherDay, g <> Day.humidity ->
         getOnDay Sample.weather g otherDay h'
         = (fst (getOnDay Sample.weather g otherDay Sample.store), h').
Proof.
  apply (set_on_day_leaves_other_fields Sample.weather Sample.store Sample.l_doc
           Sample.l_day Sample.doc_props Sample.day_props (int 0) Day.humidity (int 55));
    vm_compute; reflexivity.
Defined.

(** ** A document without days *)

(** X12. After [clearWeatherData] the document is a new empty record, which
    [getWeatherData()] returns; it has no [days], so for a day identifier of
    valid type every field getter returns [null], while every field setter
    raises the TypeError of the engine (it reads through [undefined]) instead
    of returning silently. *)
Theorem cleared_document (this : Weather) (h : heap) (dayInfo timeInfo v : val) :
  valid_identifier dayInfo = true ->
  exists this' h' l_doc,
    clearWeatherData this h = (Ret this', h')
    /\ weatherData this' = VRef l_doc
    /\ h !! l_doc = None /\ h' !! l_doc = Some (HObj ∅)
    /\ getWeatherData this' [] h' = (Ret (VRef l_doc), h')
    /\ (forall f, getOnDay this' f dayInfo h' = (Ret VNull, h'))
    /\ (forall f, setOnDay this' f dayInfo v h' = (Throw NativeTypeError, h'))
    /\ (forall f, getAtDatetime this' f dayInfo timeInfo h' = (Ret VNull, h'))
    /\ (forall f, setAtDatetime this' f dayInfo timeInfo v h' = (Throw NativeTypeError, h')).
Proof.
  intros Hvalid.
  set (l_doc := fresh (dom h)). set (h' := <[l_doc := HObj ∅]> h).
  set (this' := {| weatherData := VRef l_doc |}).
  assert (Hdoc : h' !! l_doc = Some (HObj ∅)) by apply lookup_insert_eq.
  assert (Hdays : days this' h' = (Ret VUndef, h')).
  { unfold days. cbn [weatherData this']. erewrite get_prop_obj by exact Hdoc.
    rewrite lookup_empty. reflexivity. }
  assert (Hfilter : filterItemByDatetimeVal VUndef dayInfo h' = (Throw NativeTypeError, h')).
  { destruct dayInfo; try discriminate Hvalid; reflexivity. }
  exists this', h', l_doc.
  split; [reflexivity |]. split; [reflexivity |].
  split; [apply fresh_loc_unused |]. split; [exact Hdoc |].
  split; [reflexivity |]. split; [| split; [| split]].
  - intros f. unfold getOnDay, try_catch.
    destruct dayInfo; try discriminate Hvalid;
      erewrite bind_Ret by exact Hdays; reflexivity.
  - intros f. unfold setOnDay. rewrite try_catch_rethrow.
    destruct dayInfo; try discriminate Hvalid.
    + erewrite bind_Ret by exact Hdays. reflexivity.
    + erewrite bind_Ret by exact Hdays. destruct (Day.setter f); reflexivity.
  - intros f. unfold getAtDatetime, try_catch.
    erewrite bind_Ret by exact Hdays. erewrite bind_Throw by exact Hfilter. reflexivity.
  - intros f. unfold setAtDatetime. rewrite try_catch_rethrow.
    erewrite bind_Ret by exact Hdays. erewrite bind_Throw by exact Hfilter. reflexivity.
Qed.

Lemma cleared_document_witness :
  exists this' h' l_doc,
    clearWeatherData Sample.weather Sample.store = (Ret this', h')
    /\ weatherData this' = VRef l_doc
    /\ Sample.store !! l_doc = None /\ h' !! l_doc = Some (HObj ∅)
    /\ getWeatherData this' [] h' = (Ret (VRef l_doc), h')
    /\ (forall f, getOnDay this' f (int 0) h' = (Ret VNull, h'))
    /\ (forall f, setOnDay this' f (int 0) (int 1) h' = (Throw NativeTypeError, h'))
    /\ (forall f, getAtDatetime this' f (int 0) (int 0) h' = (Ret VNull, h'))
    /\ (forall f, setAtDatetime this' f (int 0) (int 0) (int 1) h'
                  = (Throw NativeTypeError, h')).
Proof.
  apply (cleared_document Sample.weather Sample.store (int 0) (int 0) (int 1)).
  reflexivity.
Defined.

(** ** The day records themselves *)

(** X13. [setDataOnDay] with a number stores the caller's value itself at that
    position, without copying it or dating it, and appends it when the number
    is the length of the array; [getDataOnDay] with the same number then
    returns that very value, and no other object is written. *)
Theorem data_on_day_by_position
    (this : Weather) (h : heap) (l_doc l_days : loc) (p_doc : gmap string val)
    (xs : list val) (n : spec_float) (i : nat) (data : val) :
  weatherData this = VRef l_doc ->
  h !! l_doc = Some (HObj p_doc) ->
  p_doc !! "days" = Some (VRef l_days) ->
  h !! l_days = Some (HArr xs) ->
  array_index n = Some i ->
  i <= length xs ->
  exists h',
    setDataOnDay this (VNum n) data h = (Ret tt, h')
    /\ getDataOnDay this (VNum n) [] h' = (Ret data, h')
    /\ h' !! l_days
       = Some (HArr (if decide (i < length xs) then <[i := data]> xs else xs ++ [data]))
    /\ forall l, l <> l_days -> h' !! l = h !! l.
Proof.
  intros Hthis Hdoc Hdays Harr Hn Hi.
  set (xs' := if decide (i < length xs) then <[i := data]> xs else xs ++ [data]).
  assert (Hat : xs' !! i = Some data).
  { unfold xs'. destruct (decide (i < length xs)) as [Hlt | Hge].
    - now apply list_lookup_insert_eq.
    - assert (i = length xs) as -> by lia.
      rewrite lookup_app_r by lia. rewrite Nat.sub_diag. reflexivity. }
  assert (Hdd : l_doc <> l_days) by (intros E; rewrite E, Harr in Hdoc; discriminate).
  exists (<[l_days := HArr xs']> h). split; [| split; [| split]].
  - unfold setDataOnDay. rewrite try_catch_rethrow.
    erewrite bind_Ret by (eapply days_of_document; eassumption).
    rewrite Hdays. cbn [from_option id]. unfold write_index. rewrite Harr, Hn.
    unfold xs'. destruct (decide (i < length xs)); [reflexivity |].
    destruct (decide (i = length xs)); [reflexivity | lia].
  - unfold getDataOnDay, try_catch.
    erewrite bind_Ret.
    2:{ erewrite bind_Ret.
        2:{ eapply days_of_document; [exact Hthis |].
            rewrite lookup_insert_ne by congruence. exact Hdoc. }
        rewrite Hdays. cbn [from_option id].
        eapply get_index_array; [apply lookup_insert_eq | exact Hn]. }
    rewrite Hat. reflexivity.
  - apply lookup_insert_eq.
  - intros l Hl. apply lookup_insert_ne. congruence.
Qed.

Lemma data_on_day_by_position_witness :
  exists h',
    setDataOnDay Sample.weather (int 1) (VRef Sample.l_data) Sample.store = (Ret tt, h')
    /\ getDataOnDay Sample.weather (int 1) [] h' = (Ret (VRef Sample.l_data), h')
    /\ h' !! Sample.l_days
       = Some (HArr (if decide (1 < length [VRef Sample.l_day])
                     then <[1 := VRef Sample.l_data]> [VRef Sample.l_day]
                     else [VRef Sample.l_day] ++ [VRef Sample.l_data]))
    /\ forall l, l <> Sample.l_days -> h' !! l = Sample.store !! l.
Proof.
  apply (data_on_day_by_position Sample.weather Sample.store Sample.l_doc Sample.l_days
           Sample.doc_props [VRef Sample.l_day] (S754_finite false 1 0) 1
           (VRef Sample.l_data)); reflexivity.
Defined.

(** X14. For a date that matches no day, [getDataOnDay] returns [undefined]
    when no elements are asked for, and [null] when some are: the projection
    fails on [undefined] and the failure is caught.  In both cases every object
    of the heap is left as it was. *)
Theorem getDataOnDay_absent_date
    (this : Weather) (h : heap) (l_doc : loc) (p_doc : gmap string val) (s : string) :
  weatherData this = VRef l_doc ->
  h !! l_doc = Some (HObj p_doc) ->
  fst (filterItemByDatetimeVal (default VUndef (p_doc !! "days")) (VStr s) h)
    = Ret VNull ->
  getDataOnDay this (VStr s) [] h = (Ret VUndef, h)
  /\ forall element elements,
       fst (getDataOnDay this (VStr s) (element :: elements) h) = Ret VNull
       /\ forall l c, h !! l = Some c ->
                      snd (getDataOnDay this (VStr s) (element :: elements) h) !! l = Some c.
Proof.
  intros Hthis Hdoc Habs.
  destruct (absent_string _ _ _ Habs) as (l_src & xs & Hds & Hsrc & Hfirst).
  assert (Hfind : (ds <- days this ;; find_by_datetime ds s) h = (Ret VUndef, h)).
  { erewrite bind_Ret by (eapply days_of_document; eassumption). rewrite Hds.
    unfold find_by_datetime, lift, find_elems, iterate. rewrite Hsrc, Hfirst. reflexivity. }
  split.
  - unfold getDataOnDay, try_catch. erewrite bind_Ret by exact Hfind. reflexivity.
  - intros element elements.
    assert (Hrun : getDataOnDay this (VStr s) (element :: elements) h
                   = (Ret VNull, <[fresh (dom h) := HObj ∅]> h)).
    { unfold getDataOnDay, try_catch. erewrite bind_Ret by exact Hfind. reflexivity. }
    rewrite Hrun. split; [reflexivity |].
    intros l c Hl. cbn [snd]. rewrite lookup_insert_ne; [exact Hl |].
    apply not_eq_sym. eapply fresh_loc_other, Hl.
Qed.

Lemma getDataOnDay_absent_date_witness :
  getDataOnDay Sample.weather (VStr "1970-01-01") [] Sample.store
    = (Ret VUndef, Sample.store)
  /\ fst (getDataOnDay Sample.weather (VStr "1970-01-01") ["temp"] Sample.store)
     = Ret VNull.
Proof.
  destruct (getDataOnDay_absent_date Sample.weather Sample.store Sample.l_doc
              Sample.doc_props "1970-01-01" eq_refl eq_refl) as [Hnone Hsome].
  - vm_compute. reflexivity.
  - split; [exact Hnone | apply (Hsome "temp" [])].
Defined.

(** ** Datetime granularity: a resolved hour *)

Lemma hour_field_not_reserved (f : Hour.field) :
  Hour.name f <> "days" /\ Hour.name f <> "datetime" /\ Hour.name f <> "hours".
Proof. destruct f; repeat split; discriminate. Qed.

(** X15. At datetime granularity a field written is the field read: when the
    day and the time both resolve to records, [set<F>AtDatetime] followed by
    [get<F>AtDatetime] returns exactly the value written, whatever it is
    (0, the empty string, [null] and [undefined] included). *)
Theorem set_then_get_at_datetime
    (this : Weather) (h : heap) (l_doc l_day l_hour : loc)
    (p_doc p_day p_hour : gmap string val)
    (dayInfo timeInfo : val) (f : Hour.field) (v : val) :
  weatherData this = VRef l_doc ->
  h !! l_doc = Some (HObj p_doc) ->
  fst (filterItemByDatetimeVal (default VUndef (p_doc !! "days")) dayInfo h)
    = Ret (VRef l_day) ->
  h !! l_day = Some (HObj p_day) ->
  fst (filterItemByDatetimeVal (default VUndef (p_day !! "hours")) timeInfo h)
    = Ret (VRef l_hour) ->
  h !! l_hour = Some (HObj p_hour) ->
  exists h',
    setAtDatetime this f dayInfo timeInfo v h = (Ret tt, h')
    /\ getAtDatetime this f dayInfo timeInfo h' = (Ret v, h').
Proof.
  intros Hthis Hdoc Hday Hpday Hhour Hphour.
  destruct (hour_field_not_reserved f) as (Hndays & Hndate & Hnhours).
  set (h' := <[l_hour := HObj (<[Hour.name f := v]> p_hour)]> h).
  exists h'. split.
  - unfold setAtDatetime.
    rewrite try_catch_rethrow, (day_step this h l_doc p_doc Hthis Hdoc), Hday.
    cbn [truthy].
    erewrite bind_Ret by (eapply get_prop_obj, Hpday).
    erewrite bind_Ret by (apply filter_run, Hhour).
    now apply set_prop_obj.
  - unfold getAtDatetime, try_catch.
    erewrite bind_Ret.
    2:{ etransitivity;
          [apply (proj2 (framed_days h l_hour p_hour (Hour.name f) v Hphour this
                           Hndays)) |].
        rewrite (days_of_document this h l_doc p_doc Hthis Hdoc). reflexivity. }
    erewrite bind_Ret.
    2:{ rewrite (filter_written h l_hour p_hour _ v Hphour) by exact Hndate.
        rewrite Hday. reflexivity. }
    cbn [truthy negb].
    erewrite bind_Ret.
    2:{ etransitivity;
          [apply (proj2 (framed_get_prop h l_hour p_hour (Hour.name f) v Hphour
                           (VRef l_day) "hours" (not_eq_sym Hnhours))) |].
        erewrite get_prop_obj by exact Hpday. reflexivity. }
    erewrite bind_Ret.
    2:{ rewrite (filter_written h l_hour p_hour _ v Hphour) by exact Hndate.
        rewrite Hhour. reflexivity. }
    cbn [truthy]. unfold get_prop, lift.
    rewrite (read_prop_written h l_hour p_hour). reflexivity.
Qed.

Lemma set_then_get_at_datetime_witness :
  exists h',
    setTempAtDatetime Sample.weather (VStr "2025-03-07") (int 0) (VStr "") Sample.store
      = (Ret tt, h')
    /\ getTempAtDatetime Sample.weather (VStr "2025-03-07") (int 0) h' = (Ret (VStr ""), h').
Proof.
  apply (set_then_get_at_datetime Sample.weather Sample.store Sample.l_doc Sample.l_day
           Sample.l_hour Sample.doc_props Sample.day_props Sample.hour_props
           (VStr "2025-03-07") (int 0) Hour.temp (VStr ""));
    vm_compute; reflexivity.
Defined.

(** ** The hours of a day *)

Lemma falsy_has_no_hours (x : val) (h : heap) :
  truthy x = false -> opt_chain x "hours" h = (Ret VUndef, h).
Proof. intros Hx. destruct x; try reflexivity; discriminate Hx. Qed.

Lemma absent_day_read
    (this : Weather) (h : heap) (l_doc : loc) (p_doc : gmap string val) (dayInfo : val) :
  weatherData this = VRef l_doc ->
  h !! l_doc = Some (HObj p_doc) ->
  fst (filterItemByDatetimeVal (default VUndef (p_doc !! "days")) dayInfo h) = Ret VNull ->
  (exists s, dayInfo = VStr s
             /\ (ds <- days this ;; find_by_datetime ds s) h = (Ret VUndef, h))
  \/ (exists n x, dayInfo = VNum n /\ truthy x = false
                  /\ (ds <- days this ;; get_index ds n) h = (Ret x, h)).
Proof.
  intros Hthis Hdoc Habs.
  pose proof (days_of_document this h l_doc p_doc Hthis Hdoc) as Hdays. cbv zeta in Hdays.
  destruct dayInfo as [| | b | n | s | l]; try discriminate Habs.
  - right. destruct (absent_number _ _ _ Habs) as (x & Hx & Hfalsy).
    exists n, x. repeat split; [exact Hfalsy |].
    erewrite bind_Ret by exact Hdays. exact Hx.
  - left. destruct (absent_string _ _ _ Habs) as (l_src & xs & Hds & Hsrc & Hfirst).
    exists s. split; [reflexivity |].
    erewrite bind_Ret by exact Hdays. rewrite Hds.
    unfold find_by_datetime, lift, find_elems, iterate. rewrite Hsrc, Hfirst. reflexivity.
Qed.

(** X16. For a day identifier of valid type that resolves to no day,
    [getHourlyDataOnDay] returns a new empty array, not [null]: the array is no
    part of the document, and no object that existed is written. *)
Theorem hourly_data_of_absent_day
    (this : Weather) (h : heap) (l_doc : loc) (p_doc : gmap string val) (dayInfo : val) :
  weatherData this = VRef l_doc ->
  h !! l_doc = Some (HObj p_doc) ->
  fst (filterItemByDatetimeVal (default VUndef (p_doc !! "days")) dayInfo h) = Ret VNull ->
  exists h' l_new,
    getHourlyDataOnDay this dayInfo [] h = (Ret (VRef l_new), h')
    /\ h !! l_new = None
    /\ h' !! l_new = Some (HArr [])
    /\ forall l c, h !! l = Some c -> h' !! l = Some c.
Proof.
  intros Hthis Hdoc Habs.
  exists (<[fresh (dom h) := HArr []]> h), (fresh (dom h)).
  split; [| split; [apply fresh_loc_unused | split; [apply lookup_insert_eq |]]].
  - unfold getHourlyDataOnDay. rewrite try_catch_rethrow.
    destruct (absent_day_read this h l_doc p_doc dayInfo Hthis Hdoc Habs)
      as [(s & -> & Hfind) | (n & x & -> & Hfalsy & Hx)].
    + erewrite bind_Ret.
      2:{ unfold bind in Hfind |- *. destruct (days this h) as [[ds | e |] h0];
            try discriminate Hfind.
          destruct (find_by_datetime ds s h0) as [[day | e |] h1]; try discriminate Hfind.
          injection Hfind as -> ->. reflexivity. }
      reflexivity.
    + erewrite bind_Ret.
      2:{ unfold bind in Hx |- *. destruct (days this h) as [[ds | e |] h0];
            try discriminate Hx.
          destruct (get_index ds n h0) as [[day | e |] h1]; try discriminate Hx.
          injection Hx as -> ->. rewrite (falsy_has_no_hours x h Hfalsy). reflexivity. }
      reflexivity.
  - intros l c Hl. rewrite lookup_insert_ne; [exact Hl |].
    apply not_eq_sym. eapply fresh_loc_other, Hl.
Qed.

Lemma hourly_data_of_absent_day_witness :
  exists h' l_new,
    getHourlyDataOnDay Sample.weather (int 50) [] Sample.store = (Ret (VRef l_new), h')
    /\ Sample.store !! l_new = None
    /\ h' !! l_new = Some (HArr [])
    /\ forall l c, Sample.store !! l = Some c -> h' !! l = Some c.
Proof.
  apply (hourly_data_of_absent_day Sample.weather Sample.store Sample.l_doc
           Sample.doc_props (int 50)); vm_compute; reflexivity.
Defined.

(** X17. [setHourlyDataOnDay] treats the two kinds of identifier differently
    when the day is absent: a date that matches no day is a silent no-op, but
    a number that names no day raises the TypeError of the engine (the hours
    are written on [undefined]); nothing is written in either case. *)
Theorem set_hourly_data_of_absent_day
    (this : Weather) (h : heap) (l_doc : loc) (p_doc : gmap string val)
    (dayInfo data : val) :
  weatherData this = VRef l_doc ->
  h !! l_doc = Some (HObj p_doc) ->
  fst (filterItemByDatetimeVal (default VUndef (p_doc !! "days")) dayInfo h) = Ret VNull ->
  setHourlyDataOnDay this dayInfo data h
  = match dayInfo with
    | VStr _ => (Ret tt, h)
    | _ => (Throw NativeTypeError, h)
    end.
Proof.
  intros Hthis Hdoc Habs.
  pose proof (days_of_document this h l_doc p_doc Hthis Hdoc) as Hdays. cbv zeta in Hdays.
  unfold setHourlyDataOnDay. rewrite try_catch_rethrow.
  destruct dayInfo as [| | b | n | s | l]; try discriminate Habs.
  - destruct (absent_number _ _ _ Habs) as (x & Hx & Hfalsy).
    erewrite bind_Ret by exact Hdays. erewrite bind_Ret by exact Hx.
    destruct x; try reflexivity; discriminate Hfalsy.
  - destruct (absent_string _ _ _ Habs) as (l_src & xs & Hds & Hsrc & Hfirst).
    erewrite bind_Ret by exact Hdays. rewrite Hds.
    unfold for_first_with_datetime, bind, lift, iterate. rewrite Hsrc, Hfirst. reflexivity.
Qed.

Lemma set_hourly_data_of_absent_day_witness :
  setHourlyDataOnDay Sample.weather (VStr "1970-01-01") (VRef Sample.l_hours) Sample.store
    = (Ret tt, Sample.store)
  /\ setHourlyDataOnDay Sample.weather (int 50) (VRef Sample.l_hours) Sample.store
    = (Throw NativeTypeError, Sample.store).
Proof.
  split.
  - apply (set_hourly_data_of_absent_day Sample.weather Sample.store Sample.l_doc
             Sample.doc_props (VStr "1970-01-01")); vm_compute; reflexivity.
  - apply (set_hourly_data_of_absent_day Sample.weather Sample.store Sample.l_doc
             Sample.doc_props (int 50)); vm_compute; reflexivity.
Defined.

(** ** The list validators *)

Lemma check_each_accepts (method : string) (vocabulary strs : list string) :
  Forall (fun s => s ∈ vocabulary) strs ->
  check_each method vocabulary (VStr <$> strs) = Ret strs.
Proof.
  induction 1 as [| s rest Hs _ IH]; [reflexivity |].
  cbn [fmap list_fmap check_each]. apply includes_elem_of in Hs.
  rewrite Hs. fold (fmap (M := list) VStr rest). rewrite IH. reflexivity.
Qed.

Lemma check_each_first_failure (method : string) (vocabulary pre : list string)
    (bad : val) (post : list val) :
  Forall (fun s => s ∈ vocabulary) pre ->
  (forall s, bad = VStr s -> s ∉ vocabulary) ->
  check_each method vocabulary ((VStr <$> pre) ++ bad :: post)
  = Throw (rejection method bad).
Proof.
  intros Hpre Hbad. induction Hpre as [| s rest Hs _ IH].
  - cbn [fmap list_fmap app check_each]. destruct bad as [| | b | y | t | l]; try reflexivity.
    destruct (includes vocabulary t) eqn:Hin; [| reflexivity].
    apply includes_elem_of in Hin. now destruct (Hbad t eq_refl).
  - cbn [fmap list_fmap app check_each]. apply includes_elem_of in Hs. rewrite Hs.
    fold (fmap (M := list) VStr rest). rewrite IH. reflexivity.
Qed.

Lemma check_each_sound (method : string) (vocabulary : list string) (param : list val)
    (checked : list string) :
  check_each method vocabulary param = Ret checked ->
  param = VStr <$> checked /\ Forall (fun s => s ∈ vocabulary) checked.
Proof.
  revert checked. induction param as [| p rest IH]; intros checked; cbn [check_each].
  - intros [= <-]. split; [reflexivity | constructor].
  - destruct p as [| | b | y | s | l]; try discriminate.
    destruct (includes vocabulary s) eqn:Hin; [| discriminate].
    destruct (check_each method vocabulary rest) as [rest' | e |]; try discriminate.
    intros [= <-]. destruct (IH rest' eq_refl) as [-> Hall].
    split; [reflexivity |]. constructor; [now apply includes_elem_of | exact Hall].
Qed.

(** X18. [validateParamInclude] and [validateParamElements] return the
    arguments joined by commas, in the order given, exactly when every argument
    is a string of the vocabulary; otherwise they raise the error of the first
    argument that is not (InvalidType for a value that is no string, the plain
    Error for a string outside the vocabulary), whatever comes after it. *)
Theorem list_validators (param : list val) :
  (forall strs, param = VStr <$> strs ->
     (Forall (fun s => s ∈ include_sections) strs ->
        validateParamInclude param = Ret (VStr (String.concat "," strs)))
     /\ (Forall (fun s => s ∈ element_names) strs ->
        validateParamElements param = Ret (VStr (String.concat "," strs))))
  /\ (forall pre bad post, param = (VStr <$> pre) ++ bad :: post ->
     (Forall (fun s => s ∈ include_sections) pre ->
      (forall s, bad = VStr s -> s ∉ include_sections) ->
        validateParamInclude param = Throw (rejection "validateParamInclude" bad))
     /\ (Forall (fun s => s ∈ element_names) pre ->
      (forall s, bad = VStr s -> s ∉ element_names) ->
        validateParamElements param = Throw (rejection "validateParamElements" bad)))
  /\ (forall r, validateParamInclude param = Ret r ->
        exists strs, param = VStr <$> strs
                     /\ Forall (fun s => s ∈ include_sections) strs
                     /\ r = VStr (String.concat "," strs))
  /\ (forall r, validateParamElements param = Ret r ->
        exists strs, param = VStr <$> strs
                     /\ Forall (fun s => s ∈ element_names) strs
                     /\ r = VStr (String.concat "," strs)).
Proof.
  split; [| split; [| split]].
  - intros strs ->. split; intros Hall.
    + unfold validateParamInclude. rewrite check_each_accepts by exact Hall. reflexivity.
    + unfold validateParamElements. rewrite check_each_accepts by exact Hall. reflexivity.
  - intros pre bad post ->. split; intros Hpre Hbad.
    + unfold validateParamInclude. rewrite check_each_first_failure by assumption.
      reflexivity.
    + unfold validateParamElements. rewrite check_each_first_failure by assumption.
      reflexivity.
  - intros r. unfold validateParamInclude.
    destruct (check_each _ _ param) as [checked | e |] eqn:Hcheck; try discriminate.
    intros [= <-]. destruct (check_each_sound _ _ _ _ Hcheck) as [-> Hall]. eauto.
  - intros r. unfold validateParamElements.
    destruct (check_each _ _ param) as [checked | e |] eqn:Hcheck; try discriminate.
    intros [= <-]. destruct (check_each_sound _ _ _ _ Hcheck) as [-> Hall]. eauto.
Qed.

Lemma list_validators_witness :
  validateParamInclude [VStr "days"; VStr "hours"] = Ret (VStr "days,hours")
  /\ validateParamInclude [VStr "days"; VBool true; VStr "nonsense"]
     = Throw (InvalidType "validateParamInclude" (VBool true))
  /\ validateParamElements [VStr "temp"; VStr "Temp"; VNull]
     = Throw (InvalidFormat "validateParamElements" "Temp").
Proof.
  split; [| split].
  - refine (proj1 (proj1 (list_validators [VStr "days"; VStr "hours"])
                     ["days"; "hours"] eq_refl) _).
    repeat constructor; apply includes_elem_of; reflexivity.
  - refine (proj1 (proj1 (proj2 (list_validators [VStr "days"; VBool true; VStr "nonsense"]))
                     ["days"] (VBool true) [VStr "nonsense"] eq_refl) _ _).
    + repeat constructor; apply includes_elem_of; reflexivity.
    + intros s H. discriminate H.
  - refine (proj2 (proj1 (proj2 (list_validators [VStr "temp"; VStr "Temp"; VNull]))
                     ["temp"] (VStr "Temp") [VNull] eq_refl) _ _).
    + repeat constructor; apply includes_elem_of; reflexivity.
    + intros s [= <-] Hin. apply includes_elem_of in Hin. discriminate Hin.
Defined.

Lemma day_field_is_element (f : Day.field) :
  f <> Day.severerisk -> Day.name f ∈ element_names.
Proof.
  intros Hf. apply includes_elem_of. destruct f; try reflexivity. now destruct Hf.
Qed.

Lemma hour_field_is_element (f : Hour.field) :
  f <> Hour.severerisk -> Hour.name f ∈ element_names.
Proof.
  intros Hf. apply includes_elem_of. destruct f; try reflexivity. now destruct Hf.
Qed.

(** X19. The vocabulary of [validateParamElements] and the accessors: for any
    list of fields of the day catalog, and any list of fields of the hour
    catalog, that does not hold [severerisk], the validator accepts their names
    and returns them joined by commas; [severerisk], which has accessors of
    both granularities, is not in the vocabulary and is rejected. *)
Theorem accessor_fields_as_elements :
  (forall fs : list Day.field,
      Day.severerisk ∉ fs ->
      validateParamElements (VStr <$> (Day.name <$> fs))
      = Ret (VStr (String.concat "," (Day.name <$> fs))))
  /\ (forall fs : list Hour.field,
      Hour.severerisk ∉ fs ->
      validateParamElements (VStr <$> (Hour.name <$> fs))
      = Ret (VStr (String.concat "," (Hour.name <$> fs))))
  /\ validateParamElements [VStr (Day.name Day.severerisk)]
     = Throw (InvalidFormat "validateParamElements" "severerisk")
  /\ validateParamElements [VStr (Hour.name Hour.severerisk)]
     = Throw (InvalidFormat "validateParamElements" "severerisk").
Proof.
  split; [| split; [| split; reflexivity]].
  - intros fs Hfs. unfold validateParamElements.
    rewrite check_each_accepts; [reflexivity |].
    apply Forall_fmap, Forall_forall. intros f Hf. apply day_field_is_element.
    intros ->. contradiction.
  - intros fs Hfs. unfold validateParamElements.
    rewrite check_each_accepts; [reflexivity |].
    apply Forall_fmap, Forall_forall. intros f Hf. apply hour_field_is_element.
    intros ->. contradiction.
Qed.

Lemma accessor_fields_as_elements_witness :
  validateParamElements [VStr "temp"; VStr "sunriseEpoch"; VStr "icon"]
  = Ret (VStr "temp,sunriseEpoch,icon").
Proof.
  apply (proj1 accessor_fields_as_elements [Day.temp; Day.sunriseEpoch; Day.icon]).
  intros H. repeat (apply elem_of_cons in H; destruct H as [H | H]; [discriminate H |]).
  inversion H.
Defined.

(** The scenario of the unit system. *)
Example validateParamUnitGroup_scenario :
  validateParamUnitGroup (VStr "metric") = Ret (VStr "metric")
  /\ validateParamUnitGroup (VStr "IMPERIAL")
     = Throw (InvalidFormat "validateParamUnitGroup" "IMPERIAL")
  /\ validateParamUnitGroup (int 1) = Throw (InvalidType "validateParamUnitGroup" (int 1)).
Proof. repeat split. Qed.

(** ** The daily series, projected *)

Lemma extract_each_spec (elements : list string) (h0 : heap) (xs : list val) (h : heap) :
  field_names elements ->
  (forall l c, h0 !! l = Some c -> h !! l = Some c) ->
  Forall (is_record h0) xs ->
  exists h' subs,
    extract_each xs elements h = (Ret subs, h')
    /\ (forall l c, h !! l = Some c -> h' !! l = Some c)
    /\ Forall2 (projection_of h0 h' elements) xs subs.
Proof.
  intros Hnames Hbase Hxs. revert h Hbase.
  induction Hxs as [| x rest (l & p & -> & Hl) _ IH]; intros h Hbase.
  - exists h, []. repeat split; [auto | constructor].
  - destruct (extract_record h l p elements Hnames (Hbase _ _ Hl)) as (p_sub & Hrun & Hsub).
    set (l1 := fresh (dom h)) in *. set (h1 := <[l1 := HObj p_sub]> h) in *.
    assert (Hframe1 : forall l' c, h !! l' = Some c -> h1 !! l' = Some c).
    { intros l' c Hl'. unfold h1. rewrite lookup_insert_ne; [exact Hl' |].
      apply not_eq_sym. eapply fresh_loc_other, Hl'. }
    destruct (IH h1) as (h' & subs & Hrest & Hframe & Hall).
    { intros l' c Hl'. auto. }
    exists h', (VRef l1 :: subs). split; [| split].
    + cbn [extract_each]. erewrite bind_Ret by exact Hrun.
      erewrite bind_Ret by exact Hrest. reflexivity.
    + intros l' c Hl'. auto.
    + constructor; [| exact Hall].
      exists l, p, l1, p_sub. repeat split; try assumption.
      * destruct (h0 !! l1) as [c |] eqn:E; [| reflexivity].
        apply Hbase in E. unfold l1 in E. rewrite fresh_loc_unused in E. discriminate.
      * apply Hframe. apply lookup_insert_eq.
Qed.

(** X20. On a document whose days are records, [getWeatherDailyData] with a
    non-empty list of elements that are field names (none is a name of
    [Object.prototype]) returns a new array with one new record per day, in
    the order of the days, each holding exactly the requested fields that
    day has; the document and its days are not written. *)
Theorem projected_daily_series
    (this : Weather) (h : heap) (l_doc l_days : loc) (p_doc : gmap string val)
    (xs : list val) (element : string) (elements : list string) :
  weatherData this = VRef l_doc ->
  h !! l_doc = Some (HObj p_doc) ->
  p_doc !! "days" = Some (VRef l_days) ->
  h !! l_days = Some (HArr xs) ->
  Forall (is_record h) xs ->
  field_names (element :: elements) ->
  exists h' l_arr subs,
    getWeatherDailyData this (element :: elements) h = (Ret (VRef l_arr), h')
    /\ h !! l_arr = None
    /\ h' !! l_arr = Some (HArr subs)
    /\ (forall l c, h !! l = Some c -> h' !! l = Some c)
    /\ Forall2 (projection_of h h' (element :: elements)) xs subs.
Proof.
  intros Hthis Hdoc Hdays Harr Hxs Hnames.
  destruct (extract_each_spec (element :: elements) h xs h)
    as (h1 & subs & Hrun & Hframe & Hall); [exact Hnames | auto | exact Hxs |].
  set (l_arr := fresh (dom h1)).
  assert (Hnew : h1 !! l_arr = None) by apply fresh_loc_unused.
  exists (<[l_arr := HArr subs]> h1), l_arr, subs. split; [| split; [| split; [| split]]].
  - unfold getWeatherDailyData, try_catch. cbn [length Nat.ltb Nat.leb].
    erewrite bind_Ret by (eapply days_of_document; eassumption).
    rewrite Hdays. cbn [from_option id].
    erewrite bind_Ret.
    2:{ unfold lift, find_elems, iterate. rewrite Harr. reflexivity. }
    erewrite bind_Ret by exact Hrun. reflexivity.
  - destruct (h !! l_arr) as [c |] eqn:E; [| reflexivity].
    apply Hframe in E. rewrite Hnew in E. discriminate.
  - apply lookup_insert_eq.
  - intros l c Hl. rewrite lookup_insert_ne; [auto |].
    intros <-. apply Hframe in Hl. rewrite Hnew in Hl. discriminate.
  - eapply Forall2_impl; [exact Hall |].
    intros x sub (l & p & l_sub & p_sub & -> & Hl & -> & Hfresh & Hsub & Hp).
    exists l, p, l_sub, p_sub. repeat split; try assumption.
    rewrite lookup_insert_ne; [exact Hsub |].
    intros <-. rewrite Hnew in Hsub. discriminate.
Qed.

Lemma projected_daily_series_witness :
  exists h' l_arr subs,
    getWeatherDailyData Sample.weather ["temp"; "snow"] Sample.store
      = (Ret (VRef l_arr), h')
    /\ Sample.store !! l_arr = None
    /\ h' !! l_arr = Some (HArr subs)
    /\ (forall l c, Sample.store !! l = Some c -> h' !! l = Some c)
    /\ Forall2 (projection_of Sample.store h' ["temp"; "snow"]) [VRef Sample.l_day] subs.
Proof.
  apply (projected_daily_series Sample.weather Sample.store Sample.l_doc Sample.l_days
           Sample.doc_props [VRef Sample.l_day] "temp" ["snow"]); try reflexivity.
  - constructor; [| constructor]. exists Sample.l_day, Sample.day_props. split; reflexivity.
  - apply field_names_check. reflexivity.
Defined.

(** ** The daily and the hourly series *)

(** X21. [setWeatherDailyData] stores any value as the daily series of a
    document, and [getWeatherDailyData()] gives that very value back, the
    falsy ones included; on a document with no [days] field
    [getWeatherDailyData()] is [undefined], but with elements it is [null]. *)
Theorem daily_series_set_then_get
    (this : Weather) (h : heap) (l_doc : loc) (p_doc : gmap string val) (dailyData : val)
    (element : string) (elements : list string) :
  weatherData this = VRef l_doc ->
  h !! l_doc = Some (HObj p_doc) ->
  let h' := <[l_doc := HObj (<["days" := dailyData]> p_doc)]> h in
  setWeatherDailyData this dailyData h = (Ret tt, h')
  /\ getWeatherDailyData this [] h' = (Ret dailyData, h')
  /\ (p_doc !! "days" = None ->
      getWeatherDailyData this [] h = (Ret VUndef, h)
      /\ getWeatherDailyData this (element :: elements) h = (Ret VNull, h)).
Proof.
  intros Hthis Hdoc h'. split; [| split].
  - unfold setWeatherDailyData. rewrite Hthis. now apply set_prop_obj.
  - unfold getWeatherDailyData, try_catch, days. cbn [length Nat.ltb Nat.leb].
    rewrite Hthis. erewrite get_prop_obj by apply lookup_insert_eq.
    rewrite lookup_insert_eq. reflexivity.
  - intros Hnone. split.
    + unfold getWeatherDailyData, try_catch, days. cbn [length Nat.ltb Nat.leb].
      rewrite Hthis. erewrite get_prop_obj by exact Hdoc. rewrite Hnone. reflexivity.
    + unfold getWeatherDailyData, try_catch, days. cbn [length Nat.ltb Nat.leb].
      rewrite Hthis. erewrite bind_Ret by (apply get_prop_obj; exact Hdoc).
      rewrite Hnone. reflexivity.
Qed.

Lemma daily_series_set_then_get_witness :
  let h' := <[Sample.l_doc := HObj (<["days" := VBool false]> Sample.doc_props)]> Sample.store in
  setWeatherDailyData Sample.weather (VBool false) Sample.store = (Ret tt, h')
  /\ getWeatherDailyData Sample.weather [] h' = (Ret (VBool false), h')
  /\ (Sample.doc_props !! "days" = None ->
      getWeatherDailyData Sample.weather [] Sample.store = (Ret VUndef, Sample.store)
      /\ getWeatherDailyData Sample.weather ["temp"] Sample.store = (Ret VNull, Sample.store)).
Proof.
  apply (daily_series_set_then_get Sample.weather Sample.store Sample.l_doc
           Sample.doc_props (VBool false) "temp" []); reflexivity.
Defined.

Lemma hours_of_each_spec (h : heap) (ds : list val) (hss : list (list val)) :
  Forall2 (hours_entry h) ds hss ->
  hours_of_each ds h = (Ret (concat hss), h).
Proof.
  induction 1 as [| day hs ds hss (l & p & -> & Hl & Hcase) _ IH]; [reflexivity |].
  cbn [hours_of_each concat].
  erewrite bind_Ret by (apply get_prop_obj; exact Hl).
  destruct Hcase as [(l_hours & Hp & Hhours) | (Hp & ->)]; rewrite Hp; cbn [from_option id].
  - erewrite bind_Ret by (unfold lift, flatten_one; rewrite Hhours; reflexivity).
    erewrite bind_Ret by exact IH. reflexivity.
  - erewrite bind_Ret by (unfold lift, flatten_one; reflexivity).
    erewrite bind_Ret by exact IH. reflexivity.
Qed.

Section HourlySeries.

Variable this : Weather.
Variable h : heap.
Variables l_doc l_days : loc.
Variable p_doc : gmap string val.
Variable ds : list val.
Variable hss : list (list val).
Hypothesis Hthis : weatherData this = VRef l_doc.
Hypothesis Hdoc : h !! l_doc = Some (HObj p_doc).
Hypothesis Hdays : p_doc !! "days" = Some (VRef l_days).
Hypothesis Harr : h !! l_days = Some (HArr ds).
Hypothesis Hentries : Forall2 (hours_entry h) ds hss.

Let l_flat : loc := fresh (dom h).
Let h_flat : heap := <[l_flat := HArr (concat hss)]> h.

Lemma hourly_series_collected (k : val -> list val -> M val) :
  (ds' <- days this ;;
   items <- lift (fun h => find_elems h ds') ;;
   flat <- hours_of_each items ;;
   hourlyData <- alloc (HArr flat) ;;
   k hourlyData flat) h = k (VRef l_flat) (concat hss) h_flat.
Proof.
  erewrite bind_Ret by (eapply days_of_document; eassumption).
  rewrite Hdays. cbn [from_option id].
  erewrite bind_Ret by (unfold lift, find_elems, iterate; rewrite Harr; reflexivity).
  erewrite bind_Ret by (apply hours_of_each_spec; exact Hentries).
  reflexivity.
Qed.

End HourlySeries.

Lemma extract_each_rejects (elements : list string) (element : string) (h0 : heap)
    (xs : list val) (h : heap) :
  field_names (element :: elements) ->
  (forall l c, h0 !! l = Some c -> h !! l = Some c) ->
  Forall (fun x => is_record h0 x \/ x = VUndef) xs ->
  VUndef ∈ xs ->
  exists h', extract_each xs (element :: elements) h = (Throw NativeTypeError, h').
Proof.
  intros Hnames Hbase Hxs. revert h Hbase.
  induction Hxs as [| x rest Hx _ IH]; intros h Hbase Hin.
  - apply elem_of_nil in Hin. contradiction.
  - destruct Hx as [(l & p & -> & Hl) | ->].
    + apply elem_of_cons in Hin. destruct Hin as [Hin | Hin]; [discriminate |].
      destruct (extract_record h l p (element :: elements) Hnames (Hbase _ _ Hl))
        as (p_sub & Hrun & _).
      destruct (IH (<[fresh (dom h) := HObj p_sub]> h)) as (h' & Hrest); [| exact Hin |].
      { intros l' c Hl'. rewrite lookup_insert_ne; [auto |].
        apply not_eq_sym. eapply fresh_loc_other, Hbase, Hl'. }
      exists h'. cbn [extract_each]. erewrite bind_Ret by exact Hrun.
      erewrite bind_Throw by exact Hrest. reflexivity.
    + eexists. cbn [extract_each]. erewrite bind_Throw; [reflexivity |].
      unfold extractSubobjectByKeys. erewrite bind_Ret by reflexivity.
      erewrite bind_Throw; [reflexivity |].
      cbn [for_each]. erewrite bind_Throw; [reflexivity |].
      erewrite bind_Throw; reflexivity.
Qed.

Lemma day_without_hours_gives_undefined (h : heap) (ds : list val)
    (hss : list (list val)) (l : loc) (p : gmap string val) :
  Forall2 (hours_entry h) ds hss ->
  VRef l ∈ ds -> h !! l = Some (HObj p) -> p !! "hours" = None ->
  VUndef ∈ concat hss.
Proof.
  intros Hentries Hin Hl Hnone.
  induction Hentries as [| day hs ds' hss' Hentry _ IH].
  - apply elem_of_nil in Hin. contradiction.
  - cbn [concat]. apply elem_of_app. apply elem_of_cons in Hin.
    destruct Hin as [<- | Hin]; [left | right; now apply IH].
    destruct Hentry as (l' & p' & E & Hl' & Hcase). injection E as <-.
    rewrite Hl in Hl'. injection Hl' as <-.
    destruct Hcase as [(l_hours & Hp & _) | (_ & ->)]; [congruence |].
    apply list_elem_of_here.
Qed.

(** X22. On a document whose days are records, [getWeatherHourlyData()]
    returns a new array that holds, in the order of the days, the elements of
    the [hours] array of each day, with one [undefined] for each day that
    has no [hours] field; the hour records are those of the document, not
    copies, and the document is not written. *)
Theorem hourly_series_concatenated
    (this : Weather) (h : heap) (l_doc l_days : loc) (p_doc : gmap string val)
    (ds : list val) (hss : list (list val)) :
  weatherData this = VRef l_doc ->
  h !! l_doc = Some (HObj p_doc) ->
  p_doc !! "days" = Some (VRef l_days) ->
  h !! l_days = Some (HArr ds) ->
  Forall2 (hours_entry h) ds hss ->
  exists l_flat,
    h !! l_flat = None
    /\ getWeatherHourlyData this [] h
       = (Ret (VRef l_flat), <[l_flat := HArr (concat hss)]> h).
Proof.
  intros Hthis Hdoc Hdays Harr Hentries. exists (fresh (dom h)).
  split; [apply fresh_loc_unused |].
  unfold getWeatherHourlyData, try_catch. cbn [length Nat.ltb Nat.leb].
  erewrite (hourly_series_collected this h l_doc l_days p_doc ds hss
              Hthis Hdoc Hdays Harr Hentries (fun hourlyData _ => ret hourlyData)).
  reflexivity.
Qed.

Lemma hourly_series_concatenated_witness :
  exists l_flat,
    Sample.store !! l_flat = None
    /\ getWeatherHourlyData Sample.weather [] Sample.store
       = (Ret (VRef l_flat), <[l_flat := HArr (concat [[VRef Sample.l_hour]])]> Sample.store).
Proof.
  apply (hourly_series_concatenated Sample.weather Sample.store Sample.l_doc Sample.l_days
           Sample.doc_props [VRef Sample.l_day] [[VRef Sample.l_hour]]); try reflexivity.
  constructor; [| constructor].
  exists Sample.l_day, Sample.day_props. split; [reflexivity |]. split; [reflexivity |].
  left. exists Sample.l_hours. split; reflexivity.
Defined.

(** X23. With a non-empty list of elements that are field names (none is a
    name of [Object.prototype]) and every hour a record,
    [getWeatherHourlyData] returns a new array with one new record per hour
    of the series, in order, each holding exactly the requested fields that
    hour has; nothing the heap held is written. *)
Theorem projected_hourly_series
    (this : Weather) (h : heap) (l_doc l_days : loc) (p_doc : gmap string val)
    (ds : list val) (hss : list (list val)) (element : string) (elements : list string) :
  weatherData this = VRef l_doc ->
  h !! l_doc = Some (HObj p_doc) ->
  p_doc !! "days" = Some (VRef l_days) ->
  h !! l_days = Some (HArr ds) ->
  Forall2 (hours_entry h) ds hss ->
  Forall (is_record h) (concat hss) ->
  field_names (element :: elements) ->
  exists h' l_arr subs,
    getWeatherHourlyData this (element :: elements) h = (Ret (VRef l_arr), h')
    /\ h !! l_arr = None
    /\ h' !! l_arr = Some (HArr subs)
    /\ (forall l c, h !! l = Some c -> h' !! l = Some c)
    /\ Forall2 (projection_of h h' (element :: elements)) (concat hss) subs.
Proof.
  intros Hthis Hdoc Hdays Harr Hentries Hrecords Hnames.
  set (l_flat := fresh (dom h)). set (h_flat := <[l_flat := HArr (concat hss)]> h).
  assert (Hframe0 : forall l c, h !! l = Some c -> h_flat !! l = Some c).
  { intros l c Hl. unfold h_flat. rewrite lookup_insert_ne; [exact Hl |].
    apply not_eq_sym. eapply fresh_loc_other, Hl. }
  destruct (extract_each_spec (element :: elements) h (concat hss) h_flat
              Hnames Hframe0 Hrecords) as (h1 & subs & Hrun & Hframe & Hall).
  set (l_arr := fresh (dom h1)).
  assert (Hnew : h1 !! l_arr = None) by apply fresh_loc_unused.
  exists (<[l_arr := HArr subs]> h1), l_arr, subs. split; [| split; [| split; [| split]]].
  - unfold getWeatherHourlyData, try_catch. cbn [length Nat.ltb Nat.leb].
    erewrite (hourly_series_collected this h l_doc l_days p_doc ds hss
                Hthis Hdoc Hdays Harr Hentries
                (fun _ flat => subs <- extract_each flat (element :: elements) ;;
                               alloc (HArr subs))).
    fold l_flat h_flat. erewrite bind_Ret by exact Hrun. reflexivity.
  - destruct (h !! l_arr) as [c |] eqn:E; [| reflexivity].
    apply Hframe0, Hframe in E. rewrite Hnew in E. discriminate.
  - apply lookup_insert_eq.
  - intros l c Hl. rewrite lookup_insert_ne; [auto |].
    intros <-. apply Hframe0, Hframe in Hl. rewrite Hnew in Hl. discriminate.
  - eapply Forall2_impl; [exact Hall |].
    intros x sub (l & p & l_sub & p_sub & -> & Hl & -> & Hfresh & Hsub & Hp).
    exists l, p, l_sub, p_sub. repeat split; try assumption.
    rewrite lookup_insert_ne; [exact Hsub |].
    intros <-. rewrite Hnew in Hsub. discriminate.
Qed.

Lemma projected_hourly_series_witness :
  exists h' l_arr subs,
    getWeatherHourlyData Sample.weather ["temp"] Sample.store = (Ret (VRef l_arr), h')
    /\ Sample.store !! l_arr = None
    /\ h' !! l_arr = Some (HArr subs)
    /\ (forall l c, Sample.store !! l = Some c -> h' !! l = Some c)
    /\ Forall2 (projection_of Sample.store h' ["temp"]) (concat [[VRef Sample.l_hour]]) subs.
Proof.
  apply (projected_hourly_series Sample.weather Sample.store Sample.l_doc Sample.l_days
           Sample.doc_props [VRef Sample.l_day] [[VRef Sample.l_hour]] "temp" []);
    try reflexivity.
  - constructor; [| constructor].
    exists Sample.l_day, Sample.day_props. split; [reflexivity |]. split; [reflexivity |].
    left. exists Sample.l_hours. split; reflexivity.
  - constructor; [| constructor].
    exists Sample.l_hour, Sample.hour_props. split; reflexivity.
  - apply field_names_check. reflexivity.
Defined.

(** X24. One day without an [hours] field is enough for
    [getWeatherHourlyData] with elements to return [null]: the [undefined]
    that day gives to the series cannot be projected.  The elements are
    field names (none is a name of [Object.prototype]). *)
Theorem hourly_series_with_a_day_without_hours
    (this : Weather) (h : heap) (l_doc l_days : loc) (p_doc : gmap string val)
    (ds : list val) (hss : list (list val)) (element : string) (elements : list string) :
  weatherData this = VRef l_doc ->
  h !! l_doc = Some (HObj p_doc) ->
  p_doc !! "days" = Some (VRef l_days) ->
  h !! l_days = Some (HArr ds) ->
  Forall2 (hours_entry h) ds hss ->
  Forall (fun x => is_record h x \/ x = VUndef) (concat hss) ->
  (exists l p, VRef l ∈ ds /\ h !! l = Some (HObj p) /\ p !! "hours" = None) ->
  field_names (element :: elements) ->
  fst (getWeatherHourlyData this (element :: elements) h) = Ret VNull.
Proof.
  intros Hthis Hdoc Hdays Harr Hentries Hhours (l & p & Hin & Hl & Hnone) Hnames.
  assert (Hundef : VUndef ∈ concat hss)
    by (eapply day_without_hours_gives_undefined; eassumption).
  set (l_flat := fresh (dom h)). set (h_flat := <[l_flat := HArr (concat hss)]> h).
  assert (Hframe0 : forall l c, h !! l = Some c -> h_flat !! l = Some c).
  { intros l' c Hl'. unfold h_flat. rewrite lookup_insert_ne; [exact Hl' |].
    apply not_eq_sym. eapply fresh_loc_other, Hl'. }
  destruct (extract_each_rejects elements element h (concat hss) h_flat
              Hnames Hframe0 Hhours Hundef) as (h' & Hrun).
  unfold getWeatherHourlyData, try_catch. cbn [length Nat.ltb Nat.leb].
  erewrite (hourly_series_collected this h l_doc l_days p_doc ds hss
              Hthis Hdoc Hdays Harr Hentries
              (fun _ flat => subs <- extract_each flat (element :: elements) ;;
                             alloc (HArr subs))).
  fold l_flat h_flat. erewrite bind_Throw by exact Hrun. reflexivity.
Qed.

Lemma hourly_series_with_a_day_without_hours_witness :
  fst (getWeatherHourlyData Sample.weather ["temp"]
         (<[Sample.l_day := HObj (delete "hours" Sample.day_props)]> Sample.store))
  = Ret VNull.
Proof.
  apply (hourly_series_with_a_day_without_hours Sample.weather
           (<[Sample.l_day := HObj (delete "hours" Sample.day_props)]> Sample.store)
           Sample.l_doc Sample.l_days Sample.doc_props
           [VRef Sample.l_day] [[VUndef]] "temp" []); try reflexivity.
  - constructor; [| constructor].
    exists Sample.l_day, (delete "hours" Sample.day_props).
    split; [reflexivity |]. split; [reflexivity |]. right. split; reflexivity.
  - constructor; [| constructor]. right. reflexivity.
  - exists Sample.l_day, (delete "hours" Sample.day_props).
    split; [apply list_elem_of_here |]. split; reflexivity.
  - apply field_names_check. reflexivity.
Defined.

(** ** The text fields, the stations and a document that is not a record *)

Lemma text_name_inj (f g : Text.field) : Text.name f = Text.name g -> f = g.
Proof. destruct f, g; cbn; intros E; first [reflexivity | discriminate E]. Qed.

(** X25. On a document that is a record, a text setter followed by the
    getter of the same field returns the value written when it is truthy
    and [null] otherwise, and the getters of the other text fields return
    what they returned before. *)
Theorem text_field_set_then_get
    (this : Weather) (h : heap) (l_doc : loc) (p_doc : gmap string val)
    (f : Text.field) (value : val) :
  weatherData this = VRef l_doc ->
  h !! l_doc = Some (HObj p_doc) ->
  let h' := <[l_doc := HObj (<[Text.name f := value]> p_doc)]> h in
  setText this f value h = (Ret tt, h')
  /\ getText this f h' = (Ret (or_null value), h')
  /\ forall g, g <> f -> fst (getText this g h') = fst (getText this g h).
Proof.
  intros Hthis Hdoc h'. split; [| split].
  - unfold setText. rewrite Hthis. now apply set_prop_obj.
  - unfold getText. rewrite Hthis.
    erewrite bind_Ret by (apply get_prop_obj; apply lookup_insert_eq).
    rewrite lookup_insert_eq. reflexivity.
  - intros g Hg. unfold getText. rewrite Hthis.
    erewrite bind_Ret by (apply get_prop_obj; apply lookup_insert_eq).
    erewrite bind_Ret by (apply get_prop_obj; exact Hdoc).
    rewrite lookup_insert_ne; [reflexivity |].
    intros E. apply Hg. symmetry. now apply text_name_inj.
Qed.

Lemma text_field_set_then_get_witness :
  let h' := <[Sample.l_doc := HObj (<["timezone" := VStr ""]> Sample.doc_props)]> Sample.store in
  setText Sample.weather Text.timezone (VStr "") Sample.store = (Ret tt, h')
  /\ getText Sample.weather Text.timezone h' = (Ret (or_null (VStr "")), h')
  /\ forall g, g <> Text.timezone ->
       fst (getText Sample.weather g h') = fst (getText Sample.weather g Sample.store).
Proof.
  apply (text_field_set_then_get Sample.weather Sample.store Sample.l_doc
           Sample.doc_props Text.timezone (VStr "")); reflexivity.
Defined.

(** X26. [getStations] never returns a falsy value: on a document whose
    [stations] field is absent or falsy it returns a new empty array, which
    it does not store, so that a second call returns another one; after
    [setStations] with a truthy value it returns that very value. *)
Theorem stations_default
    (this : Weather) (h : heap) (l_doc : loc) (p_doc : gmap string val) (value : val) :
  weatherData this = VRef l_doc ->
  h !! l_doc = Some (HObj p_doc) ->
  (truthy (default VUndef (p_doc !! "stations")) = false ->
   exists l1 l2,
     l1 <> l2 /\ h !! l1 = None
     /\ getStations this h = (Ret (VRef l1), <[l1 := HArr []]> h)
     /\ getStations this (<[l1 := HArr []]> h)
        = (Ret (VRef l2), <[l2 := HArr []]> (<[l1 := HArr []]> h)))
  /\ (truthy value = true ->
      let h' := <[l_doc := HObj (<["stations" := value]> p_doc)]> h in
      setStations this value h = (Ret tt, h')
      /\ getStations this h' = (Ret value, h')).
Proof.
  intros Hthis Hdoc. split.
  - intros Hfalsy. set (l1 := fresh (dom h)). set (h1 := <[l1 := HArr []]> h).
    assert (Hdiff : l_doc <> l1) by (eapply fresh_loc_other, Hdoc).
    exists l1, (fresh (dom h1)). split; [| split; [| split]].
    + eapply fresh_loc_other. apply lookup_insert_eq.
    + apply fresh_loc_unused.
    + unfold getStations. rewrite Hthis.
      erewrite bind_Ret by (apply get_prop_obj; exact Hdoc).
      rewrite Hfalsy. reflexivity.
    + unfold getStations. rewrite Hthis.
      erewrite bind_Ret.
      2:{ apply get_prop_obj. unfold h1. rewrite lookup_insert_ne by (apply not_eq_sym, Hdiff).
          exact Hdoc. }
      rewrite Hfalsy. reflexivity.
  - intros Htruthy h'. split.
    + unfold setStations. rewrite Hthis. now apply set_prop_obj.
    + unfold getStations. rewrite Hthis.
      erewrite bind_Ret by (apply get_prop_obj; apply lookup_insert_eq).
      rewrite lookup_insert_eq. cbn [from_option id]. rewrite Htruthy. reflexivity.
Qed.

Lemma stations_default_witness :
  (truthy (default VUndef (Sample.doc_props !! "stations")) = false ->
   exists l1 l2,
     l1 <> l2 /\ Sample.store !! l1 = None
     /\ getStations Sample.weather Sample.store
        = (Ret (VRef l1), <[l1 := HArr []]> Sample.store)
     /\ getStations Sample.weather (<[l1 := HArr []]> Sample.store)
        = (Ret (VRef l2), <[l2 := HArr []]> (<[l1 := HArr []]> Sample.store)))
  /\ (truthy (VRef Sample.l_data) = true ->
      let h' := <[Sample.l_doc := HObj (<["stations" := VRef Sample.l_data]> Sample.doc_props)]>
                  Sample.store in
      setStations Sample.weather (VRef Sample.l_data) Sample.store = (Ret tt, h')
      /\ getStations Sample.weather h' = (Ret (VRef Sample.l_data), h')).
Proof.
  apply (stations_default Sample.weather Sample.store Sample.l_doc Sample.doc_props
           (VRef Sample.l_data)); reflexivity.
Defined.

(** X27. After [setWeatherData] with [null] or [undefined],
    [getWeatherData()] returns that value; the eight getters of the
    top-level fields (latitude, longitude, resolved address, address, time
    zone, time-zone offset, query cost, stations) throw a [TypeError], and so
    do the setters that write their field without a check, whatever the
    value: those of the three text fields, of the time-zone offset, of the
    query cost, of the stations and of the daily series ([setLatitude] and
    [setLongitude], which check the range of their argument first, are not
    among them); the getters that catch their errors return [null]:
    [getWeatherData] with elements, the daily and the hourly series, and
    every field getter of day granularity. *)
Theorem document_set_to_nothing
    (this : Weather) (data : val) (h : heap)
    (element : string) (elements : list string) :
  data = VNull \/ data = VUndef ->
  let this' := setWeatherData this data in
  getWeatherData this' [] h = (Ret data, h)
  /\ fst (getWeatherData this' (element :: elements) h) = Ret VNull
  /\ (forall f, getText this' f h = (Throw NativeTypeError, h))
  /\ (forall f value, setText this' f value h = (Throw NativeTypeError, h))
  /\ getStations this' h = (Throw NativeTypeError, h)
  /\ (forall value, setStations this' value h = (Throw NativeTypeError, h))
  /\ getLatitude this' h = (Throw NativeTypeError, h)
  /\ getLongitude this' h = (Throw NativeTypeError, h)
  /\ getTzoffset this' h = (Throw NativeTypeError, h)
  /\ (forall value, setTzoffset this' value h = (Throw NativeTypeError, h))
  /\ getQueryCost this' h = (Throw NativeTypeError, h)
  /\ (forall value, setQueryCost this' value h = (Throw NativeTypeError, h))
  /\ (forall dailyData, setWeatherDailyData this' dailyData h = (Throw NativeTypeError, h))
  /\ (forall es, getWeatherDailyData this' es h = (Ret VNull, h))
  /\ (forall es, getWeatherHourlyData this' es h = (Ret VNull, h))
  /\ (forall f dayInfo, getOnDay this' f dayInfo h = (Ret VNull, h)).
Proof.
  intros [-> | ->] this'; repeat apply conj; try reflexivity;
    try (intros es; destruct es; reflexivity);
    try (intros f dayInfo; destruct dayInfo; reflexivity).
Qed.

Lemma document_set_to_nothing_witness :
  let this' := setWeatherData Sample.weather VNull in
  getWeatherData this' [] Sample.store = (Ret VNull, Sample.store)
  /\ fst (getWeatherData this' ["temp"] Sample.store) = Ret VNull
  /\ (forall f, getText this' f Sample.store = (Throw NativeTypeError, Sample.store))
  /\ (forall f value, setText this' f value Sample.store = (Throw NativeTypeError, Sample.store))
  /\ getStations this' Sample.store = (Throw NativeTypeError, Sample.store)
  /\ (forall value, setStations this' value Sample.store = (Throw NativeTypeError, Sample.store))
  /\ getLatitude this' Sample.store = (Throw NativeTypeError, Sample.store)
  /\ getLongitude this' Sample.store = (Throw NativeTypeError, Sample.store)
  /\ getTzoffset this' Sample.store = (Throw NativeTypeError, Sample.store)
  /\ (forall value, setTzoffset this' value Sample.store = (Throw NativeTypeError, Sample.store))
  /\ getQueryCost this' Sample.store = (Throw NativeTypeError, Sample.store)
  /\ (forall value, setQueryCost this' value Sample.store = (Throw NativeTypeError, Sample.store))
  /\ (forall dailyData,
        setWeatherDailyData this' dailyData Sample.store = (Throw NativeTypeError, Sample.store))
  /\ (forall es, getWeatherDailyData this' es Sample.store = (Ret VNull, Sample.store))
  /\ (forall es, getWeatherHourlyData this' es Sample.store = (Ret VNull, Sample.store))
  /\ (forall f dayInfo, getOnDay this' f dayInfo Sample.store = (Ret VNull, Sample.store)).
Proof.
  apply (document_set_to_nothing Sample.weather VNull Sample.store "temp" []).
  left. reflexivity.
Defined.
